(** * bytenuts: a shallow embedding of [src/bytenuts.c]

    The development follows the C file top to bottom: the termios speed
    constants, the two conversion tables, the command line and
    configuration-file parsers, the status aggregator with its heap of
  [calloc]ed strings, the lock footprint of the functions that run while
    the two engines are alive, and the stop / shutdown protocol. *)

From Stdlib Require Import ZArith List String Ascii Bool Lia.
From stdpp Require Import base tactics option list gmap strings.

Local Open Scope string_scope.
Local Open Scope Z_scope.
Local Open Scope list_scope.

(** ** <termios.h>: the enumerated speeds

  [speed_t] is an unsigned integer; the constants carry the values of
    the Linux [asm-generic/termbits.h] header (written there in octal). *)
Module Termios.

Definition speed_t := Z.

Definition B0 : speed_t := 0.
Definition B50 : speed_t := 1.
Definition B75 : speed_t := 2.
Definition B110 : speed_t := 3.
Definition B134 : speed_t := 4.
Definition B150 : speed_t := 5.
Definition B200 : speed_t := 6.
Definition B300 : speed_t := 7.
Definition B600 : speed_t := 8.
Definition B1200 : speed_t := 9.
Definition B1800 : speed_t := 10.
Definition B2400 : speed_t := 11.
Definition B4800 : speed_t := 12.
Definition B9600 : speed_t := 13.
Definition B19200 : speed_t := 14.
Definition B38400 : speed_t := 15.
Definition B57600 : speed_t := 4097.
Definition B115200 : speed_t := 4098.
Definition B230400 : speed_t := 4099.
Definition B460800 : speed_t := 4100.
Definition B500000 : speed_t := 4101.
Definition B576000 : speed_t := 4102.
Definition B921600 : speed_t := 4103.
Definition B1000000 : speed_t := 4104.
Definition B1152000 : speed_t := 4105.
Definition B1500000 : speed_t := 4106.
Definition B2000000 : speed_t := 4107.
Definition B2500000 : speed_t := 4108.
Definition B3000000 : speed_t := 4109.
Definition B3500000 : speed_t := 4110.
Definition B4000000 : speed_t := 4111.

End Termios.

(** ** <string.h>

    A C string is modelled by the characters before its terminating NUL,
    so [strcmp a b == 0] is equality of the two [string]s. *)
Module CString.

Definition strcmp_eq (a b : string) : bool := String.eqb a b.

End CString.

(** ** The two speed tables *)
Module Speed.
Import Termios CString.

(** [string_to_speed], lines 386-451: a chain of [strcmp] tests. *)
Definition string_to_speed (speed : string) : speed_t :=
  if strcmp_eq "50" speed then B50
  else if strcmp_eq "75" speed then B75
  else if strcmp_eq "110" speed then B110
  else if strcmp_eq "134" speed then B134
  else if strcmp_eq "150" speed then B150
  else if strcmp_eq "200" speed then B200
  else if strcmp_eq "300" speed then B300
  else if strcmp_eq "600" speed then B600
  else if strcmp_eq "1200" speed then B1200
  else if strcmp_eq "1800" speed then B1800
  else if strcmp_eq "2400" speed then B2400
  else if strcmp_eq "4800" speed then B4800
  else if strcmp_eq "9600" speed then B9600
  else if strcmp_eq "19200" speed then B19200
  else if strcmp_eq "38400" speed then B38400
  else if strcmp_eq "57600" speed then B57600
  else if strcmp_eq "115200" speed then B1152000
  else if strcmp_eq "230400" speed then B230400
  else if strcmp_eq "460800" speed then B460800
  else if strcmp_eq "500000" speed then B500000
  else if strcmp_eq "576000" speed then B576000
  else if strcmp_eq "921600" speed then B921600
  else if strcmp_eq "1000000" speed then B1000000
  else if strcmp_eq "1152000" speed then B1152000
  else if strcmp_eq "1500000" speed then B1500000
  else if strcmp_eq "2000000" speed then B2000000
  else if strcmp_eq "2500000" speed then B2500000
  else if strcmp_eq "3000000" speed then B3000000
  else if strcmp_eq "3500000" speed then B3500000
  else if strcmp_eq "4000000" speed then B4000000
  else B0.

(** [speed_to_string], lines 453-518: a chain of integer comparisons. *)
Definition speed_to_string (speed : speed_t) : string :=
  if Z.eqb speed B50 then "B50"
  else if Z.eqb speed B75 then "B75"
  else if Z.eqb speed B110 then "B110"
  else if Z.eqb speed B134 then "B134"
  else if Z.eqb speed B150 then "B150"
  else if Z.eqb speed B200 then "B200"
  else if Z.eqb speed B300 then "B300"
  else if Z.eqb speed B600 then "B600"
  else if Z.eqb speed B1200 then "B1200"
  else if Z.eqb speed B1800 then "B1800"
  else if Z.eqb speed B2400 then "B2400"
  else if Z.eqb speed B4800 then "B4800"
  else if Z.eqb speed B9600 then "B9600"
  else if Z.eqb speed B19200 then "B19200"
  else if Z.eqb speed B38400 then "B38400"
  else if Z.eqb speed B57600 then "B57600"
  else if Z.eqb speed B115200 then "B1152000"
  else if Z.eqb speed B230400 then "B230400"
  else if Z.eqb speed B460800 then "B460800"
  else if Z.eqb speed B500000 then "B500000"
  else if Z.eqb speed B576000 then "B576000"
  else if Z.eqb speed B921600 then "B921600"
  else if Z.eqb speed B1000000 then "B1000000"
  else if Z.eqb speed B1152000 then "B1152000"
  else if Z.eqb speed B1500000 then "B1500000"
  else if Z.eqb speed B2000000 then "B2000000"
  else if Z.eqb speed B2500000 then "B2500000"
  else if Z.eqb speed B3000000 then "B3000000"
  else if Z.eqb speed B3500000 then "B3500000"
  else if Z.eqb speed B4000000 then "B4000000"
  else "".

(** The rate names that [string_to_speed] tests for, in source order. *)
Definition standard_rates : list string :=
  [ "50"; "75"; "110"; "134"; "150"; "200"; "300"; "600"; "1200"; "1800";
    "2400"; "4800"; "9600"; "19200"; "38400"; "57600"; "115200"; "230400";
    "460800"; "500000"; "576000"; "921600"; "1000000"; "1152000";
    "1500000"; "2000000"; "2500000"; "3000000"; "3500000"; "4000000" ].

End Speed.

(** ** The session struct [bytenuts_t]

    [bytenuts.h] is not part of the sources at hand; the two records list
    the fields that [bytenuts.c] reads and writes.  The three flags are
    [int]s, [escape] is a [char], the paths are [char *] (NULL is [None]),
    the status slots are [char *] into the heap of [calloc]ed strings and
    the window fields are [WINDOW *].  The [pthread] objects of the struct
    ([lock], [term_lock], [stop_cond]) are named by [lock_id] below and
    their state is kept with the rest of the process state. *)
Module Session.
Import Termios.

Record bytenuts_config_t := mk_config {
  colors : Z;
  echo : Z;
  no_crlf : Z;
  escape : ascii;
  baud : speed_t;
  config_path : option string;
  log_path : option string;
  serial_path : option string
}.

Definition loc := positive.

Inductive win_id := STATUS_WIN | OUT_WIN | IN_WIN.

Record bytenuts_t := mk_bytenuts {
  config : bytenuts_config_t;
  config_overrides : list Z;
  serial_fd : Z;
  status_win : option win_id;
  out_win : option win_id;
  in_win : option win_id;
  bytenuts_status : option loc;
  ingest_status : option loc;
  cheerios_status : option loc;
  cmdpg_status : option loc
}.

(** [memset(&bytenuts, 0, sizeof(bytenuts_t))], line 40.  The override
    array has one entry per overridable key. *)
Definition bytenuts_zero : bytenuts_t :=
  {| config := mk_config 0 0 0 "000"%char 0 None None None;
     config_overrides := [0; 0; 0; 0];
     serial_fd := 0;
     status_win := None; out_win := None; in_win := None;
     bytenuts_status := None; ingest_status := None;
     cheerios_status := None; cmdpg_status := None |}.

Definition set_config (c : bytenuts_config_t) (b : bytenuts_t) : bytenuts_t :=
  {| config := c; config_overrides := config_overrides b;
     serial_fd := serial_fd b;
     status_win := status_win b; out_win := out_win b; in_win := in_win b;
     bytenuts_status := bytenuts_status b; ingest_status := ingest_status b;
     cheerios_status := cheerios_status b; cmdpg_status := cmdpg_status b |}.

Definition set_config_overrides (o : list Z) (b : bytenuts_t) : bytenuts_t :=
  {| config := config b; config_overrides := o;
     serial_fd := serial_fd b;
     status_win := status_win b; out_win := out_win b; in_win := in_win b;
     bytenuts_status := bytenuts_status b; ingest_status := ingest_status b;
     cheerios_status := cheerios_status b; cmdpg_status := cmdpg_status b |}.

Definition set_colors (v : Z) (c : bytenuts_config_t) : bytenuts_config_t :=
  mk_config v (echo c) (no_crlf c) (escape c) (baud c)
            (config_path c) (log_path c) (serial_path c).
Definition set_echo (v : Z) (c : bytenuts_config_t) : bytenuts_config_t :=
  mk_config (colors c) v (no_crlf c) (escape c) (baud c)
            (config_path c) (log_path c) (serial_path c).
Definition set_no_crlf (v : Z) (c : bytenuts_config_t) : bytenuts_config_t :=
  mk_config (colors c) (echo c) v (escape c) (baud c)
            (config_path c) (log_path c) (serial_path c).
Definition set_escape (v : ascii) (c : bytenuts_config_t) : bytenuts_config_t :=
  mk_config (colors c) (echo c) (no_crlf c) v (baud c)
            (config_path c) (log_path c) (serial_path c).
Definition set_baud (v : speed_t) (c : bytenuts_config_t) : bytenuts_config_t :=
  mk_config (colors c) (echo c) (no_crlf c) (escape c) v
            (config_path c) (log_path c) (serial_path c).
Definition set_config_path (v : option string) (c : bytenuts_config_t)
  : bytenuts_config_t :=
  mk_config (colors c) (echo c) (no_crlf c) (escape c) (baud c)
            v (log_path c) (serial_path c).
Definition set_log_path (v : option string) (c : bytenuts_config_t)
  : bytenuts_config_t :=
  mk_config (colors c) (echo c) (no_crlf c) (escape c) (baud c)
            (config_path c) v (serial_path c).
Definition set_serial_path (v : option string) (c : bytenuts_config_t)
  : bytenuts_config_t :=
  mk_config (colors c) (echo c) (no_crlf c) (escape c) (baud c)
            (config_path c) (log_path c) v.

Definition set_serial_fd (fd : Z) (b : bytenuts_t) : bytenuts_t :=
  mk_bytenuts (config b) (config_overrides b) fd
    (status_win b) (out_win b) (in_win b)
    (bytenuts_status b) (ingest_status b) (cheerios_status b) (cmdpg_status b).
Definition set_status_win (v : option win_id) (b : bytenuts_t) : bytenuts_t :=
  mk_bytenuts (config b) (config_overrides b) (serial_fd b)
    v (out_win b) (in_win b)
    (bytenuts_status b) (ingest_status b) (cheerios_status b) (cmdpg_status b).
Definition set_out_win (v : option win_id) (b : bytenuts_t) : bytenuts_t :=
  mk_bytenuts (config b) (config_overrides b) (serial_fd b)
    (status_win b) v (in_win b)
    (bytenuts_status b) (ingest_status b) (cheerios_status b) (cmdpg_status b).
Definition set_in_win (v : option win_id) (b : bytenuts_t) : bytenuts_t :=
  mk_bytenuts (config b) (config_overrides b) (serial_fd b)
    (status_win b) (out_win b) v
    (bytenuts_status b) (ingest_status b) (cheerios_status b) (cmdpg_status b).
Definition set_bytenuts_status (v : option loc) (b : bytenuts_t) : bytenuts_t :=
  mk_bytenuts (config b) (config_overrides b) (serial_fd b)
    (status_win b) (out_win b) (in_win b)
    v (ingest_status b) (cheerios_status b) (cmdpg_status b).
Definition set_ingest_status (v : option loc) (b : bytenuts_t) : bytenuts_t :=
  mk_bytenuts (config b) (config_overrides b) (serial_fd b)
    (status_win b) (out_win b) (in_win b)
    (bytenuts_status b) v (cheerios_status b) (cmdpg_status b).
Definition set_cheerios_status (v : option loc) (b : bytenuts_t) : bytenuts_t :=
  mk_bytenuts (config b) (config_overrides b) (serial_fd b)
    (status_win b) (out_win b) (in_win b)
    (bytenuts_status b) (ingest_status b) v (cmdpg_status b).
Definition set_cmdpg_status (v : option loc) (b : bytenuts_t) : bytenuts_t :=
  mk_bytenuts (config b) (config_overrides b) (serial_fd b)
    (status_win b) (out_win b) (in_win b)
    (bytenuts_status b) (ingest_status b) (cheerios_status b) v.

(** [bytenuts.config.f = v] and [bytenuts.config_overrides[k] = 1]. *)
Definition upd_config (f : bytenuts_config_t -> bytenuts_config_t)
  (b : bytenuts_t) : bytenuts_t := set_config (f (config b)) b.
Definition set_override (k : nat) (b : bytenuts_t) : bytenuts_t :=
  set_config_overrides (<[k := 1]> (config_overrides b)) b.
(** [bytenuts.config_overrides[k]] as a C truth value. *)
Definition overridden (k : nat) (b : bytenuts_t) : bool :=
  negb (Z.eqb (nth k (config_overrides b) 0) 0).

End Session.

(** ** Command line and configuration file *)
Module Config.
Import Termios CString Speed Session.

(** [memcmp(a, key, n) == 0] on a string [a] known to hold at least [n]
    characters: the first [n] characters agree. *)
Definition memcmp_eq (a key : string) (n : nat) : bool :=
  String.eqb (substring 0 n a) (substring 0 n key).

(** [argv[i][k]]; the terminating NUL when [k] is the length. *)
Definition char_at (a : string) (k : nat) : ascii :=
  match String.get k a with Some c => c | None => "000"%char end.

Definition is_char (c d : ascii) : bool := Ascii.eqb c d.

(** The [for] loop of [parse_args], lines 282-340, over
    [argv[1] .. argv[argc - 2]].  An option that takes a value ([-b], [-l],
    [-c]) advances [i]; when the value would be [argv[argc - 1]] the parse
    fails. *)
Fixpoint parse_args_loop (args : list string) (b : bytenuts_t)
  : Z * bytenuts_t :=
  match args with
  | [] => (0, b)
  | a :: rest =>
    let arg_len := String.length a in
    if strcmp_eq a "-h" then (-1, b)
    else if strcmp_eq a "-b" then
      match rest with
      | [] => (-1, b)
      | v :: rest' =>
        parse_args_loop rest' (upd_config (set_baud (string_to_speed v)) b)
      end
    else if strcmp_eq a "-l" then
      match rest with
      | [] => (-1, b)
      | v :: rest' => parse_args_loop rest' (upd_config (set_log_path (Some v)) b)
      end
    else if strcmp_eq a "-c" then
      match rest with
      | [] => (-1, b)
      | v :: rest' =>
        parse_args_loop rest' (upd_config (set_config_path (Some v)) b)
      end
    else if Nat.eqb arg_len 10 && memcmp_eq a "--colors=" 9 then
      let b1 :=
        if is_char (char_at a 9) "1" then upd_config (set_colors 1) b
        else if is_char (char_at a 9) "0" then upd_config (set_colors 0) b
        else b in
      parse_args_loop rest (set_override 0 b1)
    else if Nat.eqb arg_len 8 && memcmp_eq a "--echo=" 7 then
      let b1 :=
        if is_char (char_at a 7) "1" then upd_config (set_echo 1) b
        else if is_char (char_at a 7) "0" then upd_config (set_echo 0) b
        else b in
      parse_args_loop rest (set_override 1 b1)
    else if Nat.eqb arg_len 11 && memcmp_eq a "--no_crlf=" 10 then
      let b1 :=
        if is_char (char_at a 10) "1" then upd_config (set_no_crlf 1) b
        else if is_char (char_at a 10) "0" then upd_config (set_no_crlf 0) b
        else b in
      parse_args_loop rest (set_override 2 b1)
    else if Nat.eqb arg_len 10 && memcmp_eq a "--escape=" 9 then
      parse_args_loop rest
        (set_override 3 (upd_config (set_escape (char_at a 9)) b))
    else (-1, b)
  end.

(** [parse_args], lines 264-345.  [dflt] is the [CONFIG_DEFAULT] macro of
    the missing header and [home] the value of [getenv("HOME")]. *)
Definition parse_args (dflt : bytenuts_config_t) (home : string)
  (argv : list string) (b : bytenuts_t) : Z * bytenuts_t :=
  let argc := length argv in
  if (argc <? 2)%nat then (-1, b)
  else if Nat.eqb argc 2 && strcmp_eq (nth 1 argv "") "-h" then (-1, b)
  else
    let b := set_config dflt b in
    let b :=
      upd_config (set_config_path (Some (home +:+ "/.config/bytenuts/config"))) b in
    match parse_args_loop (removelast (tl argv)) b with
    | (0, b) =>
      (0, upd_config (set_serial_path (Some (nth (argc - 1) argv ""))) b)
    | (_, b) => (-1, b)
    end.

(** *** <stdio.h>: [fgets] on the configuration file

    A stream is the text that is still unread.  [fgets(line, size, fd)]
    takes at most [size - 1] characters and stops after a newline; it
    stores them at the start of [line] followed by a NUL and leaves the
    rest of the array as it was.  At end of file nothing is stored and the
    result is NULL. *)
Definition NUL : ascii := "000"%char.
Definition LF : ascii := "010"%char.

Fixpoint fgets_take (n : nat) (stream : string) : list ascii * string :=
  match n, stream with
  | O, _ => ([], stream)
  | S _, EmptyString => ([], EmptyString)
  | S n', String c rest =>
    if is_char c LF then ([c], rest)
    else let '(chunk, rest') := fgets_take n' rest in (c :: chunk, rest')
  end.

Definition fgets (line : list ascii) (size : nat) (stream : string)
  : option (list ascii * string) :=
  match stream with
  | EmptyString => None
  | _ =>
    let '(chunk, rest) := fgets_take (size - 1) stream in
    Some ((chunk ++ NUL :: drop (S (length chunk)) line)%list, rest)
  end.

(** [memcmp(line, key, n) == 0] on the array [line]. *)
Definition line_memcmp_eq (line : list ascii) (key : string) (n : nat) : bool :=
  bool_decide (take n line = take n (list_ascii_of_string key)).

(** [line[k]]. *)
Definition line_at (line : list ascii) (k : nat) : ascii := nth k line NUL.

(** The body of the [while] loop of [load_configs], lines 360-380. *)
Definition load_configs_line (line : list ascii) (b : bytenuts_t) : bytenuts_t :=
  if negb (overridden 0 b) && line_memcmp_eq line "colors=" 7 then
    if is_char (line_at line 7) "0" then upd_config (set_colors 0) b
    else if is_char (line_at line 7) "1" then upd_config (set_colors 1) b
    else b
  else if negb (overridden 1 b) && line_memcmp_eq line "echo=" 5 then
    if is_char (line_at line 5) "0" then upd_config (set_echo 0) b
    else if is_char (line_at line 5) "1" then upd_config (set_echo 1) b
    else b
  else if negb (overridden 2 b) && line_memcmp_eq line "no_crlf=" 8 then
    if is_char (line_at line 8) "0" then upd_config (set_no_crlf 0) b
    else if is_char (line_at line 8) "1" then upd_config (set_no_crlf 1) b
    else b
  else if negb (overridden 3 b) && line_memcmp_eq line "escape=" 7 then
    upd_config (set_escape (line_at line 7)) b
  else b.

(** [while (fgets(line, sizeof(line), fd) != NULL) { ... }].  Every
    successful [fgets] consumes a character, so [fuel] equal to the length
    of the stream is never exhausted before end of file. *)
Fixpoint load_configs_loop (fuel : nat) (line : list ascii) (stream : string)
  (b : bytenuts_t) : bytenuts_t :=
  match fuel with
  | O => b
  | S fuel' =>
    match fgets line 128 stream with
    | None => b
    | Some (line', rest) =>
      load_configs_loop fuel' line' rest (load_configs_line line' b)
    end
  end.

(** [load_configs], lines 347-384.  [fs] is the file system as [fopen]
    sees it (the text of a readable file, or [None]); [line0] is the
    uninitialised content of the array [line[128]]. *)
Definition load_configs (fs : string -> option string) (line0 : list ascii)
  (b : bytenuts_t) : Z * bytenuts_t :=
  match config_path (config b) ≫= fs with
  | None => (0, b)
  | Some text => (0, load_configs_loop (String.length text) line0 text b)
  end.

(** The start of [bytenuts_run], lines 40-49: clear the session, parse the
    command line, then read the configuration file.  [None] is the early
    [return -1]. *)
Definition bytenuts_run_configure (dflt : bytenuts_config_t) (home : string)
  (fs : string -> option string) (line0 : list ascii) (argv : list string)
  : option bytenuts_t :=
  let b := bytenuts_zero in
  match parse_args dflt home argv b with
  | (0, b) =>
    match load_configs fs line0 b with
    | (0, b) => Some b
    | _ => None
    end
  | _ => None
  end.

End Config.

(** ** Vocabulary for the statements about the configuration

    The four keys that both the command line and the file can set, the
    text of a file as the successive results of [fgets], and what a single
    line of the file says about a key. *)
Module ConfigSpec.
Import Termios CString Speed Session Config.

Inductive config_key := KEY_COLORS | KEY_ECHO | KEY_NO_CRLF | KEY_ESCAPE.

#[global] Instance config_key_eq_dec : EqDecision config_key.
Proof. solve_decision. Defined.

(** Index of the key in [config_overrides]. *)
Definition key_index (k : config_key) : nat :=
  match k with
  | KEY_COLORS => 0 | KEY_ECHO => 1 | KEY_NO_CRLF => 2 | KEY_ESCAPE => 3
  end%nat.

(** The text that starts a line for the key in the file. *)
Definition key_prefix (k : config_key) : string :=
  match k with
  | KEY_COLORS => "colors=" | KEY_ECHO => "echo="
  | KEY_NO_CRLF => "no_crlf=" | KEY_ESCAPE => "escape="
  end.

(** The command-line flag of the key. *)
Definition key_flag (k : config_key) : string := "--" +:+ key_prefix k.

(** The field of the key, as an integer (a [char] is its code). *)
Definition config_field (k : config_key) (c : bytenuts_config_t) : Z :=
  match k with
  | KEY_COLORS => colors c
  | KEY_ECHO => echo c
  | KEY_NO_CRLF => no_crlf c
  | KEY_ESCAPE => Z.of_nat (nat_of_ascii (escape c))
  end.

Definition field_of (k : config_key) (b : bytenuts_t) : Z :=
  config_field k (config b).

(** [b1] is [b] after some options were processed: no override flag was
    cleared, and a key whose flag is still clear kept its value. *)
Definition options_applied (b b1 : bytenuts_t) : Prop :=
  length (config_overrides b1) = 4%nat /\
  forall k,
    (overridden (key_index k) b = true -> overridden (key_index k) b1 = true) /\
    (overridden (key_index k) b1 = false -> field_of k b1 = field_of k b).

(** The characters of the file as [fgets] hands them out, one piece per
    call: a piece ends after a newline, after 127 characters, or at end of
    file. *)
Fixpoint fgets_pieces (fuel : nat) (stream : string) : list (list ascii) :=
  match fuel with
  | O => []
  | S fuel' =>
    match stream with
    | EmptyString => []
    | _ =>
      let '(chunk, rest) := fgets_take 127 stream in
      chunk :: fgets_pieces fuel' rest
    end
  end.

Definition file_lines (text : string) : list (list ascii) :=
  fgets_pieces (String.length text) text.

(** What one line says about a key: [Some v] when the line starts with
    the key's prefix and carries a value the parser takes ([0] or [1] for
    the three flags, any character for [escape]). *)
Definition line_setting (k : config_key) (l : list ascii) : option Z :=
  let key := list_ascii_of_string (key_prefix k) in
  if bool_decide (key `prefix_of` l) then
    let c := nth (length key) l NUL in
    match k with
    | KEY_ESCAPE => Some (Z.of_nat (nat_of_ascii c))
    | _ =>
      if is_char c "0" then Some 0
      else if is_char c "1" then Some 1
      else None
    end
  else None.

(** The setting of the last line that has one for the key. *)
Fixpoint last_setting (k : config_key) (lines : list (list ascii)) : option Z :=
  match lines with
  | [] => None
  | l :: rest =>
    match last_setting k rest with
    | Some v => Some v
    | None => line_setting k l
    end
  end.

(** The setting of the first line that has one for the key. *)
Fixpoint first_setting (k : config_key) (lines : list (list ascii)) : option Z :=
  match lines with
  | [] => None
  | l :: rest =>
    match line_setting k l with
    | Some v => Some v
    | None => first_setting k rest
    end
  end.

(** The lines of the file that [load_configs] opens; no lines when the
    file cannot be opened. *)
Definition config_file_lines (fs : string -> option string) (b : bytenuts_t)
  : list (list ascii) :=
  match config_path (config b) ≫= fs with
  | Some text => file_lines text
  | None => []
  end.


(** A single character as a string, and a newline-terminated line. *)
Definition str1 (c : ascii) : string := String c EmptyString.
Definition ln (s : string) : string := s +:+ str1 LF.

End ConfigSpec.

(** ** The process around the session struct

    Everything that [bytenuts.c] reaches through a library: the heap of
    [calloc]ed strings, the three ncurses windows, the two mutexes and the
    condition variable, the two engines, and the open file descriptors.
    Every library call is also appended to [trace], in program order. *)
Module Runtime.
Import Session.

Inductive lock_id := LOCK | TERM_LOCK.
Inductive engine := INGEST | CHEERIOS.

#[global] Instance lock_id_eq_dec : EqDecision lock_id.
Proof. solve_decision. Defined.
#[global] Instance engine_eq_dec : EqDecision engine.
Proof. solve_decision. Defined.
#[global] Instance win_id_eq_dec : EqDecision win_id.
Proof. solve_decision. Defined.

(** An ncurses window: size, position on the screen, cursor, and the
    characters of its rows. *)
Record window := mk_window {
  w_lines : Z;
  w_cols : Z;
  w_begy : Z;
  w_begx : Z;
  w_cury : Z;
  w_curx : Z;
  w_rows : list (list ascii)
}.

Record screen := mk_screen {
  win_status : option window;
  win_out : option window;
  win_in : option window;
  cursor_visibility : Z;
  LINES : Z;
  COLS : Z
}.

Record sync := mk_sync {
  held : list lock_id;      (* mutexes held by the running thread *)
  cond_waiting : bool;      (* main is blocked in [pthread_cond_wait] *)
  cond_woken : bool;        (* the blocked main has been signalled *)
  ingest_running : bool;
  cheerios_running : bool
}.

Inductive curses_call :=
| Initscr
| Newwin (w : win_id) (nlines ncols begy begx : Z)
| Getyx (w : win_id)
| Getmaxx (w : win_id)
| CursSet (v : Z)
| Wmove (w : win_id) (y x : Z)
| Waddch (w : win_id) (c : ascii)
| Wprintw (w : win_id) (text : string)
| Wrefresh (w : win_id)
| Refresh
| Wresize (w : win_id) (nlines ncols : Z)
| Mvwin (w : win_id) (y x : Z)
| Delwin (w : win_id)
| Endwin.

Inductive event :=
| EvLock (l : lock_id)
| EvUnlock (l : lock_id)
| EvCondSignal
| EvCondWait
| EvCalloc (p : loc)
| EvFree (p : loc)
| EvStatusStore (user : Z)   (* a status field of the struct is assigned *)
| EvStatusLoad               (* the four status fields are read *)
| EvCurses (c : curses_call)
| EvEngineStart (e : engine)
| EvEngineStop (e : engine)
| EvCheeriosInsert (text : string)
| EvClose (fd : Z)
| EvCall (name : string).  (* a library call with no effect on this state *)

Record world := mk_world {
  bn : bytenuts_t;
  heap : gmap loc string;
  scr : screen;
  syn : sync;
  open_fds : list Z;
  trace : list event
}.

(** *** A state monad with undefined behaviour

    [None] stands for what C leaves undefined or what never returns: a
    [free] or a [%s] of a dangling pointer, a call on a window that does
    not exist, locking a mutex the thread already holds. *)
Definition M (A : Type) : Type := world -> option (A * world).

#[global] Instance M_ret : MRet M := fun A (a : A) w => Some (a, w).
#[global] Instance M_bind : MBind M := fun A B (f : A -> M B) (m : M A) w =>
  match m w with
  | Some (a, w') => f a w'
  | None => None
  end.

Definition get : M world := fun w => Some (w, w).
Definition put (w : world) : M unit := fun _ => Some (tt, w).
Definition undefined {A} : M A := fun _ => None.

Definition with_bn (f : bytenuts_t -> bytenuts_t) (w : world) : world :=
  mk_world (f (bn w)) (heap w) (scr w) (syn w) (open_fds w) (trace w).
Definition with_heap (f : gmap loc string -> gmap loc string) (w : world) : world :=
  mk_world (bn w) (f (heap w)) (scr w) (syn w) (open_fds w) (trace w).
Definition with_scr (f : screen -> screen) (w : world) : world :=
  mk_world (bn w) (heap w) (f (scr w)) (syn w) (open_fds w) (trace w).
Definition with_syn (f : sync -> sync) (w : world) : world :=
  mk_world (bn w) (heap w) (scr w) (f (syn w)) (open_fds w) (trace w).
Definition with_fds (f : list Z -> list Z) (w : world) : world :=
  mk_world (bn w) (heap w) (scr w) (syn w) (f (open_fds w)) (trace w).
Definition logged (e : event) (w : world) : world :=
  mk_world (bn w) (heap w) (scr w) (syn w) (open_fds w) (trace w ++ [e]).

Definition upd_bn (f : bytenuts_t -> bytenuts_t) : M unit :=
  fun w => Some (tt, with_bn f w).
Definition upd_heap (f : gmap loc string -> gmap loc string) : M unit :=
  fun w => Some (tt, with_heap f w).
Definition upd_scr (f : screen -> screen) : M unit :=
  fun w => Some (tt, with_scr f w).
Definition upd_syn (f : sync -> sync) : M unit :=
  fun w => Some (tt, with_syn f w).
Definition upd_fds (f : list Z -> list Z) : M unit :=
  fun w => Some (tt, with_fds f w).
Definition log (e : event) : M unit :=
  fun w => Some (tt, logged e w).

(** [for (i = 0; i < n; i++) body] for a body that does not use [i]. *)
Fixpoint for_ (n : nat) (body : M unit) : M unit :=
  match n with
  | O => mret tt
  | S n' => body ;; for_ n' body
  end.

(** *** <pthread.h> *)
Definition set_held (h : list lock_id) (s : sync) : sync :=
  mk_sync h (cond_waiting s) (cond_woken s) (ingest_running s) (cheerios_running s).
Definition set_cond (waiting woken : bool) (s : sync) : sync :=
  mk_sync (held s) waiting woken (ingest_running s) (cheerios_running s).
Definition set_engine (e : engine) (v : bool) (s : sync) : sync :=
  match e with
  | INGEST => mk_sync (held s) (cond_waiting s) (cond_woken s) v (cheerios_running s)
  | CHEERIOS => mk_sync (held s) (cond_waiting s) (cond_woken s) (ingest_running s) v
  end.

Definition pthread_mutex_lock (l : lock_id) : M unit :=
  w ← get;
  if bool_decide (l ∈ held (syn w)) then undefined
  else log (EvLock l) ;; upd_syn (fun s => set_held (l :: held s) s).

Definition pthread_mutex_unlock (l : lock_id) : M unit :=
  w ← get;
  if bool_decide (l ∈ held (syn w)) then
    log (EvUnlock l) ;;
    upd_syn (fun s => set_held (filter (fun l' => l' ≠ l) (held s)) s)
  else undefined.

(** [pthread_cond_signal(&bytenuts.stop_cond)]: wakes the thread blocked
    on the condition variable, and has no effect when no thread is. *)
Definition pthread_cond_signal : M unit :=
  log EvCondSignal ;;
  upd_syn (fun s => if cond_waiting s then set_cond false true s else s).

(** [pthread_cond_wait(&bytenuts.stop_cond, &bytenuts.lock)], up to the
    point where the caller blocks: the mutex is released and the caller is
    recorded as waiting. *)
Definition pthread_cond_wait_block : M unit :=
  w ← get;
  if bool_decide (LOCK ∈ held (syn w)) then
    log EvCondWait ;;
    upd_syn (fun s => set_cond true false
                        (set_held (filter (fun l' => l' ≠ LOCK) (held s)) s))
  else undefined.

(** The return from [pthread_cond_wait] once signalled: the mutex is
    taken again. *)
Definition pthread_cond_wait_return : M unit :=
  w ← get;
  if cond_woken (syn w) then
    upd_syn (set_cond false false) ;;
    upd_syn (fun s => set_held (LOCK :: held s) s)
  else undefined.

(** *** <stdlib.h>, <unistd.h> *)

(** [calloc] followed by [vsnprintf]: a fresh block holding [text]. *)
Definition calloc_text (text : string) : M loc :=
  w ← get;
  let p := fresh (dom (heap w)) in
  log (EvCalloc p) ;;
  upd_heap (insert p text) ;;
  mret p.

Definition free (p : loc) : M unit :=
  w ← get;
  match heap w !! p with
  | Some _ => log (EvFree p) ;; upd_heap (delete p)
  | None => undefined
  end.

(** The text behind a [char *] passed for [%s]; glibc prints a NULL
    pointer as [(null)]. *)
Definition string_of_ptr (p : option loc) : M string :=
  match p with
  | None => mret "(null)"
  | Some l =>
    w ← get;
    match heap w !! l with
    | Some s => mret s
    | None => undefined
    end
  end.

(** [strdup]. *)
Definition strdup (text : string) : M (option loc) :=
  p ← calloc_text text; mret (Some p).

(** A field of the global [bytenuts]. *)
Definition field {A} (f : bytenuts_t -> A) : M A :=
  w ← get; mret (f (bn w)).

(** A library call that changes nothing of the state kept here. *)
Definition call (name : string) : M unit := log (EvCall name).

Definition close (fd : Z) : M unit :=
  log (EvClose fd) ;;
  upd_fds (filter (fun fd' => fd' ≠ fd)).

(** *** <ncurses.h>

    Windows never scroll ([scrollok] is not called): a character written
    in the last cell of a window stays there, the cursor does not move and
    the call reports [ERR].  The special treatment that ncurses gives to
    control characters is not modelled; cells take characters as they are. *)
Definition blank : ascii := " "%char.

Definition new_window (nlines ncols begy begx : Z) : window :=
  mk_window nlines ncols begy begx 0 0
    (replicate (Z.to_nat nlines) (replicate (Z.to_nat ncols) blank)).

Definition win_move (y x : Z) (w : window) : window :=
  if (0 <=? y) && (y <? w_lines w) && (0 <=? x) && (x <? w_cols w) then
    mk_window (w_lines w) (w_cols w) (w_begy w) (w_begx w) y x (w_rows w)
  else w.

Definition win_addch (c : ascii) (w : window) : window * bool :=
  let rows :=
    alter (fun r => <[Z.to_nat (w_curx w) := c]> r) (Z.to_nat (w_cury w))
          (w_rows w) in
  if w_curx w + 1 <? w_cols w then
    (mk_window (w_lines w) (w_cols w) (w_begy w) (w_begx w)
               (w_cury w) (w_curx w + 1) rows, true)
  else if w_cury w + 1 <? w_lines w then
    (mk_window (w_lines w) (w_cols w) (w_begy w) (w_begx w)
               (w_cury w + 1) 0 rows, true)
  else
    (mk_window (w_lines w) (w_cols w) (w_begy w) (w_begx w)
               (w_cury w) (w_curx w) rows, false).

(** [waddstr], which [wprintw] ends in: characters are added until one
    reports [ERR]. *)
Fixpoint win_addstr (s : string) (w : window) : window :=
  match s with
  | EmptyString => w
  | String c s' =>
    let '(w', ok) := win_addch c w in
    if ok then win_addstr s' w' else w'
  end.

Definition win_resize (nlines ncols : Z) (w : window) : window :=
  if (0 <? nlines) && (0 <? ncols) then
    mk_window nlines ncols (w_begy w) (w_begx w)
      (Z.min (w_cury w) (nlines - 1)) (Z.min (w_curx w) (ncols - 1))
      (resize (Z.to_nat nlines) (replicate (Z.to_nat ncols) blank)
              (map (resize (Z.to_nat ncols) blank) (w_rows w)))
  else w.

Definition win_mvwin (lines cols y x : Z) (w : window) : window :=
  if (0 <=? y) && (0 <=? x) && (y + w_lines w <=? lines) && (x + w_cols w <=? cols)
  then mk_window (w_lines w) (w_cols w) y x (w_cury w) (w_curx w) (w_rows w)
  else w.

Definition screen_win (id : win_id) (s : screen) : option window :=
  match id with
  | STATUS_WIN => win_status s
  | OUT_WIN => win_out s
  | IN_WIN => win_in s
  end.

Definition set_screen_win (id : win_id) (v : option window) (s : screen) : screen :=
  match id with
  | STATUS_WIN =>
    mk_screen v (win_out s) (win_in s) (cursor_visibility s) (LINES s) (COLS s)
  | OUT_WIN =>
    mk_screen (win_status s) v (win_in s) (cursor_visibility s) (LINES s) (COLS s)
  | IN_WIN =>
    mk_screen (win_status s) (win_out s) v (cursor_visibility s) (LINES s) (COLS s)
  end.

Definition set_cursor_visibility (v : Z) (s : screen) : screen :=
  mk_screen (win_status s) (win_out s) (win_in s) v (LINES s) (COLS s).

(** The window behind a [WINDOW *]; a NULL pointer and a deleted window
    are undefined. *)
Definition the_window (wp : option win_id) : M (win_id * window) :=
  match wp with
  | None => undefined
  | Some id =>
    w ← get;
    match screen_win id (scr w) with
    | Some win => mret (id, win)
    | None => undefined
    end
  end.

Definition on_window (wp : option win_id) (call : win_id -> curses_call)
  (f : screen -> window -> window) : M unit :=
  '(id, win) ← the_window wp;
  log (EvCurses (call id)) ;;
  upd_scr (fun s => set_screen_win id (Some (f s win)) s).

Definition newwin (id : win_id) (nlines ncols begy begx : Z) : M (option win_id) :=
  log (EvCurses (Newwin id nlines ncols begy begx)) ;;
  upd_scr (set_screen_win id (Some (new_window nlines ncols begy begx))) ;;
  mret (Some id).

Definition getyx (wp : option win_id) : M (Z * Z) :=
  '(id, win) ← the_window wp;
  log (EvCurses (Getyx id)) ;;
  mret (w_cury win, w_curx win).

Definition getmaxx (wp : option win_id) : M Z :=
  '(id, win) ← the_window wp;
  log (EvCurses (Getmaxx id)) ;;
  mret (w_cols win).

Definition curs_set (v : Z) : M unit :=
  log (EvCurses (CursSet v)) ;; upd_scr (set_cursor_visibility v).

Definition wmove (wp : option win_id) (y x : Z) : M unit :=
  on_window wp (fun id => Wmove id y x) (fun _ => win_move y x).

Definition waddch (wp : option win_id) (c : ascii) : M unit :=
  on_window wp (fun id => Waddch id c) (fun _ win => (win_addch c win).1).

Definition wprintw (wp : option win_id) (text : string) : M unit :=
  on_window wp (fun id => Wprintw id text) (fun _ => win_addstr text).

Definition wrefresh (wp : option win_id) : M unit :=
  on_window wp Wrefresh (fun _ win => win).

Definition refresh : M unit := log (EvCurses Refresh).

Definition wresize (wp : option win_id) (nlines ncols : Z) : M unit :=
  on_window wp (fun id => Wresize id nlines ncols) (fun _ => win_resize nlines ncols).

Definition mvwin (wp : option win_id) (y x : Z) : M unit :=
  on_window wp (fun id => Mvwin id y x)
            (fun s => win_mvwin (LINES s) (COLS s) y x).

Definition delwin (wp : option win_id) : M unit :=
  '(id, _) ← the_window wp;
  log (EvCurses (Delwin id)) ;;
  upd_scr (set_screen_win id None).

Definition endwin : M unit := log (EvCurses Endwin).

(** *** The engines

    [ingest.c] and [cheerios.c] are not part of the sources at hand. *)

(** Modelled from the spec: [ingest_stop] and [cheerios_stop] are missing;
    the shutdown sequence is "stop engines, tear down surface, close
    device", and an engine that was stopped has quiesced (its loop has
    observed the Stopped transition) when the call returns. *)
Definition engine_stop (e : engine) : M unit :=
  log (EvEngineStop e) ;; upd_syn (set_engine e false).
Definition ingest_stop : M unit := engine_stop INGEST.
Definition cheerios_stop : M unit := engine_stop CHEERIOS.

(** Modelled from the spec: [ingest_start] and [cheerios_start] are
    missing; after "start engines" the two background loops run. *)
Definition engine_start (e : engine) : M unit :=
  log (EvEngineStart e) ;; upd_syn (set_engine e true).
Definition ingest_start : M unit := engine_start INGEST.
Definition cheerios_start : M unit := engine_start CHEERIOS.

(** Modelled from the spec: [cheerios_insert] is missing; it hands text to
    the dispatch engine for the output region.  Only the call is recorded. *)
Definition cheerios_insert (text : string) : M unit :=
  log (EvCheeriosInsert text).

End Runtime.

(** ** The functions of [bytenuts.c] that run on the process state *)
Module Bytenuts.
Import Termios CString Session Runtime Config.

(** The owner identifiers of [bytenuts.h], which is not part of the
    sources at hand: four distinct integers (they label the cases of one
    [switch]). *)
Class status_enum := {
  STATUS_BYTENUTS : Z;
  STATUS_INGEST : Z;
  STATUS_CHEERIOS : Z;
  STATUS_CMDPAGE : Z;
  status_enum_distinct :
    NoDup [STATUS_BYTENUTS; STATUS_INGEST; STATUS_CHEERIOS; STATUS_CMDPAGE]
}.

(** The format of line 225 applied to four texts. *)
Definition compose_status (s1 s2 s3 s4 : string) : string :=
  "|--" +:+ s1 +:+ "--|--" +:+ s2 +:+ "--|--" +:+ s3 +:+ "--|--" +:+ s4
        +:+ "--|".

(** [if (p) free(p);] *)
Definition free_if (p : option loc) : M unit :=
  match p with
  | Some l => free l
  | None => mret tt
  end.

Section Functions.
Context `{status_enum}.

Definition known_owners : list Z :=
  [STATUS_BYTENUTS; STATUS_INGEST; STATUS_CHEERIOS; STATUS_CMDPAGE].

(** [bytenuts_set_status], lines 166-238.  [text] is what the two
    [vsnprintf] calls make of the format and its arguments.  The [switch]
    yields whether the function goes on to the redraw or has returned. *)
Definition bytenuts_set_status (user : Z) (text : string) : M Z :=
  new_status ← calloc_text text;
  pthread_mutex_lock LOCK ;;
  stored ←
    (if user =? STATUS_BYTENUTS then
       (field bytenuts_status ≫= free_if) ;;
       log (EvStatusStore user) ;;
       upd_bn (set_bytenuts_status (Some new_status)) ;;
       mret true
     else if user =? STATUS_INGEST then
       (field ingest_status ≫= free_if) ;;
       log (EvStatusStore user) ;;
       upd_bn (set_ingest_status (Some new_status)) ;;
       mret true
     else if user =? STATUS_CHEERIOS then
       (field cheerios_status ≫= free_if) ;;
       log (EvStatusStore user) ;;
       upd_bn (set_cheerios_status (Some new_status)) ;;
       mret true
     else if user =? STATUS_CMDPAGE then
       (field cmdpg_status ≫= free_if) ;;
       log (EvStatusStore user) ;;
       upd_bn (set_cmdpg_status (Some new_status)) ;;
       mret true
     else
       free new_status ;;
       pthread_mutex_unlock LOCK ;;
       mret false);
  if stored : bool then
    pthread_mutex_unlock LOCK ;;

    pthread_mutex_lock TERM_LOCK ;;

    '(cy, cx) ← (field in_win ≫= getyx);
    curs_set 0 ;;
    (field status_win ≫= fun win => wmove win 0 0) ;;

    width ← (field status_win ≫= getmaxx);
    for_ (Z.to_nat (width - 1))
         (field status_win ≫= fun win => waddch win "-") ;;
    (field status_win ≫= fun win => waddch win "|") ;;
    (field status_win ≫= fun win => wmove win 0 0) ;;
    log EvStatusLoad ;;
    s1 ← (field bytenuts_status ≫= string_of_ptr);
    s2 ← (field ingest_status ≫= string_of_ptr);
    s3 ← (field cheerios_status ≫= string_of_ptr);
    s4 ← (field cmdpg_status ≫= string_of_ptr);
    (field status_win ≫= fun win => wprintw win (compose_status s1 s2 s3 s4)) ;;

    (field in_win ≫= fun win => wmove win cy cx) ;;
    curs_set 1 ;;
    (field status_win ≫= wrefresh) ;;
    refresh ;;

    pthread_mutex_unlock TERM_LOCK ;;

    mret 0
  else mret 0.

(** [bytenuts_update_screen_size], lines 240-262. *)
Definition bytenuts_update_screen_size : M Z :=
  pthread_mutex_lock TERM_LOCK ;;

  w ← get;
  let lines := LINES (scr w) in
  let cols := COLS (scr w) in
  (field status_win ≫= fun win => wresize win 1 cols) ;;
  (field status_win ≫= fun win => mvwin win (lines - 2) 0) ;;
  (field status_win ≫= wrefresh) ;;

  (field out_win ≫= fun win => wresize win (lines - 2) cols) ;;
  (field out_win ≫= fun win => mvwin win 0 0) ;;
  (field out_win ≫= wrefresh) ;;

  (field in_win ≫= fun win => wresize win 1 cols) ;;
  (field in_win ≫= fun win => mvwin win (lines - 1) 0) ;;
  (field in_win ≫= wrefresh) ;;

  pthread_mutex_unlock TERM_LOCK ;;

  cheerios_insert "" ;;

  mret 0.

(** [bytenuts_stop], lines 118-125. *)
Definition bytenuts_stop : M Z :=
  pthread_mutex_lock LOCK ;;
  pthread_cond_signal ;;
  pthread_mutex_unlock LOCK ;;
  mret 0.

(** [bytenuts_kill], lines 127-139. *)
Definition bytenuts_kill : M unit :=
  ingest_stop ;;
  cheerios_stop ;;

  (field status_win ≫= delwin) ;;
  (field in_win ≫= delwin) ;;
  (field out_win ≫= delwin) ;;
  endwin ;;

  (field serial_fd ≫= close).

(** [bytenuts_run] after the configuration is loaded, lines 51-107, for a
    session [b] left by [bytenuts_run_configure].  [fd] is the result of
    [serial_open] and [lines], [cols] the terminal size that [initscr]
    finds.  The [/dev/ptmx] branches (lines 57-60 and 103-107) and the
    three [pthread_*_init] calls, taken to succeed, are recorded as calls
    only. *)
Definition bytenuts_run_start (b : bytenuts_t) (fd lines cols : Z) : M Z :=
  upd_bn (fun _ => set_serial_fd fd b) ;;
  if fd <? 0 then mret (-1)
  else
    upd_fds (cons fd) ;;
    path ← field (fun b => serial_path (config b));
    (if bool_decide (path = Some "/dev/ptmx")
     then call "grantpt" ;; call "unlockpt" else mret tt) ;;

    log (EvCurses Initscr) ;;
    upd_scr (fun s => mk_screen (win_status s) (win_out s) (win_in s)
                                (cursor_visibility s) lines cols) ;;
    call "raw" ;;
    call "noecho" ;;

    (newwin STATUS_WIN 1 cols (lines - 2) 0 ≫= fun p => upd_bn (set_status_win p)) ;;
    (field status_win ≫= fun win => wmove win 0 0) ;;
    (field status_win ≫= wrefresh) ;;
    (newwin OUT_WIN (lines - 2) cols 0 0 ≫= fun p => upd_bn (set_out_win p)) ;;
    (field out_win ≫= fun win => wmove win 0 0) ;;
    (field out_win ≫= wrefresh) ;;
    (newwin IN_WIN 1 cols (lines - 1) 0 ≫= fun p => upd_bn (set_in_win p)) ;;
    call "keypad" ;;
    call "wtimeout" ;;
    (field in_win ≫= fun win => wmove win 0 0) ;;
    (field in_win ≫= wrefresh) ;;

    (strdup "" ≫= fun p => upd_bn (set_ingest_status p)) ;;
    (strdup "" ≫= fun p => upd_bn (set_cheerios_status p)) ;;
    bytenuts_set_status STATUS_BYTENUTS (default "(null)" path) ;;

    call "pthread_mutex_init" ;;
    call "pthread_mutex_init" ;;
    call "pthread_cond_init" ;;

    cheerios_start ;;
    ingest_start ;;

    (if bool_decide (path = Some "/dev/ptmx")
     then call "cheerios_info" else mret tt) ;;
    mret 0.

(** Lines 109-110, until the main thread blocks. *)
Definition bytenuts_run_wait : M unit :=
  pthread_mutex_lock LOCK ;;
  pthread_cond_wait_block.

(** Lines 110-115, from the wake-up of the main thread. *)
Definition bytenuts_run_finish : M Z :=
  pthread_cond_wait_return ;;
  pthread_mutex_unlock LOCK ;;

  bytenuts_kill ;;

  mret 0.

End Functions.

(** The process before [main]: nothing allocated, no window, no lock
    held, the standard descriptors open. *)
Definition world0 : world :=
  {| bn := bytenuts_zero;
     heap := ∅;
     scr := mk_screen None None None 1 0 0;
     syn := mk_sync [] false false false false;
     open_fds := [0; 1; 2];
     trace := [] |}.

End Bytenuts.

(** ** The stop protocol as a transition system

    The main thread and the threads that request a stop take turns; each
    turn is one of the pieces of [bytenuts.c] above, run to its end (each
    piece releases the mutex it takes, or blocks in the wait).  An action
    that is not enabled leaves the state as it is. *)
Module Lifecycle.
Import Session Runtime Bytenuts.

Inductive main_pc :=
| MAIN_RUNNING   (* before line 109 *)
| MAIN_WAITING   (* inside [pthread_cond_wait], line 110 *)
| MAIN_DONE.     (* [bytenuts_run] has returned *)

Inductive action :=
| ACT_STOP        (* some thread calls [bytenuts_stop] *)
| ACT_MAIN_WAIT   (* the main thread reaches the wait *)
| ACT_MAIN_WAKE.  (* the signalled main thread wakes and shuts down *)

#[global] Instance action_eq_dec : EqDecision action.
Proof. solve_decision. Defined.

Definition step (a : action) (st : main_pc * world) : option (main_pc * world) :=
  let '(pc, w) := st in
  match a, pc with
  | ACT_STOP, _ =>
    '(_, w') ← bytenuts_stop w; Some (pc, w')
  | ACT_MAIN_WAIT, MAIN_RUNNING =>
    '(_, w') ← bytenuts_run_wait w; Some (MAIN_WAITING, w')
  | ACT_MAIN_WAKE, MAIN_WAITING =>
    if cond_woken (syn w) then
      '(_, w') ← bytenuts_run_finish w; Some (MAIN_DONE, w')
    else Some st
  | _, _ => Some st
  end.

Fixpoint run (sched : list action) (st : main_pc * world)
  : option (main_pc * world) :=
  match sched with
  | [] => Some st
  | a :: rest => step a st ≫= run rest
  end.

(** After the schedule the main thread gets its turn: a signalled main
    thread does wake up. *)
Definition run_to_end (sched : list action) (st : main_pc * world)
  : option (main_pc * world) :=
  run sched st ≫= step ACT_MAIN_WAKE.

(** A shutdown sequence is a run of [bytenuts_kill]; each one calls
    [endwin] once, and nothing else does. *)
Definition is_endwin (e : event) : bool :=
  match e with EvCurses Endwin => true | _ => false end.
Definition shutdown_sequences (tr : list event) : nat :=
  length (filter (fun e => is_endwin e = true) tr).

(** A window destruction, the end of curses mode, or a [close]. *)
Definition is_teardown (e : event) : bool :=
  match e with
  | EvCurses (Delwin _) | EvCurses Endwin | EvClose _ => true
  | _ => false
  end.

Definition is_close (e : event) : bool :=
  match e with EvClose _ => true | _ => false end.

(** Some stop request comes after the main thread began to wait. *)
Fixpoint stop_after_wait (sched : list action) : bool :=
  match sched with
  | [] => false
  | ACT_MAIN_WAIT :: rest => bool_decide (ACT_STOP ∈ rest)
  | _ :: rest => stop_after_wait rest
  end.

(** The four phases of the main thread that the protocol distinguishes. *)
Inductive phase := Running | Waiting | Woken | Done.

Definition phase_of (st : main_pc * world) : phase :=
  match st.1 with
  | MAIN_RUNNING => Running
  | MAIN_WAITING => if cond_woken (syn st.2) then Woken else Waiting
  | MAIN_DONE => Done
  end.

Definition phase_step (a : action) (ph : phase) : phase :=
  match a, ph with
  | ACT_MAIN_WAIT, Running => Waiting
  | ACT_STOP, Waiting => Woken
  | ACT_MAIN_WAKE, Woken => Done
  | _, _ => ph
  end.

(** The session as [bytenuts_run_start] leaves it: three windows behind
    three different pointers. *)
Definition windows_ok (w : world) : Prop :=
  status_win (bn w) = Some STATUS_WIN /\
  in_win (bn w) = Some IN_WIN /\
  out_win (bn w) = Some OUT_WIN /\
  is_Some (win_status (scr w)) /\
  is_Some (win_in (scr w)) /\
  is_Some (win_out (scr w)).

Definition started (w : world) : Prop :=
  held (syn w) = [] /\
  cond_waiting (syn w) = false /\
  cond_woken (syn w) = false /\
  windows_ok w.

(** What stays true of the transition system, for [k] shutdown sequences
    already in the trace at the start. *)
Definition stop_invariant (k : nat) (st : main_pc * world) : Prop :=
  let '(pc, w) := st in
  held (syn w) = [] /\
  match pc with
  | MAIN_RUNNING =>
    cond_waiting (syn w) = false /\ cond_woken (syn w) = false /\
    windows_ok w /\ shutdown_sequences (trace w) = k
  | MAIN_WAITING =>
    cond_waiting (syn w) = negb (cond_woken (syn w)) /\
    windows_ok w /\ shutdown_sequences (trace w) = k
  | MAIN_DONE =>
    cond_waiting (syn w) = false /\ shutdown_sequences (trace w) = S k
  end.

End Lifecycle.

(** ** Lock footprints and their interleavings

    The calls a function made, as recorded in [trace], are its footprint.
    Threads are footprints still to be performed; a thread pool steps by
    letting one thread perform its next call, and a thread that asks for a
    mutex another thread holds cannot step. *)
Module Locking.
Import Session Runtime Bytenuts.

(** The mutexes held after an event. *)
Definition event_held (e : event) (h : list lock_id) : list lock_id :=
  match e with
  | EvLock l => l :: h
  | EvUnlock l => filter (fun l' => l' ≠ l) h
  | _ => h
  end.

Definition held_after (evs : list event) (h : list lock_id) : list lock_id :=
  foldl (fun h e => event_held e h) h evs.

(** An ncurses call: a read or a mutation of the screen surface. *)
Definition touches_screen (e : event) : bool :=
  match e with EvCurses _ => true | _ => false end.

(** An assignment to one of the four status fields, or the read of the
    four fields for the redraw. *)
Definition status_store (e : event) : bool :=
  match e with EvStatusStore _ => true | _ => false end.
Definition touches_status (e : event) : bool :=
  match e with EvStatusStore _ | EvStatusLoad => true | _ => false end.
Definition touches_surface_or_status (e : event) : bool :=
  touches_screen e || touches_status e.

(** Every event that satisfies [P] happens while [l] is held, for a
    thread that starts with the mutexes [h]. *)
Fixpoint guarded (P : event -> bool) (l : lock_id) (h : list lock_id)
  (evs : list event) : bool :=
  match evs with
  | [] => true
  | e :: rest =>
    (if P e then bool_decide (l ∈ h) else true)
    && guarded P l (event_held e h) rest
  end.

(** The events that a run from [w] to [w'] added. *)
Definition footprint (w w' : world) : list event :=
  drop (length (trace w)) (trace w').

(** The two functions that are called while the engines run. *)
Inductive live_call :=
| CallSetStatus (user : Z) (text : string)
| CallUpdateScreenSize.

Definition run_call `{status_enum} (c : live_call) : M Z :=
  match c with
  | CallSetStatus user text => bytenuts_set_status user text
  | CallUpdateScreenSize => bytenuts_update_screen_size
  end.

(** [evs] is what some completed call, entered with no mutex held, did. *)
Definition call_footprint `{status_enum} (evs : list event) : Prop :=
  exists c w r w',
    held (syn w) = [] /\ run_call c w = Some (r, w') /\ evs = footprint w w'.

(** A thread program: the footprints of any number of calls in a row. *)
Definition thread_program `{status_enum} (evs : list event) : Prop :=
  exists fps, Forall call_footprint fps /\ evs = concat fps.

(** Entered with the mutexes [h], a completed run of [m] leaves with the
    mutexes [h'], and each of its events that satisfies [P] happened with
    [l] held. *)
Definition respects (P : event -> bool) (l : lock_id) (h : list lock_id)
  {A} (m : M A) (h' : list lock_id) : Prop :=
  forall w a w', held (syn w) = h -> m w = Some (a, w') ->
    exists evs, trace w' = trace w ++ evs /\ held (syn w') = h' /\
                held_after evs h = h' /\ guarded P l h evs = true.

Record thread := mk_thread {
  t_held : list lock_id;
  t_todo : list event
}.

Definition lock_is_free (l : lock_id) (p : list thread) : bool :=
  forallb (fun t => negb (bool_decide (l ∈ t_held t))) p.

Definition can_step (e : event) (p : list thread) : bool :=
  match e with
  | EvLock l => lock_is_free l p
  | _ => true
  end.

(** Thread [i] performs its next event; [None] when it has none or is
    blocked. *)
Definition pool_step (i : nat) (p : list thread) : option (list thread) :=
  match p !! i with
  | Some (mk_thread h (e :: rest)) =>
    if can_step e p then Some (<[i := mk_thread (event_held e h) rest]> p)
    else None
  | _ => None
  end.

Fixpoint pool_run (sched : list nat) (p : list thread) : option (list thread) :=
  match sched with
  | [] => Some p
  | i :: rest => pool_step i p ≫= pool_run rest
  end.

Definition next_event (t : thread) : option event := head (t_todo t).

(** Threads that have not started yet. *)
Definition spawn (programs : list (list event)) : list thread :=
  map (mk_thread []) programs.

(** Every thread's remaining events are guarded from the mutexes it
    holds, and at most one thread holds [l]. *)
Definition pool_inv (P : event -> bool) (l : lock_id) (p : list thread) : Prop :=
  (forall i t, p !! i = Some t -> guarded P l (t_held t) (t_todo t) = true) /\
  (forall i j ti tj, p !! i = Some ti -> p !! j = Some tj ->
     l ∈ t_held ti -> l ∈ t_held tj -> i = j).

End Locking.

(** ** Vocabulary for the statements about the status line *)
Module StatusSpec.
Import Session Runtime Bytenuts.

(** The text behind a status pointer as the redraw prints it. *)
Definition slot_text (w : world) (p : option loc) : string :=
  match p with
  | None => "(null)"
  | Some l => default "" (heap w !! l)
  end.

(** The four status texts composed with the format of line 225. *)
Definition status_line (w : world) : string :=
  compose_status (slot_text w (bytenuts_status (bn w)))
                 (slot_text w (ingest_status (bn w)))
                 (slot_text w (cheerios_status (bn w)))
                 (slot_text w (cmdpg_status (bn w))).

Definition status_slots (b : bytenuts_t) : list (option loc) :=
  [bytenuts_status b; ingest_status b; cheerios_status b; cmdpg_status b].

(** The status pointers that are not NULL point to live blocks, and no
    two of them to the same block. *)
Definition slots_ok (w : world) : Prop :=
  NoDup (omap id (status_slots (bn w))) /\
  forall l, Some l ∈ status_slots (bn w) -> is_Some (heap w !! l).

(** A one-row window with the cursor in column [x] of the row [row]. *)
Definition one_row (win : window) (row : list ascii) (x : nat) : Prop :=
  w_lines win = 1 /\ w_rows win = [row] /\ w_cury win = 0 /\
  w_curx win = Z.of_nat x /\ length row = Z.to_nat (w_cols win) /\
  (x < length row)%nat.

(** A window of a single row. *)
Definition single_row (win : window) (row : list ascii) : Prop :=
  w_lines win = 1 /\ w_rows win = [row] /\ 0 < w_cols win /\
  length row = Z.to_nat (w_cols win).

(** The status window is a single row of [w_cols] cells and the input
    window exists, behind the pointers of the session struct. *)
Definition status_window_ok (w : world) : Prop :=
  status_win (bn w) = Some STATUS_WIN /\
  in_win (bn w) = Some IN_WIN /\
  is_Some (win_in (scr w)) /\
  exists ws row, win_status (scr w) = Some ws /\ single_row ws row.

(** The number of cells of the status window. *)
Definition status_width (w : world) : nat :=
  match win_status (scr w) with
  | Some ws => Z.to_nat (w_cols ws)
  | None => 0
  end.

Definition status_ready (w : world) : Prop :=
  held (syn w) = [] /\ slots_ok w /\ status_window_ok w.

(** The row of the status window. *)
Definition status_row (w : world) : list ascii :=
  match win_status (scr w) with
  | Some ws => default [] (head (w_rows ws))
  | None => []
  end.

(** A row of [width] cells drawn by the redraw for a composed line
    [text]: dashes closed by a bar, overwritten from the left by the text,
    cut at the width. *)
Definition drawn_row (width : nat) (text : string) : list ascii :=
  let background := replicate (width - 1) "-"%char ++ ["|"%char] in
  let chars := list_ascii_of_string text in
  take width (chars ++ drop (length chars) background).

(** The texts that the [wprintw] calls among some events have printed,
    in order. *)
Definition printed (evs : list event) : list string :=
  omap (fun e => match e with
                 | EvCurses (Wprintw _ s) => Some s
                 | _ => None
                 end) evs.


(** Status updates of several threads, interleaved: each update is its
    store followed, for a known owner, by its redraw; between the two,
    steps of other updates may come. *)
Inductive status_step :=
| StepStore (user : Z) (text : string)
| StepRedraw.

#[global] Instance status_step_eq_dec : EqDecision status_step.
Proof. solve_decision. Defined.

Section Steps.
Context `{status_enum}.

(** The first critical section of [bytenuts_set_status], lines 174-210:
    the allocation and the [switch] under [lock], up to the unlock. *)
Definition status_store_phase (user : Z) (text : string) : M bool :=
  new_status ← calloc_text text;
  pthread_mutex_lock LOCK ;;
  if user =? STATUS_BYTENUTS then
    (field bytenuts_status ≫= free_if) ;;
    log (EvStatusStore user) ;;
    upd_bn (set_bytenuts_status (Some new_status)) ;;
    pthread_mutex_unlock LOCK ;; mret true
  else if user =? STATUS_INGEST then
    (field ingest_status ≫= free_if) ;;
    log (EvStatusStore user) ;;
    upd_bn (set_ingest_status (Some new_status)) ;;
    pthread_mutex_unlock LOCK ;; mret true
  else if user =? STATUS_CHEERIOS then
    (field cheerios_status ≫= free_if) ;;
    log (EvStatusStore user) ;;
    upd_bn (set_cheerios_status (Some new_status)) ;;
    pthread_mutex_unlock LOCK ;; mret true
  else if user =? STATUS_CMDPAGE then
    (field cmdpg_status ≫= free_if) ;;
    log (EvStatusStore user) ;;
    upd_bn (set_cmdpg_status (Some new_status)) ;;
    pthread_mutex_unlock LOCK ;; mret true
  else
    free new_status ;;
    pthread_mutex_unlock LOCK ;;
    mret false.

(** The second critical section, lines 212-235: the redraw under
    [term_lock]. *)
Definition status_redraw_phase : M unit :=
  pthread_mutex_lock TERM_LOCK ;;
  '(cy, cx) ← (field in_win ≫= getyx);
  curs_set 0 ;;
  (field status_win ≫= fun win => wmove win 0 0) ;;
  width ← (field status_win ≫= getmaxx);
  for_ (Z.to_nat (width - 1))
       (field status_win ≫= fun win => waddch win "-") ;;
  (field status_win ≫= fun win => waddch win "|") ;;
  (field status_win ≫= fun win => wmove win 0 0) ;;
  log EvStatusLoad ;;
  s1 ← (field bytenuts_status ≫= string_of_ptr);
  s2 ← (field ingest_status ≫= string_of_ptr);
  s3 ← (field cheerios_status ≫= string_of_ptr);
  s4 ← (field cmdpg_status ≫= string_of_ptr);
  (field status_win ≫= fun win => wprintw win (compose_status s1 s2 s3 s4)) ;;
  (field in_win ≫= fun win => wmove win cy cx) ;;
  curs_set 1 ;;
  (field status_win ≫= wrefresh) ;;
  refresh ;;
  pthread_mutex_unlock TERM_LOCK.

Definition run_step (s : status_step) : M unit :=
  match s with
  | StepStore user text => status_store_phase user text ;; mret tt
  | StepRedraw => status_redraw_phase
  end.

Fixpoint run_steps (steps : list status_step) : M unit :=
  match steps with
  | [] => mret tt
  | s :: rest => run_step s ;; run_steps rest
  end.

Definition is_known (user : Z) : bool := bool_decide (user ∈ known_owners).

(** The steps of one call of [bytenuts_set_status]. *)
Definition steps_of_call (c : Z * string) : list status_step :=
  if is_known c.1 then [StepStore c.1 c.2; StepRedraw]
  else [StepStore c.1 c.2].



(** The status pointer of an owner. *)
Definition owner_slot (user : Z) (b : bytenuts_t) : option loc :=
  if user =? STATUS_BYTENUTS then bytenuts_status b
  else if user =? STATUS_INGEST then ingest_status b
  else if user =? STATUS_CHEERIOS then cheerios_status b
  else cmdpg_status b.

(** The position of an owner's pointer among the four. *)
Definition owner_index (user : Z) : nat :=
  if user =? STATUS_BYTENUTS then 0
  else if user =? STATUS_INGEST then 1
  else if user =? STATUS_CHEERIOS then 2
  else 3.


End Steps.


End StatusSpec.

(** ** Sample inputs *)
Module Samples.
Import Termios Session Config ConfigSpec Runtime Bytenuts Locking.

Definition sample_default : bytenuts_config_t :=
  mk_config 1 0 0 "b"%char B115200 None None None.
Definition sample_home : string := "/home/user".
(** A file system holding one configuration file. *)
Definition sample_fs (text : string) (path : string) : option string :=
  if String.eqb path "/home/user/.config/bytenuts/config" then Some text
  else None.
Definition sample_session (argv : list string) : bytenuts_t :=
  (parse_args sample_default sample_home argv bytenuts_zero).2.

Definition sample_enum : status_enum.
Proof.
  refine {| STATUS_BYTENUTS := 0; STATUS_INGEST := 1;
            STATUS_CHEERIOS := 2; STATUS_CMDPAGE := 3 |}.
  apply (bool_decide_unpack _). reflexivity.
Defined.

(** The process once [bytenuts_run_start] has returned, on an 80 x 24
    terminal with the serial port on descriptor 3. *)
Definition sample_world : world :=
  match bytenuts_run_start (H := sample_enum)
          (sample_session ["bytenuts"; "/dev/ttyUSB0"]) 3 24 80 world0 with
  | Some (_, w) => w
  | None => world0
  end.

(** What a call made from the sample session does. *)
Definition sample_footprint (c : live_call) : list event :=
  match run_call (H := sample_enum) c sample_world with
  | Some (_, w') => footprint sample_world w'
  | None => []
  end.

(** Two threads, one updating the ingest status and one the dispatch
    status. *)
Definition two_updates : list (list event) :=
  [sample_footprint (CallSetStatus 1 "rx 12");
   sample_footprint (CallSetStatus 2 "tx 5")].

End Samples.


(** ** Vocabulary for further statements about the speed tables *)
Module SpeedSpec.
Import Termios Speed.

(** The constants that [speed_to_string] tests for, in source order. *)
Definition standard_speeds : list speed_t :=
  [ B50; B75; B110; B134; B150; B200; B300; B600; B1200; B1800; B2400;
    B4800; B9600; B19200; B38400; B57600; B115200; B230400; B460800;
    B500000; B576000; B921600; B1000000; B1152000; B1500000; B2000000;
    B2500000; B3000000; B3500000; B4000000 ].

(** The two rate names, and the two constants, that the tables confuse. *)
Definition confused_rates : list string := ["115200"; "1152000"].
Definition confused_speeds : list speed_t := [B115200; B1152000].

End SpeedSpec.

(** ** Vocabulary for further statements about the configuration file *)
Module ConfigFileSpec.
Import Session Config ConfigSpec.

(** The session with the four fields that the file can set replaced. *)
Definition with_file_settings (c e n : Z) (x : ascii) (b : bytenuts_t)
  : bytenuts_t :=
  upd_config
    (fun cfg => set_colors c (set_echo e (set_no_crlf n (set_escape x cfg)))) b.

(** A text that is empty or ends with a newline: what follows it in a
    file starts a line. *)
Fixpoint whole_lines (s : string) : bool :=
  match s with
  | EmptyString => true
  | String c s' =>
    match s' with
    | EmptyString => is_char c LF
    | _ => whole_lines s'
    end
  end.

(** A line short enough for one [fgets] with its newline: at most 126
    characters, none of them a newline. *)
Definition short_line (s : string) : Prop :=
  (String.length s <= 126)%nat /\ LF ∉ list_ascii_of_string s.

End ConfigFileSpec.

(** ** [bytenuts_print_stats] *)
Module Stats.
Import Termios Speed Session Config Runtime.

Definition CR : ascii := "013"%char.
Definition crlf : string := String CR (String LF EmptyString).

(** The C string at the start of an array: the characters before the
    first NUL. *)
Fixpoint c_string (s : string) : string :=
  match s with
  | EmptyString => EmptyString
  | String c s' => if is_char c NUL then EmptyString else String c (c_string s')
  end.

(** [sprintf(st_line, ...)] into [char st_line[128]], then
    [cheerios_insert(st_line, strlen(st_line))].  [text] is what the
    format and its arguments expand to.  [sprintf] stores the text and a
    NUL whatever the size of the array: with a text of 128 characters or
    more it writes beyond the array. *)
Definition insert_line (text : string) : M unit :=
  if (String.length text <? 128)%nat then cheerios_insert (c_string text)
  else undefined.

(** [%s] for a [char *] that may be NULL; glibc prints [(null)]. *)
Definition percent_s (p : option string) : string := default "(null)" p.

(** [v ? "enabled" : "disabled"]. *)
Definition enabled (v : Z) : string :=
  if v =? 0 then "disabled" else "enabled".

(** [bytenuts_print_stats], lines 141-164. *)
Definition bytenuts_print_stats : M Z :=
  (field (fun b => colors (config b)) ≫= fun v =>
     insert_line ("colors: " +:+ enabled v +:+ crlf)) ;;
  (field (fun b => echo (config b)) ≫= fun v =>
     insert_line ("echo: " +:+ enabled v +:+ crlf)) ;;
  (field (fun b => no_crlf (config b)) ≫= fun v =>
     insert_line ("no_crlf: " +:+ enabled v +:+ crlf)) ;;
  (field (fun b => escape (config b)) ≫= fun c =>
     insert_line ("escape: " +:+ String c crlf)) ;;
  (field (fun b => baud (config b)) ≫= fun v =>
     insert_line ("baud: " +:+ speed_to_string v +:+ crlf)) ;;
  (field (fun b => config_path (config b)) ≫= fun p =>
     insert_line ("config_path: " +:+ percent_s p +:+ crlf)) ;;
  (field (fun b => log_path (config b)) ≫= fun p =>
     insert_line ("log_path: " +:+ percent_s p +:+ crlf)) ;;
  (field (fun b => serial_path (config b)) ≫= fun p =>
     insert_line ("serial_path: " +:+ percent_s p +:+ crlf)) ;;
  mret 0.

(** The texts handed to [cheerios_insert] among some events, in order. *)
Definition inserted (evs : list event) : list string :=
  omap (fun e => match e with
                 | EvCheeriosInsert t => Some t
                 | _ => None
                 end) evs.

(** The three paths are short enough for their lines of the report. *)
Definition paths_fit (c : bytenuts_config_t) : Prop :=
  (String.length (percent_s (config_path c)) <= 112)%nat /\
  (String.length (percent_s (log_path c)) <= 115)%nat /\
  (String.length (percent_s (serial_path c)) <= 112)%nat.

End Stats.

(** ** Sample inputs for the report *)
Module StatsSamples.
Import Termios Session Config Runtime Bytenuts Samples.

(** The process right after the command line [argv] was parsed. *)
Definition parsed_world (argv : list string) : world :=
  with_bn (fun _ => sample_session argv) world0.

(** A path of [n] characters. *)
Definition long_path (n : nat) : string :=
  string_of_list_ascii (replicate n "x"%char).

End StatsSamples.

(** ** Vocabulary for statements about the layout of the screen *)
Module Layout.
Import Session Runtime.

(** Size and position of a window: lines, columns, first line, first
    column. *)
Definition geometry (win : window) : Z * Z * Z * Z :=
  (w_lines win, w_cols win, w_begy win, w_begx win).

(** The three windows cover the terminal: the output region on top, then
    the status line, then the input line. *)
Definition tiled (s : screen) : Prop :=
  exists ws wo wi,
    win_status s = Some ws /\ win_out s = Some wo /\ win_in s = Some wi /\
    geometry ws = (1, COLS s, LINES s - 2, 0) /\
    geometry wo = (LINES s - 2, COLS s, 0, 0) /\
    geometry wi = (1, COLS s, LINES s - 1, 0).

End Layout.

(** ** [bytenuts_run] from its first line to the wait *)
Module Boot.
Import Termios Session Config Runtime Bytenuts.

Section Run.
Context `{status_enum}.

(** [bytenuts_run], lines 37-107: the session is cleared, the command
    line parsed (the usage text is printed when that fails), the
    configuration file read, the serial port opened, and then the rest as
    in [bytenuts_run_start].  [serial_open] is the function of that name,
    which is not part of the sources at hand, as what it returns for a
    path and a rate. *)
Definition bytenuts_run_until_wait (dflt : bytenuts_config_t) (home : string)
  (fs : string -> option string) (line0 : list ascii) (argv : list string)
  (serial_open : option string -> speed_t -> Z) (lines cols : Z) : M Z :=
  let '(r, b) := parse_args dflt home argv bytenuts_zero in
  if negb (r =? 0) then
    upd_bn (fun _ => b) ;; call "printf" ;; mret (-1)
  else
    let '(r, b) := load_configs fs line0 b in
    if negb (r =? 0) then upd_bn (fun _ => b) ;; mret (-1)
    else
      bytenuts_run_start b
        (serial_open (serial_path (config b)) (baud (config b))) lines cols.

End Run.

End Boot.

(** ** Sample inputs for the layout *)
Module LayoutSamples.
Import Session Runtime Samples.

(** The sample session after the terminal was resized to 100 x 30. *)
Definition resized_world : world :=
  with_scr (fun s => mk_screen (win_status s) (win_out s) (win_in s)
                               (cursor_visibility s) 30 100) sample_world.

End LayoutSamples.
(** * Part II: theorems *)

(** ** The speed tables *)
Section SpeedFacts.
Import Termios CString Speed.

Lemma strcmp_eq_spec a b : reflect (a = b) (strcmp_eq a b).
Proof. apply String.eqb_spec. Qed.

Lemma strcmp_eq_false a b : a <> b -> strcmp_eq a b = false.
Proof. intros H. destruct (strcmp_eq_spec a b); congruence. Qed.

(** C5: the rate name 115200 is mapped to the constant of 1,152,000 baud,
    and the constant of 115,200 baud is printed with the name of the
    1,152,000 one. *)
Theorem C5_115200_mapped_to_1152000 :
  string_to_speed "115200" = B1152000 /\
  speed_to_string B115200 = "B1152000".
Proof. split; reflexivity. Qed.

(** Neither table entry is the one of 115,200 baud: the constant that
    [string_to_speed] returns differs from [B115200], and no rate name at
    all is mapped to [B115200]. *)
Lemma string_to_speed_never_B115200 s : string_to_speed s <> B115200.
Proof.
  unfold string_to_speed.
  repeat match goal with
  | |- context [strcmp_eq ?a ?b] => destruct (strcmp_eq a b)
  end; discriminate.
Qed.

(** C8: a string that is none of the thirty rate names is mapped to the
    unset rate [B0]; [string_to_speed] has no failure result. *)
Theorem C8_unknown_rate_is_B0 (s : string) :
  s ∉ standard_rates -> string_to_speed s = B0.
Proof.
  intros Hs. unfold string_to_speed.
  repeat match goal with
  | |- context [strcmp_eq ?a s] =>
    rewrite (strcmp_eq_false a s)
      by (intros <-; apply Hs, list_elem_of_In; unfold standard_rates;
          simpl; tauto)
  end.
  reflexivity.
Qed.

Lemma C8_unknown_rate_is_B0_witness : string_to_speed "14400" = B0.
Proof.
  apply (C8_unknown_rate_is_B0 "14400").
  unfold standard_rates. intros H.
  repeat (apply elem_of_cons in H as [H|H]; [discriminate H|]).
  by apply elem_of_nil in H.
Defined.

(** The hypothesis of C8 is the exact boundary: every listed name is
    mapped to a rate other than [B0]. *)
Lemma known_rate_not_B0 s : s ∈ standard_rates -> string_to_speed s <> B0.
Proof.
  unfold standard_rates. intros H.
  repeat (apply elem_of_cons in H as [->|H]; [discriminate|]).
  by apply elem_of_nil in H.
Qed.

End SpeedFacts.

(** ** The configuration file reader *)
Section LoadConfigs.
Import Termios CString Speed Session Config ConfigSpec.

(** *** [fgets] *)

Lemma fgets_take_app n s chunk rest :
  fgets_take n s = (chunk, rest) ->
  (chunk ++ list_ascii_of_string rest)%list = list_ascii_of_string s.
Proof.
  revert s chunk rest. induction n as [|n IH]; intros s chunk rest; simpl.
  - intros [= <- <-]. reflexivity.
  - destruct s as [|c s]; simpl.
    + intros [= <- <-]. reflexivity.
    + destruct (is_char c LF).
      * intros [= <- <-]. reflexivity.
      * destruct (fgets_take n s) as [chunk' rest'] eqn:E.
        intros [= <- <-]. simpl. f_equal. by apply IH.
Qed.

Lemma fgets_take_length n s chunk rest :
  fgets_take n s = (chunk, rest) ->
  (length chunk + String.length rest = String.length s)%nat.
Proof.
  revert s chunk rest. induction n as [|n IH]; intros s chunk rest; simpl.
  - intros [= <- <-]. reflexivity.
  - destruct s as [|c s]; simpl.
    + intros [= <- <-]. reflexivity.
    + destruct (is_char c LF).
      * intros [= <- <-]. reflexivity.
      * destruct (fgets_take n s) as [chunk' rest'] eqn:E.
        intros [= <- <-]. simpl. f_equal. by apply IH.
Qed.

Lemma fgets_take_progress n c s chunk rest :
  fgets_take (S n) (String c s) = (chunk, rest) ->
  (String.length rest < String.length (String c s))%nat.
Proof.
  intros H. pose proof (fgets_take_length _ _ _ _ H) as Hlen.
  simpl in H. destruct (is_char c LF).
  - injection H as <- <-. simpl. lia.
  - destruct (fgets_take n s) as [chunk' rest'].
    injection H as <- <-. simpl in *. lia.
Qed.

(** A successful [fgets] hands out a piece and stores it, NUL-terminated,
    over the start of the array. *)
Lemma fgets_Some line c s :
  exists chunk rest,
    fgets_take 127 (String c s) = (chunk, rest) /\
    fgets line 128 (String c s)
    = Some ((chunk ++ NUL :: drop (S (length chunk)) line)%list, rest) /\
    (String.length rest < String.length (String c s))%nat.
Proof.
  destruct (fgets_take 127 (String c s)) as [chunk rest] eqn:E.
  exists chunk, rest. split; [done|]. split.
  - unfold fgets. change (128 - 1)%nat with 127%nat. by rewrite E.
  - by eapply fgets_take_progress.
Qed.

(** The pieces are the text of the file, cut but otherwise unchanged:
    reading with fuel equal to the length of the file reaches its end. *)
Lemma fgets_pieces_concat fuel s :
  (String.length s <= fuel)%nat ->
  concat (fgets_pieces fuel s) = list_ascii_of_string s.
Proof.
  revert s. induction fuel as [|fuel IH]; intros s Hlen.
  - destruct s; [done | simpl in Hlen; lia].
  - destruct s as [|c s]; [done|].
    destruct (fgets_Some [] c s) as (chunk & rest & E & _ & Hlt).
    cbn [fgets_pieces]. rewrite E. cbn [concat].
    rewrite IH by (simpl in *; lia).
    by eapply fgets_take_app.
Qed.

Lemma file_lines_concat text :
  concat (file_lines text) = list_ascii_of_string text.
Proof. by apply fgets_pieces_concat. Qed.

(** Fuel beyond the length of the stream is never used. *)
Lemma load_configs_loop_fuel f1 f2 line stream b :
  (String.length stream <= f1)%nat -> (String.length stream <= f2)%nat ->
  load_configs_loop f1 line stream b = load_configs_loop f2 line stream b.
Proof.
  revert f2 line stream b.
  induction f1 as [|f1 IH]; intros f2 line stream b H1 H2.
  - destruct stream; [|simpl in H1; lia]. by destruct f2.
  - destruct stream as [|c s]; [by destruct f2|].
    destruct f2 as [|f2]; [simpl in H2; lia|].
    destruct (fgets_Some line c s) as (chunk & rest & _ & E & Hlt).
    cbn [load_configs_loop]. rewrite E.
    apply IH; simpl in *; lia.
Qed.

(** *** One line *)

Lemma take_fresh_prefix (key chunk g : list ascii) :
  NUL ∉ key ->
  take (length key) (chunk ++ NUL :: g) = key <-> key `prefix_of` chunk.
Proof.
  revert chunk. induction key as [|c key IH]; intros chunk Hnul.
  - simpl. split; [intros _; apply prefix_nil | done].
  - apply not_elem_of_cons in Hnul as [Hc Hkey].
    destruct chunk as [|d chunk]; simpl.
    + split; [intros [= H _]; congruence | intros H%prefix_nil_inv; done].
    + split.
      * intros [= -> H]. apply prefix_cons, IH; done.
      * intros H. pose proof (prefix_cons_inv_1 _ _ _ _ H) as ->.
        f_equal. apply IH; [done|]. by eapply prefix_cons_inv_2.
Qed.

Lemma line_memcmp_fresh (key : string) (n : nat) chunk g :
  n = length (list_ascii_of_string key) ->
  NUL ∉ list_ascii_of_string key ->
  line_memcmp_eq (chunk ++ NUL :: g) key n
  = bool_decide (list_ascii_of_string key `prefix_of` chunk).
Proof.
  intros -> Hnul. unfold line_memcmp_eq.
  rewrite firstn_all. apply bool_decide_ext. by apply take_fresh_prefix.
Qed.

Lemma line_at_fresh (key chunk g : list ascii) (n : nat) :
  n = length key ->
  key `prefix_of` chunk ->
  line_at (chunk ++ NUL :: g) n = nth n chunk NUL.
Proof.
  intros -> Hp%prefix_length. unfold line_at.
  destruct (decide (length key < length chunk)%nat) as [Hlt|Hge].
  - by rewrite app_nth1.
  - assert (length key = length chunk) as -> by lia.
    rewrite nth_middle, nth_overflow; [done | lia].
Qed.

Lemma key_prefix_no_NUL k : NUL ∉ list_ascii_of_string (key_prefix k).
Proof.
  destruct k; cbn; intros H;
    repeat (apply elem_of_cons in H as [H|H]; [discriminate H|]);
    by apply elem_of_nil in H.
Qed.

(** A line starts with at most one of the four keys. *)
Lemma key_prefix_exclusive k1 k2 (l : list ascii) :
  list_ascii_of_string (key_prefix k1) `prefix_of` l ->
  list_ascii_of_string (key_prefix k2) `prefix_of` l ->
  k1 = k2.
Proof.
  intros H1 H2.
  destruct (prefix_weak_total _ _ _ H1 H2) as [[x Hx]|[x Hx]];
    destruct k1, k2; try reflexivity; cbn in Hx; discriminate Hx.
Qed.

(** The loop body never touches the override flags. *)
Lemma load_configs_line_overrides line b :
  config_overrides (load_configs_line line b) = config_overrides b.
Proof.
  unfold load_configs_line.
  repeat match goal with
  | |- context [if ?c then _ else _] => destruct c
  end; reflexivity.
Qed.

Lemma load_configs_line_overridden i line b :
  overridden i (load_configs_line line b) = overridden i b.
Proof. unfold overridden. by rewrite load_configs_line_overrides. Qed.

(** What the loop body does to the field of a key, for a line freshly
    stored by [fgets] over any previous content [g] of the array. *)
Lemma load_configs_line_field k chunk g b :
  field_of k (load_configs_line (chunk ++ NUL :: g) b) =
  if overridden (key_index k) b then field_of k b
  else default (field_of k b) (line_setting k chunk).
Proof.
  unfold load_configs_line.
  rewrite (line_memcmp_fresh "colors=" 7 chunk g eq_refl (key_prefix_no_NUL KEY_COLORS)).
  rewrite (line_memcmp_fresh "echo=" 5 chunk g eq_refl (key_prefix_no_NUL KEY_ECHO)).
  rewrite (line_memcmp_fresh "no_crlf=" 8 chunk g eq_refl (key_prefix_no_NUL KEY_NO_CRLF)).
  rewrite (line_memcmp_fresh "escape=" 7 chunk g eq_refl (key_prefix_no_NUL KEY_ESCAPE)).
  unfold line_setting.
  destruct (decide (list_ascii_of_string "colors=" `prefix_of` chunk)) as [H0|H0];
  destruct (decide (list_ascii_of_string "echo=" `prefix_of` chunk)) as [H1|H1];
  destruct (decide (list_ascii_of_string "no_crlf=" `prefix_of` chunk)) as [H2|H2];
  destruct (decide (list_ascii_of_string "escape=" `prefix_of` chunk)) as [H3|H3];
  try (by pose proof (key_prefix_exclusive KEY_COLORS KEY_ECHO _ H0 H1));
  try (by pose proof (key_prefix_exclusive KEY_COLORS KEY_NO_CRLF _ H0 H2));
  try (by pose proof (key_prefix_exclusive KEY_COLORS KEY_ESCAPE _ H0 H3));
  try (by pose proof (key_prefix_exclusive KEY_ECHO KEY_NO_CRLF _ H1 H2));
  try (by pose proof (key_prefix_exclusive KEY_ECHO KEY_ESCAPE _ H1 H3));
  try (by pose proof (key_prefix_exclusive KEY_NO_CRLF KEY_ESCAPE _ H2 H3));
  try rewrite (line_at_fresh (list_ascii_of_string "colors=") chunk g 7 eq_refl H0);
  try rewrite (line_at_fresh (list_ascii_of_string "echo=") chunk g 5 eq_refl H1);
  try rewrite (line_at_fresh (list_ascii_of_string "no_crlf=") chunk g 8 eq_refl H2);
  try rewrite (line_at_fresh (list_ascii_of_string "escape=") chunk g 7 eq_refl H3);
  destruct k; cbn [key_prefix key_index length list_ascii_of_string];
  rewrite ?(bool_decide_true _ H0), ?(bool_decide_false _ H0),
          ?(bool_decide_true _ H1), ?(bool_decide_false _ H1),
          ?(bool_decide_true _ H2), ?(bool_decide_false _ H2),
          ?(bool_decide_true _ H3), ?(bool_decide_false _ H3);
  destruct (overridden 0 b), (overridden 1 b), (overridden 2 b),
           (overridden 3 b); cbn [negb andb];
  repeat match goal with
  | |- context [is_char ?c ?d] => destruct (is_char c d)
  end; reflexivity.
Qed.

(** *** The whole file *)

Lemma last_setting_none k lines :
  Forall (fun l => line_setting k l = None) lines -> last_setting k lines = None.
Proof. induction 1 as [|l lines Hl _ IH]; simpl; [done|]. by rewrite IH. Qed.

Lemma last_setting_split k pre l post v :
  line_setting k l = Some v ->
  Forall (fun l' => line_setting k l' = None) post ->
  last_setting k (pre ++ l :: post) = Some v.
Proof.
  intros Hl Hpost. induction pre as [|p pre IH]; simpl.
  - by rewrite (last_setting_none _ _ Hpost).
  - by rewrite IH.
Qed.

(** The loop, seen through one key: unless the key is overridden, the last
    line with a setting for it decides. *)
Lemma load_configs_loop_field k fuel line stream b :
  field_of k (load_configs_loop fuel line stream b) =
  if overridden (key_index k) b then field_of k b
  else default (field_of k b) (last_setting k (fgets_pieces fuel stream)).
Proof.
  revert line stream b. induction fuel as [|fuel IH]; intros line stream b.
  - simpl. by destruct (overridden _ b).
  - destruct stream as [|c s].
    { simpl. by destruct (overridden _ b). }
    destruct (fgets_Some line c s) as (chunk & rest & Et & E & _).
    cbn [load_configs_loop fgets_pieces]. rewrite E, Et.
    rewrite IH, load_configs_line_overridden, load_configs_line_field.
    cbn [last_setting].
    destruct (overridden (key_index k) b); [done|].
    destruct (last_setting k (fgets_pieces fuel rest)); [done|].
    reflexivity.
Qed.

Lemma load_configs_loop_overrides fuel line stream b :
  config_overrides (load_configs_loop fuel line stream b) = config_overrides b.
Proof.
  revert line stream b. induction fuel as [|fuel IH]; intros line stream b;
    [done|].
  cbn [load_configs_loop]. destruct (fgets line 128 stream) as [[l r]|]; [|done].
  by rewrite IH, load_configs_line_overrides.
Qed.

Lemma load_configs_returns_0 fs line0 b : (load_configs fs line0 b).1 = 0.
Proof. unfold load_configs. by destruct (config_path (config b) ≫= fs). Qed.

Lemma load_configs_field k fs line0 b :
  field_of k (load_configs fs line0 b).2 =
  if overridden (key_index k) b then field_of k b
  else default (field_of k b) (last_setting k (config_file_lines fs b)).
Proof.
  unfold load_configs, config_file_lines, file_lines.
  destruct (config_path (config b) ≫= fs) as [text|]; cbn [snd].
  - apply load_configs_loop_field.
  - by destruct (overridden _ b).
Qed.

Lemma load_configs_overridden i fs line0 b :
  overridden i (load_configs fs line0 b).2 = overridden i b.
Proof.
  unfold overridden, load_configs.
  destruct (config_path (config b) ≫= fs) as [text|]; cbn [snd]; [|done].
  by rewrite load_configs_loop_overrides.
Qed.

End LoadConfigs.

(** ** The command line *)
Section ParseArgs.
Import Termios CString Speed Session Config ConfigSpec.




(** Setting the override flag of key [j], after any change [f] to the
    configuration that leaves the other three keys alone. *)
Lemma options_applied_flag j f b :
  length (config_overrides b) = 4%nat ->
  (forall k, k <> j -> field_of k (upd_config f b) = field_of k b) ->
  options_applied b (set_override (key_index j) (upd_config f b)) /\
  overridden (key_index j) (set_override (key_index j) (upd_config f b)) = true.
Proof.
  intros L Hf.
  destruct (config_overrides b) as [|o0 [|o1 [|o2 [|o3 [|]]]]] eqn:E;
    try discriminate L.
  split; [split|].
  - unfold set_override. cbn. rewrite E. by rewrite length_insert.
  - intros k. split.
    + unfold overridden, set_override. cbn. rewrite E.
      destruct j, k; cbn; done.
    + intros Hk. destruct (decide (k = j)) as [->|Hne].
      * exfalso. revert Hk. unfold overridden, set_override. cbn. rewrite E.
        destruct j; cbn; done.
      * rewrite <- (Hf k Hne). by destruct k.
  - unfold overridden, set_override. cbn. rewrite E. destruct j; done.
Qed.




End ParseArgs.

(** ** Precedence of command line, file and defaults *)
Section Precedence.
Import Termios CString Speed Session Config ConfigSpec.






End Precedence.

Section ConfigClaims.
Import Termios CString Speed Session Config ConfigSpec Samples.


(** C4, as the code has it: when a key is not overridden and the file has
    several lines for it, the last line with a value the parser takes is
    the one in effect after [load_configs]. *)
Theorem C4_last_matching_line_wins k fs line0 b pre l post v :
  overridden (key_index k) b = false ->
  config_file_lines fs b = (pre ++ l :: post)%list ->
  line_setting k l = Some v ->
  Forall (fun l' => line_setting k l' = None) post ->
  (load_configs fs line0 b).1 = 0 /\
  field_of k (load_configs fs line0 b).2 = v.
Proof.
  intros Hk Hlines Hl Hpost. split; [apply load_configs_returns_0|].
  rewrite load_configs_field, Hk, Hlines.
  by rewrite (last_setting_split k pre l post v Hl Hpost).
Qed.

Lemma C4_last_matching_line_wins_witness :
  let b := sample_session ["bytenuts"; "/dev/ttyUSB0"] in
  let fs := sample_fs (ln "echo=1" +:+ ln "colors=0" +:+ ln "echo=0" +:+ ln "echo=x") in
  (load_configs fs [] b).1 = 0 /\
  field_of KEY_ECHO (load_configs fs [] b).2 = 0.
Proof.
  intros b fs.
  apply (C4_last_matching_line_wins KEY_ECHO fs [] b
           [list_ascii_of_string (ln "echo=1"); list_ascii_of_string (ln "colors=0")]
           (list_ascii_of_string (ln "echo=0"))
           [list_ascii_of_string (ln "echo=x")] 0).
  - reflexivity.
  - reflexivity.
  - reflexivity.
  - repeat constructor.
Defined.

(** C4 as stated fails: with the two lines [echo=1] and [echo=0] the first
    line that sets [echo] says 1, and [load_configs] leaves 0. *)
Lemma C4_first_matching_line_counterexample :
  let b := sample_session ["bytenuts"; "/dev/ttyUSB0"] in
  let fs := sample_fs (ln "echo=1" +:+ ln "echo=0") in
  overridden (key_index KEY_ECHO) b = false /\
  first_setting KEY_ECHO (config_file_lines fs b) = Some 1 /\
  field_of KEY_ECHO (load_configs fs [] b).2 = 0 /\
  ~ (forall k fs line0 b v,
       overridden (key_index k) b = false ->
       first_setting k (config_file_lines fs b) = Some v ->
       field_of k (load_configs fs line0 b).2 = v).
Proof.
  intros b fs. split; [reflexivity|]. split; [reflexivity|].
  split; [reflexivity|].
  intros H. specialize (H KEY_ECHO fs [] b 1 eq_refl eq_refl). discriminate H.
Qed.

(** C10: a flag [--colors=c], [--echo=c] or [--no_crlf=c] whose value [c]
    is a character other than 0 and 1 is taken without error: processing
    it only sets the override flag of the key, the field keeps the value
    it had, and after a start with that flag the field has its default
    whatever the configuration file says. *)
Theorem C10_flag_with_other_value (k : config_key) (c : ascii) :
  k <> KEY_ESCAPE -> c <> "0"%char -> c <> "1"%char -> c <> NUL ->
  (forall rest b,
     parse_args_loop ((key_flag k +:+ str1 c) :: rest) b
     = parse_args_loop rest (set_override (key_index k) b) /\
     field_of k (set_override (key_index k) b) = field_of k b /\
     (length (config_overrides b) = 4%nat ->
      overridden (key_index k) (set_override (key_index k) b) = true)) /\
  (forall fs line0 b,
     overridden (key_index k) b = true ->
     field_of k (load_configs fs line0 b).2 = field_of k b) /\
  (forall dflt home fs line0 prog path, exists b,
     bytenuts_run_configure dflt home fs line0 [prog; key_flag k +:+ str1 c; path]
     = Some b /\
     field_of k b = config_field k dflt /\
     overridden (key_index k) b = true).
Proof.
  intros Hk H0 H1 _.
  apply Ascii.eqb_neq in H0, H1.
  assert (Hstep : forall rest b,
    parse_args_loop ((key_flag k +:+ str1 c) :: rest) b
    = parse_args_loop rest (set_override (key_index k) b)).
  { intros rest b. destruct k; [| | |done];
      match goal with
      | |- context [?f +:+ str1 c] =>
        let a := eval cbv in (f +:+ str1 c) in change (f +:+ str1 c) with a
      end;
      cbn -[is_char]; unfold is_char; by rewrite H0, H1. }
  split; [|split].
  - intros rest b. split; [apply Hstep|]. split; [by destruct k|].
    intros L. by apply (options_applied_flag k id b L).
  - intros fs line0 b Ho. by rewrite load_configs_field, Ho.
  - intros dflt home fs line0 prog path.
    set (b0 := upd_config
                 (set_config_path (Some (home +:+ "/.config/bytenuts/config")))
                 (set_config dflt bytenuts_zero)).
    set (b1 := upd_config (set_serial_path (Some path))
                 (set_override (key_index k) b0)).
    assert (Hp : parse_args dflt home [prog; key_flag k +:+ str1 c; path]
                   bytenuts_zero = (0, b1)).
    { unfold parse_args. cbn [length Nat.ltb Nat.leb Nat.eqb andb tl removelast].
      fold b0. rewrite Hstep. reflexivity. }
    assert (Ho : overridden (key_index k) b1 = true) by (by destruct k).
    exists (load_configs fs line0 b1).2. split; [|split].
    + unfold bytenuts_run_configure. rewrite Hp.
      pose proof (load_configs_returns_0 fs line0 b1) as Hr.
      destruct (load_configs fs line0 b1) as [r2 b2]. cbn in *. by subst r2.
    + rewrite load_configs_field, Ho. by destruct k.
    + by rewrite load_configs_overridden.
Qed.

Lemma C10_flag_with_other_value_witness :
  let fs := sample_fs (ln "echo=1") in
  exists b,
    bytenuts_run_configure sample_default sample_home fs []
      ["bytenuts"; "--echo=y"; "/dev/ttyUSB0"] = Some b /\
    field_of KEY_ECHO b = 0 /\ overridden 1 b = true.
Proof.
  intros fs.
  assert (Hk : KEY_ECHO <> KEY_ESCAPE) by discriminate.
  assert (H0 : "y"%char <> "0"%char) by discriminate.
  assert (H1 : "y"%char <> "1"%char) by discriminate.
  assert (Hn : "y"%char <> NUL) by discriminate.
  exact (proj2 (proj2 (C10_flag_with_other_value KEY_ECHO "y" Hk H0 H1 Hn))
           sample_default sample_home fs [] "bytenuts" "/dev/ttyUSB0").
Defined.

End ConfigClaims.

(** ** Running the monadic code *)
Section Running.
Import Session Runtime Bytenuts.

Lemma bind_Some {A B} (m : M A) (f : A -> M B) w a w1 :
  m w = Some (a, w1) -> (m ≫= f) w = f a w1.
Proof. unfold mbind, M_bind. by intros ->. Qed.

Lemma bind_inv {A B} (m : M A) (f : A -> M B) w r :
  (m ≫= f) w = Some r -> exists a w1, m w = Some (a, w1) /\ f a w1 = Some r.
Proof.
  unfold mbind, M_bind. destruct (m w) as [[a w1]|]; [|done]. eauto.
Qed.

Lemma set_held_same (s : sync) : set_held (held s) s = s.
Proof. by destruct s. Qed.

Lemma filter_ne_not_in {A} `{EqDecision A} (x : A) (l : list A) :
  x ∉ l -> filter (fun y => y ≠ x) l = l.
Proof.
  induction l as [|y l IH]; [done|]. intros Hx.
  apply not_elem_of_cons in Hx as [Hxy Hl].
  rewrite filter_cons_True by done. by rewrite IH.
Qed.

Lemma filter_ne_cons {A} `{EqDecision A} (x : A) (l : list A) :
  x ∉ l -> filter (fun y => y ≠ x) (x :: l) = l.
Proof.
  intros Hx. rewrite filter_cons_False by naive_solver.
  by apply filter_ne_not_in.
Qed.

Lemma not_held_nil (l : lock_id) : bool_decide (l ∈ @nil lock_id) = false.
Proof. apply bool_decide_false, not_elem_of_nil. Qed.

Lemma held_head (l : lock_id) (h : list lock_id) : bool_decide (l ∈ l :: h) = true.
Proof. apply bool_decide_true, list_elem_of_here. Qed.

End Running.

Ltac munfold :=
  cbv [mbind Runtime.M_bind mret Runtime.M_ret
       Runtime.get Runtime.put Runtime.undefined Runtime.upd_bn
       Runtime.upd_heap Runtime.upd_scr Runtime.upd_syn Runtime.upd_fds
       Runtime.log Runtime.pthread_mutex_lock Runtime.pthread_mutex_unlock
       Runtime.pthread_cond_signal Runtime.pthread_cond_wait_block
       Runtime.pthread_cond_wait_return Runtime.calloc_text Runtime.free
       Bytenuts.free_if Runtime.field Runtime.call Runtime.close
       Runtime.strdup Runtime.string_of_ptr Runtime.the_window
       Runtime.on_window Runtime.getyx Runtime.getmaxx Runtime.curs_set
       Runtime.wmove Runtime.waddch Runtime.wprintw Runtime.wrefresh
       Runtime.refresh Runtime.wresize Runtime.mvwin Runtime.delwin
       Runtime.endwin Runtime.newwin Runtime.engine_stop Runtime.engine_start
       Runtime.ingest_stop Runtime.cheerios_stop Runtime.ingest_start
       Runtime.cheerios_start Runtime.cheerios_insert].

Ltac munfold_in H :=
  cbv [mbind Runtime.M_bind mret Runtime.M_ret
       Runtime.get Runtime.put Runtime.undefined Runtime.upd_bn
       Runtime.upd_heap Runtime.upd_scr Runtime.upd_syn Runtime.upd_fds
       Runtime.log Runtime.pthread_mutex_lock Runtime.pthread_mutex_unlock
       Runtime.pthread_cond_signal Runtime.pthread_cond_wait_block
       Runtime.pthread_cond_wait_return Runtime.calloc_text Runtime.free
       Bytenuts.free_if Runtime.field Runtime.call Runtime.close
       Runtime.strdup Runtime.string_of_ptr Runtime.the_window
       Runtime.on_window Runtime.getyx Runtime.getmaxx Runtime.curs_set
       Runtime.wmove Runtime.waddch Runtime.wprintw Runtime.wrefresh
       Runtime.refresh Runtime.wresize Runtime.mvwin Runtime.delwin
       Runtime.endwin Runtime.newwin Runtime.engine_stop Runtime.engine_start
       Runtime.ingest_stop Runtime.cheerios_stop Runtime.ingest_start
       Runtime.cheerios_start Runtime.cheerios_insert] in H.

Ltac wsimpl :=
  cbn [Runtime.bn Runtime.heap Runtime.scr Runtime.syn Runtime.open_fds
       Runtime.trace Runtime.with_bn Runtime.with_heap Runtime.with_scr
       Runtime.with_syn Runtime.with_fds Runtime.logged
       Runtime.held Runtime.cond_waiting Runtime.cond_woken
       Runtime.ingest_running Runtime.cheerios_running
       Runtime.set_held Runtime.set_cond Runtime.set_engine].

Ltac ssimpl :=
  cbn [Runtime.bn Runtime.heap Runtime.scr Runtime.syn Runtime.open_fds
       Runtime.trace Runtime.with_bn Runtime.with_heap Runtime.with_scr
       Runtime.with_syn Runtime.with_fds Runtime.logged
       Runtime.held Runtime.cond_waiting Runtime.cond_woken
       Runtime.ingest_running Runtime.cheerios_running
       Runtime.set_held Runtime.set_cond Runtime.set_engine
       Runtime.screen_win Runtime.set_screen_win Runtime.set_cursor_visibility
       Runtime.win_status Runtime.win_out Runtime.win_in
       Runtime.cursor_visibility Runtime.LINES Runtime.COLS fst snd].

Ltac wsimpl_in H :=
  cbn [Runtime.bn Runtime.heap Runtime.scr Runtime.syn Runtime.open_fds
       Runtime.trace Runtime.with_bn Runtime.with_heap Runtime.with_scr
       Runtime.with_syn Runtime.with_fds Runtime.logged
       Runtime.held Runtime.cond_waiting Runtime.cond_woken
       Runtime.ingest_running Runtime.cheerios_running
       Runtime.set_held Runtime.set_cond Runtime.set_engine] in H.

(** ** The status aggregator: unknown owners *)
Section UnknownOwner.
Import Session Runtime Bytenuts.
Context `{status_enum}.

(** C9: for an owner identifier that is none of the four, called by a
    thread that does not hold [lock], [bytenuts_set_status] returns 0; the
    block allocated for the text is the one it frees, so the heap is as
    before; the session struct (hence the four status fields) and the
    screen are unchanged; and the calls made are the allocation, the lock,
    the [free] and the unlock: no ncurses call, so no redraw. *)
Theorem C9_unknown_owner_is_ignored (user : Z) (text : string) (w : world) :
  user ∉ known_owners ->
  LOCK ∉ held (syn w) ->
  exists w',
    bytenuts_set_status user text w = Some (0, w') /\
    bn w' = bn w /\ heap w' = heap w /\ scr w' = scr w /\ syn w' = syn w /\
    open_fds w' = open_fds w /\
    trace w' = trace w ++
      [EvCalloc (fresh (dom (heap w))); EvLock LOCK;
       EvFree (fresh (dom (heap w))); EvUnlock LOCK].
Proof.
  intros Hu Hh. unfold known_owners in Hu.
  assert (H1 : (user =? STATUS_BYTENUTS) = false) by (apply Z.eqb_neq; set_solver).
  assert (H2 : (user =? STATUS_INGEST) = false) by (apply Z.eqb_neq; set_solver).
  assert (H3 : (user =? STATUS_CHEERIOS) = false) by (apply Z.eqb_neq; set_solver).
  assert (H4 : (user =? STATUS_CMDPAGE) = false) by (apply Z.eqb_neq; set_solver).
  eexists. split.
  - unfold bytenuts_set_status. rewrite H1, H2, H3, H4.
    munfold. wsimpl. rewrite (bool_decide_false _ Hh). wsimpl.
    rewrite lookup_insert_eq. wsimpl.
    rewrite held_head. wsimpl. reflexivity.
  - wsimpl.
    split; [done|]. split.
    { apply delete_insert_id, not_elem_of_dom, is_fresh. }
    split; [done|]. split.
    { rewrite filter_ne_cons by done. by destruct (syn w). }
    split; [done|]. by rewrite <- !app_assoc.
Qed.

End UnknownOwner.

(** ** Shutdown *)
Section Shutdown.
Import Session Runtime Bytenuts Lifecycle.

(** The calls that a completed [bytenuts_kill] made, in order. *)
Lemma bytenuts_kill_trace w w' :
  bytenuts_kill w = Some (tt, w') ->
  exists a b c,
    status_win (bn w) = Some a /\ in_win (bn w) = Some b /\
    out_win (bn w) = Some c /\
    trace w' = trace w ++
      [EvEngineStop INGEST; EvEngineStop CHEERIOS;
       EvCurses (Delwin a); EvCurses (Delwin b); EvCurses (Delwin c);
       EvCurses Endwin; EvClose (serial_fd (bn w))] /\
    bn w' = bn w /\
    ingest_running (syn w') = false /\ cheerios_running (syn w') = false /\
    held (syn w') = held (syn w) /\
    cond_waiting (syn w') = cond_waiting (syn w) /\
    scr w' = set_screen_win c None
               (set_screen_win b None (set_screen_win a None (scr w))) /\
    open_fds w' = filter (fun fd' => fd' ≠ serial_fd (bn w)) (open_fds w).
Proof.
  intros Hk. unfold bytenuts_kill in Hk. munfold_in Hk. wsimpl_in Hk.
  repeat case_match; simplify_eq. wsimpl.
  do 3 eexists. repeat (split; [done|]).
  split; [by rewrite <- !app_assoc|].
  repeat (split; [done|]). done.
Qed.

(** [bytenuts_kill] does complete when the three windows exist. *)
Lemma bytenuts_kill_runs w :
  windows_ok w -> exists w', bytenuts_kill w = Some (tt, w').
Proof.
  intros (Hs & Hi & Ho & [ws Hws] & [wi Hwi] & [wo Hwo]).
  unfold bytenuts_kill. munfold. wsimpl.
  rewrite Hs. cbn [screen_win]. wsimpl. rewrite Hws. wsimpl.
  rewrite Hi. cbn [screen_win set_screen_win win_in]. wsimpl.
  cbn [screen_win set_screen_win win_in]. rewrite Hwi. wsimpl.
  rewrite Ho. cbn [screen_win set_screen_win win_out]. wsimpl.
  cbn [screen_win set_screen_win win_out]. rewrite Hwo. wsimpl.
  eauto.
Qed.

(** C7: in a shutdown, the two engine stops come before every window
    destruction, before [endwin] and before the [close]; the only [close]
    is the one of the serial descriptor, once; and when [bytenuts_kill]
    returns both engines are stopped, the three windows are gone and the
    descriptor is no longer open. *)
Theorem C7_engines_stop_before_teardown (w w' : world) :
  bytenuts_kill w = Some (tt, w') ->
  exists evs,
    trace w' = trace w ++ evs /\
    (forall j e, evs !! j = Some e -> is_teardown e = true ->
       exists i1 i2, (i1 < j)%nat /\ (i2 < j)%nat /\
         evs !! i1 = Some (EvEngineStop INGEST) /\
         evs !! i2 = Some (EvEngineStop CHEERIOS)) /\
    filter (fun e => is_close e = true) evs = [EvClose (serial_fd (bn w))] /\
    ingest_running (syn w') = false /\ cheerios_running (syn w') = false /\
    win_status (scr w') = None /\ win_in (scr w') = None /\
    win_out (scr w') = None /\
    serial_fd (bn w) ∉ open_fds w'.
Proof.
  intros Hk.
  pose proof Hk as Hk'. unfold bytenuts_kill in Hk'. munfold_in Hk'.
  wsimpl_in Hk'. repeat case_match; simplify_eq. wsimpl.
  eexists. split; [by rewrite <- !app_assoc|]. split.
  { intros j e Hj He. exists 0%nat, 1%nat.
    do 7 (destruct j as [|j]; [simplify_eq/=; try done; repeat split; lia|]).
    done. }
  split; [done|]. split; [done|]. split; [done|].
  repeat match goal with
  | H : _ = Some ?a |- _ => is_var a; destruct a
  end; cbn in *; simplify_eq;
  (split; [done|]); (split; [done|]); (split; [done|]);
  intros [? _]%list_elem_of_filter; done.
Qed.

End Shutdown.

(** ** The stop protocol *)
Section StopProtocol.
Import Session Runtime Bytenuts Lifecycle.

Lemma shutdown_sequences_app tr evs :
  shutdown_sequences (tr ++ evs)
  = (shutdown_sequences tr + shutdown_sequences evs)%nat.
Proof. unfold shutdown_sequences. by rewrite filter_app, length_app. Qed.

Lemma windows_ok_ext w w' :
  bn w' = bn w -> scr w' = scr w -> windows_ok w -> windows_ok w'.
Proof. unfold windows_ok. by intros -> ->. Qed.

(** [bytenuts_stop] always returns 0; it wakes the main thread when that
    thread is waiting and changes nothing otherwise. *)
Lemma bytenuts_stop_run w :
  held (syn w) = [] ->
  exists w',
    bytenuts_stop w = Some (0, w') /\
    bn w' = bn w /\ scr w' = scr w /\ held (syn w') = [] /\
    cond_waiting (syn w') = false /\
    cond_woken (syn w') = (cond_waiting (syn w) || cond_woken (syn w)) /\
    trace w' = trace w ++ [EvLock LOCK; EvCondSignal; EvUnlock LOCK].
Proof.
  intros Hh. destruct (cond_waiting (syn w)) eqn:Hcw.
  - eexists. split.
    + unfold bytenuts_stop. munfold. wsimpl. rewrite Hh, not_held_nil.
      wsimpl. rewrite Hcw. wsimpl. rewrite held_head. reflexivity.
    + wsimpl. rewrite Hcw. wsimpl. rewrite Hh.
      rewrite filter_ne_cons by apply not_elem_of_nil.
      repeat split; try done. by rewrite <- !app_assoc.
  - eexists. split.
    + unfold bytenuts_stop. munfold. wsimpl. rewrite Hh, not_held_nil.
      wsimpl. rewrite Hcw. wsimpl. rewrite held_head. reflexivity.
    + wsimpl. rewrite Hcw. wsimpl. rewrite Hh.
      rewrite filter_ne_cons by apply not_elem_of_nil.
      repeat split; try done. by rewrite <- !app_assoc.
Qed.

Lemma bytenuts_run_wait_run w :
  held (syn w) = [] ->
  exists w',
    bytenuts_run_wait w = Some (tt, w') /\
    bn w' = bn w /\ scr w' = scr w /\ held (syn w') = [] /\
    cond_waiting (syn w') = true /\ cond_woken (syn w') = false /\
    trace w' = trace w ++ [EvLock LOCK; EvCondWait].
Proof.
  intros Hh. eexists. split.
  - unfold bytenuts_run_wait. munfold. wsimpl. rewrite Hh.
    rewrite not_held_nil. wsimpl. rewrite held_head. reflexivity.
  - wsimpl. rewrite Hh. rewrite filter_ne_cons by apply not_elem_of_nil.
    repeat split; try done. by rewrite <- !app_assoc.
Qed.

Lemma bytenuts_run_finish_run w :
  held (syn w) = [] -> cond_woken (syn w) = true -> windows_ok w ->
  exists w',
    bytenuts_run_finish w = Some (0, w') /\
    held (syn w') = [] /\ cond_waiting (syn w') = false /\
    shutdown_sequences (trace w') = S (shutdown_sequences (trace w)).
Proof.
  intros Hh Hk Hwin.
  set (w1 := with_syn (fun s => set_held (filter (fun l' => l' ≠ LOCK) (held s)) s)
               (logged (EvUnlock LOCK)
                  (with_syn (fun s => set_held (LOCK :: held s) s)
                     (with_syn (set_cond false false) w)))).
  assert (Hwin1 : windows_ok w1) by exact Hwin.
  destruct (bytenuts_kill_runs w1 Hwin1) as [w' Hkill].
  exists w'. split.
  - unfold bytenuts_run_finish.
    rewrite (bind_Some _ _ w tt (with_syn (fun s => set_held (LOCK :: held s) s)
                                  (with_syn (set_cond false false) w))).
    2:{ munfold. by rewrite Hk. }
    rewrite (bind_Some _ _ _ tt w1).
    2:{ munfold. wsimpl. rewrite Hh, held_head. done. }
    rewrite (bind_Some _ _ _ tt w' Hkill). done.
  - apply bytenuts_kill_trace in Hkill
      as (a & b & c & _ & _ & _ & Htr & _ & _ & _ & Hheld & Hcw & _).
    split; [|split].
    + rewrite Hheld. subst w1. wsimpl. rewrite Hh. done.
    + rewrite Hcw. done.
    + rewrite Htr. subst w1. wsimpl.
      rewrite !shutdown_sequences_app.
      match goal with
      | |- (_ + shutdown_sequences ?l1 + shutdown_sequences ?l2)%nat = _ =>
        change (shutdown_sequences l1) with 0%nat;
        change (shutdown_sequences l2) with 1%nat
      end. lia.
Qed.

(** Every action keeps the invariant and moves the phase as the
    four-phase automaton says. *)
Lemma step_simulates k a st :
  stop_invariant k st ->
  exists st', step a st = Some st' /\ stop_invariant k st' /\
              phase_of st' = phase_step a (phase_of st).
Proof.
  destruct st as [pc w]. intros [Hh Hpc].
  destruct a.
  - (* a stop request *)
    destruct (bytenuts_stop_run w Hh)
      as (w' & Hrun & Hbn & Hscr & Hh' & Hcw & Hck & Htr).
    exists (pc, w'). cbn [step]. rewrite Hrun. split; [done|].
    pose proof (windows_ok_ext w w' Hbn Hscr) as Hwin.
    assert (Hcount : shutdown_sequences (trace w') = shutdown_sequences (trace w)).
    { rewrite Htr, shutdown_sequences_app.
      change (shutdown_sequences [_; _; _]) with 0%nat. lia. }
    unfold phase_of; cbn [fst snd].
    destruct pc; cbn [stop_invariant].
    + destruct Hpc as (Hw & Hk & Hwo & Hc). rewrite Hck, Hw, Hk. cbn.
      split_and!; first [done | by apply Hwin | congruence].
    + destruct Hpc as (Hw & Hwo & Hc). rewrite Hck, Hcw.
      rewrite Hw. destruct (cond_woken (syn w)); cbn;
        split_and!; first [done | by apply Hwin | congruence].
    + destruct Hpc as (Hw & Hc).
      split_and!; first [done | congruence].
  - (* the main thread reaches the wait *)
    destruct pc.
    3:{ exists (MAIN_DONE, w). by split_and!. }
    + destruct Hpc as (Hw & Hk & Hwo & Hc).
      destruct (bytenuts_run_wait_run w Hh)
        as (w' & Hrun & Hbn & Hscr & Hh' & Hcw & Hck & Htr).
      exists (MAIN_WAITING, w'). cbn [step]. rewrite Hrun. split; [done|].
      pose proof (windows_ok_ext w w' Hbn Hscr Hwo) as Hwin.
      assert (shutdown_sequences (trace w') = k) as Hcount.
      { rewrite Htr, shutdown_sequences_app.
        change (shutdown_sequences [_; _]) with 0%nat. lia. }
      unfold phase_of; cbn [fst snd stop_invariant]. rewrite Hck, Hcw.
      by split_and!.
    + exists (MAIN_WAITING, w). split; [done|]. split; [by split|].
      unfold phase_of; cbn. by destruct (cond_woken (syn w)).
  - (* the main thread wakes *)
    destruct pc.
    1:{ exists (MAIN_RUNNING, w). by split_and!. }
    2:{ exists (MAIN_DONE, w). by split_and!. }
    destruct Hpc as (Hw & Hwo & Hc). cbn [step].
    unfold phase_of; cbn [fst snd].
    destruct (cond_woken (syn w)) eqn:Hk.
    + destruct (bytenuts_run_finish_run w Hh Hk Hwo) as (w' & Hrun & Hh' & Hcw & Hn).
      exists (MAIN_DONE, w'). rewrite Hrun. repeat split; try done. congruence.
    + exists (MAIN_WAITING, w). split; [done|]. split.
      * split; [done|]. rewrite Hk. by split_and!.
      * cbn. by rewrite Hk.
Qed.

Lemma run_simulates k sched st :
  stop_invariant k st ->
  exists st', run sched st = Some st' /\ stop_invariant k st' /\
              phase_of st' = foldl (fun ph a => phase_step a ph) (phase_of st) sched.
Proof.
  revert st. induction sched as [|a sched IH]; intros st Hinv.
  - exists st. by repeat split.
  - destruct (step_simulates k a st Hinv) as (st1 & Hstep & Hinv1 & Hph).
    destruct (IH st1 Hinv1) as (st' & Hrun & Hinv' & Hph').
    exists st'. cbn [run foldl]. rewrite Hstep. cbn. rewrite <- Hph.
    by repeat split.
Qed.

(** The automaton alone: where a schedule followed by the main thread's
    turn ends. *)
Lemma phase_from_done sched :
  foldl (fun ph a => phase_step a ph) Done sched = Done.
Proof. induction sched as [|[] sched IH]; done. Qed.

Lemma phase_from_woken sched :
  phase_step ACT_MAIN_WAKE (foldl (fun ph a => phase_step a ph) Woken sched) = Done.
Proof.
  induction sched as [|[] sched IH]; try done.
  cbn [foldl]. change (phase_step ACT_MAIN_WAKE Woken) with Done.
  by rewrite phase_from_done.
Qed.

Lemma phase_from_waiting sched :
  phase_step ACT_MAIN_WAKE (foldl (fun ph a => phase_step a ph) Waiting sched)
  = if bool_decide (ACT_STOP ∈ sched) then Done else Waiting.
Proof.
  induction sched as [|a sched IH]; [done|].
  destruct a; cbn [foldl].
  - change (phase_step ACT_STOP Waiting) with Woken.
    rewrite phase_from_woken. by rewrite bool_decide_true by set_solver.
  - change (phase_step ACT_MAIN_WAIT Waiting) with Waiting.
    rewrite IH. apply (f_equal (fun b : bool => if b then Done else Waiting)).
    apply bool_decide_ext. rewrite elem_of_cons. split; [tauto|by intros [?|?]].
  - change (phase_step ACT_MAIN_WAKE Waiting) with Waiting.
    rewrite IH. apply (f_equal (fun b : bool => if b then Done else Waiting)).
    apply bool_decide_ext. rewrite elem_of_cons. split; [tauto|by intros [?|?]].
Qed.

Lemma phase_from_running sched :
  phase_step ACT_MAIN_WAKE (foldl (fun ph a => phase_step a ph) Running sched)
  = if stop_after_wait sched then Done
    else if bool_decide (ACT_MAIN_WAIT ∈ sched) then Waiting else Running.
Proof.
  induction sched as [|a sched IH]; [done|].
  destruct a; cbn [foldl stop_after_wait].
  - change (phase_step ACT_STOP Running) with Running.
    rewrite IH. destruct (stop_after_wait sched); [done|].
    apply (f_equal (fun b : bool => if b then Waiting else Running)).
    apply bool_decide_ext. rewrite elem_of_cons. split; [tauto|by intros [?|?]].
  - change (phase_step ACT_MAIN_WAIT Running) with Waiting.
    rewrite phase_from_waiting. destruct (bool_decide (ACT_STOP ∈ sched)); [done|].
    by rewrite bool_decide_true by set_solver.
  - change (phase_step ACT_MAIN_WAKE Running) with Running.
    rewrite IH. destruct (stop_after_wait sched); [done|].
    apply (f_equal (fun b : bool => if b then Waiting else Running)).
    apply bool_decide_ext. rewrite elem_of_cons. split; [tauto|by intros [?|?]].
Qed.

Lemma started_invariant w :
  started w -> stop_invariant (shutdown_sequences (trace w)) (MAIN_RUNNING, w).
Proof. intros (Hh & Hw & Hk & Hwin). cbn. by split_and!. Qed.

(** C1, as the code has it.  From a started session, every schedule of
    stop requests and main-thread turns runs without fault and adds at
    most one shutdown sequence; it adds exactly one when some stop request
    comes after the main thread began to wait, however many requests there
    are, and none when no request does: a request made before the wait is
    not remembered. *)
Theorem C1_stop_requests_after_wait (w0 : world) (sched : list action) :
  started w0 ->
  exists pc w,
    run_to_end sched (MAIN_RUNNING, w0) = Some (pc, w) /\
    shutdown_sequences (trace w)
    = (shutdown_sequences (trace w0)
       + if stop_after_wait sched then 1 else 0)%nat /\
    (stop_after_wait sched = true -> pc = MAIN_DONE) /\
    (stop_after_wait sched = false -> pc <> MAIN_DONE).
Proof.
  intros Hst. apply started_invariant in Hst.
  set (k := shutdown_sequences (trace w0)) in *.
  destruct (run_simulates k sched _ Hst) as (st1 & Hrun & Hinv1 & Hph1).
  destruct (step_simulates k ACT_MAIN_WAKE st1 Hinv1) as ([pc w] & Hstep & Hinv & Hph).
  exists pc, w. split.
  { unfold run_to_end. rewrite Hrun. exact Hstep. }
  rewrite Hph1 in Hph. change (phase_of (MAIN_RUNNING, w0)) with Running in Hph.
  rewrite phase_from_running in Hph.
  destruct Hinv as [_ Hinv]. unfold phase_of in Hph. cbn [fst snd] in Hph.
  destruct (stop_after_wait sched).
  - assert (pc = MAIN_DONE) as ->.
    { destruct pc; [done| |done]. by destruct (cond_woken (syn w)). }
    destruct Hinv as [_ ->]. split_and!; [lia|done|done].
  - assert (pc <> MAIN_DONE) as Hpc.
    { intros ->. by destruct (bool_decide (ACT_MAIN_WAIT ∈ sched)). }
    assert (shutdown_sequences (trace w) = k) as ->.
    { destruct pc; [by destruct Hinv as (_ & _ & _ & ->)
                   |by destruct Hinv as (_ & _ & ->)|done]. }
    split_and!; [lia|done|done].
Qed.

End StopProtocol.

(** ** The claims at the sample session *)
Section SampleRuns.
Import Session Runtime Bytenuts Lifecycle Samples.

Lemma sample_world_started : started sample_world.
Proof.
  split; [reflexivity|]. split; [reflexivity|]. split; [reflexivity|].
  repeat split; try (vm_compute; reflexivity); eexists; vm_compute; reflexivity.
Qed.

Lemma C9_unknown_owner_is_ignored_witness :
  exists w',
    bytenuts_set_status (H := sample_enum) 7 "lost" sample_world = Some (0, w') /\
    bn w' = bn sample_world /\ heap w' = heap sample_world /\
    scr w' = scr sample_world /\ syn w' = syn sample_world /\
    open_fds w' = open_fds sample_world /\
    trace w' = trace sample_world ++
      [EvCalloc (fresh (dom (heap sample_world))); EvLock LOCK;
       EvFree (fresh (dom (heap sample_world))); EvUnlock LOCK].
Proof.
  apply (C9_unknown_owner_is_ignored (H := sample_enum) 7 "lost" sample_world).
  - intros Hin. unfold known_owners in Hin.
    repeat (apply elem_of_cons in Hin as [Hin|Hin]; [discriminate Hin|]).
    by apply elem_of_nil in Hin.
  - change (held (syn sample_world)) with (@nil lock_id). apply not_elem_of_nil.
Defined.

Lemma C7_engines_stop_before_teardown_witness :
  exists w', bytenuts_kill sample_world = Some (tt, w') /\
    ingest_running (syn sample_world) = true /\
    ingest_running (syn w') = false /\ cheerios_running (syn w') = false /\
    win_status (scr w') = None /\ 3 ∉ open_fds w'.
Proof.
  destruct (bytenuts_kill sample_world) as [[[] w']|] eqn:Hk;
    [|exfalso; vm_compute in Hk; discriminate Hk].
  exists w'. split; [reflexivity|]. split; [reflexivity|].
  destruct (C7_engines_stop_before_teardown sample_world w' Hk)
    as (evs & _ & _ & _ & Hi & Hc & Hs & _ & _ & Hfd).
  repeat split; assumption.
Defined.

Lemma C1_stop_requests_after_wait_witness :
  exists pc w,
    run_to_end [ACT_STOP; ACT_MAIN_WAIT; ACT_STOP; ACT_STOP]
               (MAIN_RUNNING, sample_world) = Some (pc, w) /\
    shutdown_sequences (trace w) = 1%nat /\ pc = MAIN_DONE.
Proof.
  destruct (C1_stop_requests_after_wait sample_world
              [ACT_STOP; ACT_MAIN_WAIT; ACT_STOP; ACT_STOP] sample_world_started)
    as (pc & w & Hrun & Hn & Hdone & _).
  exists pc, w. split; [exact Hrun|]. split; [exact Hn|]. by apply Hdone.
Defined.

(** C1 as stated fails: one stop request made before the main thread
    waits is lost.  The main thread then blocks, is never marked as woken,
    and no shutdown sequence runs. *)
Lemma C1_stop_before_wait_counterexample :
  exists w,
    run_to_end [ACT_STOP; ACT_MAIN_WAIT] (MAIN_RUNNING, sample_world)
    = Some (MAIN_WAITING, w) /\
    cond_waiting (syn w) = true /\ cond_woken (syn w) = false /\
    shutdown_sequences (trace w) = 0%nat.
Proof.
  eexists. split; [vm_compute; reflexivity|].
  split; [reflexivity|]. split; reflexivity.
Qed.

End SampleRuns.

(** ** Lock discipline of the monadic code *)
Section Discipline.
Import Session Runtime Bytenuts Locking.

Variable P : event -> bool.
Variable l : lock_id.

Lemma held_after_app e1 e2 h :
  held_after (e1 ++ e2) h = held_after e2 (held_after e1 h).
Proof. apply foldl_app. Qed.

Lemma guarded_app e1 e2 h :
  guarded P l h (e1 ++ e2)
  = guarded P l h e1 && guarded P l (held_after e1 h) e2.
Proof.
  revert h. induction e1 as [|e e1 IH]; intros h; [done|].
  cbn [app guarded held_after foldl]. rewrite IH. by rewrite andb_assoc.
Qed.

Lemma respects_ret {A} (a : A) h : respects P l h (mret a) h.
Proof.
  intros w a' w' Hh [= <- <-]. exists []. by rewrite app_nil_r.
Qed.

Lemma respects_bind {A B} (m : M A) (f : A -> M B) h h1 h2 :
  respects P l h m h1 -> (forall a, respects P l h1 (f a) h2) ->
  respects P l h (m ≫= f) h2.
Proof.
  intros Hm Hf w b w' Hh Hrun.
  apply bind_inv in Hrun as (a & w1 & Hrun1 & Hrun2).
  destruct (Hm w a w1 Hh Hrun1) as (e1 & Ht1 & Hh1 & Ha1 & Hg1).
  destruct (Hf a w1 b w' Hh1 Hrun2) as (e2 & Ht2 & Hh2 & Ha2 & Hg2).
  exists (e1 ++ e2). split_and!.
  - by rewrite Ht2, Ht1, app_assoc.
  - done.
  - by rewrite held_after_app, Ha1.
  - by rewrite guarded_app, Hg1, Ha1.
Qed.

Lemma respects_bind_assoc {A B C} (m : M A) (g : A -> M B) (f : B -> M C) h h' :
  respects P l h (m ≫= fun a => g a ≫= f) h' ->
  respects P l h ((m ≫= g) ≫= f) h'.
Proof.
  intros Hm w c w' Hh Hrun. apply (Hm w c w' Hh).
  revert Hrun. unfold mbind, M_bind. by destruct (m w) as [[a w1]|].
Qed.

Lemma respects_ret_bind {A B} (a : A) (f : A -> M B) h h' :
  respects P l h (f a) h' -> respects P l h (mret a ≫= f) h'.
Proof. intros Hf w b w' Hh Hrun. by apply (Hf w b w' Hh). Qed.

Lemma respects_undefined_bind {A B} (f : A -> M B) h h' :
  respects P l h (undefined ≫= f) h'.
Proof. intros w b w' _ Hrun. discriminate Hrun. Qed.

Lemma respects_undefined {A} h h' : respects P l h (@undefined A) h'.
Proof. intros w a w' _ Hrun. discriminate Hrun. Qed.

Lemma respects_get h : respects P l h get h.
Proof. intros w a w' Hh [= <- <-]. exists []. by rewrite app_nil_r. Qed.

Lemma respects_field {A} (f : bytenuts_t -> A) h : respects P l h (field f) h.
Proof. intros w a w' Hh [= <- <-]. exists []. by rewrite app_nil_r. Qed.

Lemma respects_upd_bn f h : respects P l h (upd_bn f) h.
Proof. intros w a w' Hh [= <- <-]. exists []. by rewrite app_nil_r. Qed.

Lemma respects_upd_heap f h : respects P l h (upd_heap f) h.
Proof. intros w a w' Hh [= <- <-]. exists []. by rewrite app_nil_r. Qed.

Lemma respects_upd_scr f h : respects P l h (upd_scr f) h.
Proof. intros w a w' Hh [= <- <-]. exists []. by rewrite app_nil_r. Qed.

Lemma respects_upd_fds f h : respects P l h (upd_fds f) h.
Proof. intros w a w' Hh [= <- <-]. exists []. by rewrite app_nil_r. Qed.

(** An event other than a lock or unlock. *)
Lemma respects_log e h :
  event_held e h = h -> (P e = true -> l ∈ h) -> respects P l h (log e) h.
Proof.
  intros He HP w a w' Hh [= <- <-]. exists [e]. split_and!; try done.
  cbn. rewrite andb_true_r. destruct (P e); [|done].
  by apply bool_decide_true, HP.
Qed.

Lemma respects_lock l' h h' :
  h' = l' :: h -> (P (EvLock l') = true -> l ∈ h) ->
  respects P l h (pthread_mutex_lock l') h'.
Proof.
  intros -> HP w a w' Hh Hrun. unfold pthread_mutex_lock in Hrun.
  munfold_in Hrun. destruct (bool_decide _); [done|]. simplify_eq.
  exists [EvLock l']. wsimpl. split_and!; try done.
  cbn. rewrite andb_true_r. destruct (P _); [|done].
  by apply bool_decide_true, HP.
Qed.

Lemma respects_unlock l' h h' :
  h' = filter (fun x => x ≠ l') h -> (P (EvUnlock l') = true -> l ∈ h) ->
  respects P l h (pthread_mutex_unlock l') h'.
Proof.
  intros -> HP w a w' Hh Hrun. unfold pthread_mutex_unlock in Hrun.
  munfold_in Hrun. destruct (bool_decide _); [|done]. simplify_eq.
  exists [EvUnlock l']. wsimpl. split_and!; try done.
  cbn. rewrite andb_true_r. destruct (P _); [|done].
  by apply bool_decide_true, HP.
Qed.

Lemma respects_for_ n body h :
  respects P l h body h -> respects P l h (for_ n body) h.
Proof.
  intros Hb. induction n as [|n IH]; cbn [for_].
  - apply respects_ret.
  - eapply respects_bind; [exact Hb|]. intros _. exact IH.
Qed.

End Discipline.

Ltac respects_side :=
  let HP := fresh in
  intros HP;
  first [ discriminate HP
        | apply (bool_decide_unpack _); vm_compute; exact I ].

Ltac respects_prim :=
  lazymatch goal with
  | |- Locking.respects _ _ _ (mret _) _ => apply respects_ret
  | |- Locking.respects _ _ _ Runtime.get _ => apply respects_get
  | |- Locking.respects _ _ _ Runtime.undefined _ => apply respects_undefined
  | |- Locking.respects _ _ _ (Runtime.field _) _ => apply respects_field
  | |- Locking.respects _ _ _ (Runtime.upd_bn _) _ => apply respects_upd_bn
  | |- Locking.respects _ _ _ (Runtime.upd_heap _) _ => apply respects_upd_heap
  | |- Locking.respects _ _ _ (Runtime.upd_scr _) _ => apply respects_upd_scr
  | |- Locking.respects _ _ _ (Runtime.upd_fds _) _ => apply respects_upd_fds
  | |- Locking.respects _ _ _ (Runtime.log _) _ =>
    apply respects_log; [reflexivity | respects_side]
  | |- Locking.respects _ _ _ (Runtime.pthread_mutex_lock _) _ =>
    eapply respects_lock; [vm_compute; reflexivity | respects_side]
  | |- Locking.respects _ _ _ (Runtime.pthread_mutex_unlock _) _ =>
    eapply respects_unlock; [vm_compute; reflexivity | respects_side]
  end.

(** Symbolic execution: binds are re-associated to the right, so that a
    branch is followed to its end with the mutexes it holds. *)
Ltac respects_go :=
  lazymatch goal with
  | |- Locking.respects _ _ _ ((_ ≫= _) ≫= _) _ =>
    apply respects_bind_assoc; respects_go
  | |- Locking.respects _ _ _ (mret _ ≫= _) _ =>
    apply respects_ret_bind; respects_go
  | |- Locking.respects _ _ _ ((if ?b then _ else _) ≫= _) _ => destruct b; respects_go
  | |- Locking.respects _ _ _ ((match ?x with _ => _ end) ≫= _) _ =>
    destruct x; respects_go
  | |- Locking.respects _ _ _ (Runtime.undefined ≫= _) _ =>
    apply respects_undefined_bind
  | |- Locking.respects _ _ _ (Runtime.for_ _ _ ≫= _) _ =>
    eapply respects_bind;
    [apply respects_for_; respects_go | intros ?; respects_go]
  | |- Locking.respects _ _ _ (_ ≫= _) _ =>
    eapply respects_bind; [respects_prim | intros ?; respects_go]
  | |- Locking.respects _ _ _ (if ?b then _ else _) _ => destruct b; respects_go
  | |- Locking.respects _ _ _ (match ?x with _ => _ end) _ => destruct x; respects_go
  | |- _ => respects_prim
  end.

Ltac respects_unfold :=
  cbv [Runtime.calloc_text Runtime.free Bytenuts.free_if Runtime.call
       Runtime.close Runtime.strdup Runtime.string_of_ptr Runtime.the_window
       Runtime.on_window Runtime.getyx Runtime.getmaxx Runtime.curs_set
       Runtime.wmove Runtime.waddch Runtime.wprintw Runtime.wrefresh
       Runtime.refresh Runtime.wresize Runtime.mvwin Runtime.delwin
       Runtime.endwin Runtime.newwin Runtime.cheerios_insert].

Section StaticDiscipline.
Import Session Runtime Bytenuts Locking.
Context `{status_enum}.

(** Every ncurses call of the two functions is made with [term_lock]
    held, and both return with no mutex held. *)
Lemma set_status_screen_under_term_lock user text :
  respects touches_screen TERM_LOCK [] (bytenuts_set_status user text) [].
Proof. unfold bytenuts_set_status. respects_unfold. respects_go. Qed.

Lemma update_screen_size_under_term_lock :
  respects touches_screen TERM_LOCK [] bytenuts_update_screen_size [].
Proof. unfold bytenuts_update_screen_size. respects_unfold. respects_go. Qed.

(** Every assignment to a status field is made with [lock] held. *)
Lemma set_status_store_under_lock user text :
  respects status_store LOCK [] (bytenuts_set_status user text) [].
Proof. unfold bytenuts_set_status. respects_unfold. respects_go. Qed.

Lemma update_screen_size_store_under_lock :
  respects status_store LOCK [] bytenuts_update_screen_size [].
Proof. unfold bytenuts_update_screen_size. respects_unfold. respects_go. Qed.

End StaticDiscipline.

(** ** Interleavings *)
Section Interleavings.
Import Session Runtime Bytenuts Locking.

Variable P : event -> bool.
Variable l : lock_id.

Lemma lock_is_free_spec l' (p : list thread) i t :
  lock_is_free l' p = true -> p !! i = Some t -> l' ∉ t_held t.
Proof.
  unfold lock_is_free. rewrite forallb_forall. intros Hfree Hi.
  specialize (Hfree t). rewrite <- list_elem_of_In in Hfree.
  specialize (Hfree (list_elem_of_lookup_2 _ _ _ Hi)).
  apply negb_true_iff, bool_decide_eq_false in Hfree. exact Hfree.
Qed.

(** Holding [l] after an event other than taking [l] means holding it
    before. *)
Lemma event_held_elem e h :
  l ∈ event_held e h -> e = EvLock l \/ l ∈ h.
Proof.
  destruct e; cbn; try (intros Hin; by right).
  - intros [->|Hin]%elem_of_cons; [by left | by right].
  - intros [_ Hin]%list_elem_of_filter. by right.
Qed.

Lemma pool_step_inv i p p' :
  pool_inv P l p -> pool_step i p = Some p' -> pool_inv P l p'.
Proof.
  intros [Hg Hx]. unfold pool_step.
  destruct (p !! i) as [[h [|e rest]]|] eqn:Hi; try done.
  destruct (can_step e p) eqn:Hcan; [|done]. intros [= <-].
  assert (Hlen : (i < length p)%nat) by (by eapply lookup_lt_Some).
  pose proof (Hg i _ Hi) as Hgi. cbn [t_held t_todo guarded] in Hgi.
  apply andb_true_iff in Hgi as [_ Hgi].
  assert (Hnew : forall j tj, j <> i -> p !! j = Some tj ->
                 l ∈ event_held e h -> l ∈ t_held tj -> False).
  { intros j tj Hne Hj Hin Hinj.
    destruct (event_held_elem e h Hin) as [->|Hh].
    - by apply (lock_is_free_spec l p j tj Hcan Hj).
    - apply Hne. symmetry. by apply (Hx i j _ tj Hi Hj). }
  split.
  - intros k t Hk. destruct (decide (k = i)) as [->|Hne].
    + rewrite list_lookup_insert_eq in Hk by done. by simplify_eq.
    + rewrite list_lookup_insert_ne in Hk by done. by apply (Hg k).
  - intros j1 j2 t1 t2 H1 H2 Hin1 Hin2.
    destruct (decide (j1 = i)) as [->|Hne1], (decide (j2 = i)) as [->|Hne2];
      [done| | |].
    + rewrite list_lookup_insert_eq in H1 by done.
      rewrite list_lookup_insert_ne in H2 by done. simplify_eq.
      by destruct (Hnew j2 t2 Hne2 H2 Hin1 Hin2).
    + rewrite list_lookup_insert_ne in H1 by done.
      rewrite list_lookup_insert_eq in H2 by done. simplify_eq.
      by destruct (Hnew j1 t1 Hne1 H1 Hin2 Hin1).
    + rewrite list_lookup_insert_ne in H1, H2 by done.
      by apply (Hx j1 j2 t1 t2).
Qed.

Lemma pool_run_inv sched p p' :
  pool_inv P l p -> pool_run sched p = Some p' -> pool_inv P l p'.
Proof.
  revert p. induction sched as [|i sched IH]; intros p Hinv; cbn [pool_run].
  - by intros [= <-].
  - destruct (pool_step i p) as [p1|] eqn:Hstep; [|done]. cbn.
    apply IH. by eapply pool_step_inv.
Qed.

Lemma spawn_inv programs :
  Forall (fun evs => guarded P l [] evs = true) programs ->
  pool_inv P l (spawn programs).
Proof.
  intros Hall. split.
  - intros i t Hi. unfold spawn in Hi.
    apply list_lookup_fmap_Some in Hi as (evs & -> & Hevs).
    eapply Forall_lookup_1 in Hall; [|exact Hevs]. exact Hall.
  - intros i j ti tj Hi _ Hin. unfold spawn in Hi.
    apply list_lookup_fmap_Some in Hi as (evs & -> & _).
    by apply elem_of_nil in Hin.
Qed.

(** Mutual exclusion: in a reachable pool, a thread about to perform a
    [P] event holds [l], no other thread holds [l], and no other thread
    is about to perform a [P] event. *)
Lemma pool_mutual_exclusion p i t e :
  pool_inv P l p -> p !! i = Some t -> next_event t = Some e -> P e = true ->
  l ∈ t_held t /\
  forall j t', j <> i -> p !! j = Some t' ->
    (l ∉ t_held t') /\ forall e', next_event t' = Some e' -> P e' = false.
Proof.
  intros [Hg Hx] Hi Hnext HP.
  assert (Hat : forall k tk ek, p !! k = Some tk -> next_event tk = Some ek ->
                P ek = true -> l ∈ t_held tk).
  { intros k tk ek Hk Hek HPk. specialize (Hg k tk Hk).
    unfold next_event in Hek. destruct (t_todo tk) as [|e0 rest]; [done|].
    cbn in Hek. simplify_eq. cbn [guarded] in Hg. rewrite HPk in Hg.
    apply andb_true_iff in Hg as [Hg _]. by apply bool_decide_eq_true in Hg. }
  pose proof (Hat i t e Hi Hnext HP) as Hin. split; [done|].
  intros j t' Hne Hj.
  assert (Hnot : l ∉ t_held t').
  { intros Hin'. apply Hne. by apply (Hx j i t' t Hj Hi). }
  split; [done|]. intros e' He'. destruct (P e') eqn:HP'; [|done].
  by destruct (Hnot (Hat j t' e' Hj He' HP')).
Qed.

End Interleavings.

Section LiveCalls.
Import Session Runtime Bytenuts Locking.
Context `{status_enum}.

Lemma footprint_app w w' evs :
  trace w' = trace w ++ evs -> footprint w w' = evs.
Proof. unfold footprint. intros ->. by rewrite drop_app_length. Qed.

Lemma run_call_respects P l :
  (forall user text, respects P l [] (bytenuts_set_status user text) []) ->
  respects P l [] bytenuts_update_screen_size [] ->
  forall evs, call_footprint evs ->
    guarded P l [] evs = true /\ held_after evs [] = [].
Proof.
  intros Hs Hu evs (c & w & r & w' & Hh & Hrun & ->).
  destruct c as [user text|]; cbn [run_call] in Hrun.
  - destruct (Hs user text w r w' Hh Hrun) as (evs & Htr & _ & Ha & Hg).
    by rewrite (footprint_app _ _ _ Htr).
  - destruct (Hu w r w' Hh Hrun) as (evs & Htr & _ & Ha & Hg).
    by rewrite (footprint_app _ _ _ Htr).
Qed.

Lemma thread_program_guarded P l :
  (forall evs, call_footprint evs ->
     guarded P l [] evs = true /\ held_after evs [] = []) ->
  forall evs, thread_program evs -> guarded P l [] evs = true.
Proof.
  intros Hcall evs (fps & Hfps & ->).
  induction Hfps as [|fp fps Hfp _ IH]; [done|].
  cbn [concat]. destruct (Hcall fp Hfp) as [Hg Ha].
  by rewrite guarded_app, Hg, Ha, IH.
Qed.

(** C2, as the code has it.  Threads that run any sequences of
    [bytenuts_set_status] and [bytenuts_update_screen_size] calls, in any
    interleaving: a thread about to make an ncurses call (a redraw or a
    resize) holds [term_lock], no other thread holds it and no other
    thread is about to make an ncurses call.  The status fields are
    assigned under the other mutex, [lock]: a thread about to assign one
    holds [lock], and no other thread holds [lock] or is about to assign a
    status field. *)
Theorem C2_redraw_and_resize_share_term_lock
  (programs : list (list event)) (sched : list nat) (p : list thread)
  (i : nat) (t : thread) (e : event) :
  Forall thread_program programs ->
  pool_run sched (spawn programs) = Some p ->
  p !! i = Some t -> next_event t = Some e ->
  (touches_screen e = true ->
   TERM_LOCK ∈ t_held t /\
   forall j t', j <> i -> p !! j = Some t' ->
     (TERM_LOCK ∉ t_held t') /\
     forall e', next_event t' = Some e' -> touches_screen e' = false) /\
  (status_store e = true ->
   LOCK ∈ t_held t /\
   forall j t', j <> i -> p !! j = Some t' ->
     (LOCK ∉ t_held t') /\
     forall e', next_event t' = Some e' -> status_store e' = false).
Proof.
  intros Hprog Hrun Hi Hnext.
  assert (Hinv : forall P l,
    (forall user text, respects P l [] (bytenuts_set_status user text) []) ->
    respects P l [] bytenuts_update_screen_size [] -> pool_inv P l p).
  { intros P l Hs Hu. eapply pool_run_inv; [|exact Hrun].
    apply spawn_inv. eapply Forall_impl; [exact Hprog|].
    apply thread_program_guarded. by apply run_call_respects. }
  split; intros HP.
  - eapply pool_mutual_exclusion; eauto.
    apply Hinv; [apply set_status_screen_under_term_lock
                |apply update_screen_size_under_term_lock].
  - eapply pool_mutual_exclusion; eauto.
    apply Hinv; [apply set_status_store_under_lock
                |apply update_screen_size_store_under_lock].
Qed.

End LiveCalls.

Section SampleInterleavings.
Import Session Runtime Bytenuts Locking Samples.

(** The footprints taken at the sample session are footprints of
    completed calls. *)
Lemma sample_footprint_is_program user text :
  is_Some (run_call (H := sample_enum) (CallSetStatus user text) sample_world) ->
  thread_program (H := sample_enum) (sample_footprint (CallSetStatus user text)).
Proof.
  intros [[r w'] Hrun]. exists [sample_footprint (CallSetStatus user text)].
  split; [|cbn [concat]; by rewrite app_nil_r].
  constructor; [|constructor].
  exists (CallSetStatus user text), sample_world, r, w'.
  split; [reflexivity|]. split; [exact Hrun|].
  unfold sample_footprint. by rewrite Hrun.
Qed.

Lemma two_updates_programs : Forall (thread_program (H := sample_enum)) two_updates.
Proof.
  repeat constructor; apply sample_footprint_is_program;
    eexists; vm_compute; reflexivity.
Qed.

Lemma C2_redraw_and_resize_share_term_lock_witness :
  exists p t,
    pool_run (replicate 6 0%nat ++ replicate 3 1%nat) (spawn two_updates) = Some p /\
    p !! 0%nat = Some t /\
    next_event t = Some (EvCurses (Getyx IN_WIN)) /\
    TERM_LOCK ∈ t_held t /\
    forall j t', j <> 0%nat -> p !! j = Some t' ->
      (TERM_LOCK ∉ t_held t') /\
      forall e', next_event t' = Some e' -> touches_screen e' = false.
Proof.
  destruct (pool_run (replicate 6 0%nat ++ replicate 3 1%nat) (spawn two_updates))
    as [p|] eqn:Hrun; [|exfalso; vm_compute in Hrun; discriminate Hrun].
  destruct (p !! 0%nat) as [t|] eqn:Ht;
    [|exfalso; revert Hrun Ht; vm_compute; intros [= <-]; discriminate].
  assert (Hnext : next_event t = Some (EvCurses (Getyx IN_WIN))).
  { revert Hrun Ht. vm_compute. intros [= <-] [= <-]. reflexivity. }
  exists p, t. split; [reflexivity|]. split; [exact Ht|]. split; [exact Hnext|].
  exact (proj1 (C2_redraw_and_resize_share_term_lock (H := sample_enum)
                  two_updates _ p 0%nat t _
                  two_updates_programs Hrun Ht Hnext) eq_refl).
Defined.

(** C2 as stated fails: a status update is not wholly under the terminal
    lock.  Two threads update the ingest and the dispatch status.  After
    91 steps of the first and 3 of the second, the first holds [term_lock]
    and is about to read the four status fields for its redraw, while the
    second, holding only [lock], is about to assign a status field and is
    free to do so. *)
Lemma C2_status_store_outside_term_lock_counterexample :
  exists p t0 t1,
    pool_run (replicate 91 0%nat ++ replicate 3 1%nat) (spawn two_updates) = Some p /\
    p !! 0%nat = Some t0 /\ p !! 1%nat = Some t1 /\
    t_held t0 = [TERM_LOCK] /\ next_event t0 = Some EvStatusLoad /\
    t_held t1 = [LOCK] /\ next_event t1 = Some (EvStatusStore 2) /\
    touches_surface_or_status (EvStatusStore 2) = true /\
    TERM_LOCK ∉ t_held t1 /\
    is_Some (pool_step 1 p).
Proof.
  eexists _, _, _.
  split; [vm_compute; reflexivity|].
  split; [reflexivity|]. split; [reflexivity|].
  split; [reflexivity|]. split; [reflexivity|].
  split; [reflexivity|]. split; [reflexivity|].
  split; [reflexivity|].
  split; [by intros [= ]%list_elem_of_singleton|].
  eexists. vm_compute. reflexivity.
Qed.

End SampleInterleavings.

(** ** The status window *)
Section StatusWindow.
Import Session Runtime Bytenuts StatusSpec.

Lemma one_row_single win row x : one_row win row x -> single_row win row.
Proof. intros (Hl & Hr & Hy & Hx & Hlen & Hlt). split_and!; try done. lia. Qed.

Lemma win_move_origin win row :
  single_row win row -> one_row (win_move 0 0 win) row 0 /\
  w_cols (win_move 0 0 win) = w_cols win.
Proof.
  intros (Hl & Hr & H0 & Hlen). unfold win_move. rewrite Hl.
  replace (0 <? w_cols win) with true by (symmetry; by apply Z.ltb_lt).
  unfold one_row. cbn. split; [|done]. split_and!; try done. lia.
Qed.

(** One character: it lands in the cursor's cell; the cursor advances
    unless it is in the last cell. *)
Lemma win_addch_one_row c win row x :
  one_row win row x ->
  w_cols (win_addch c win).1 = w_cols win /\
  if decide (S x < length row)%nat
  then one_row (win_addch c win).1 (<[x := c]> row) (S x) /\
       (win_addch c win).2 = true
  else one_row (win_addch c win).1 (<[x := c]> row) x /\
       (win_addch c win).2 = false.
Proof.
  intros (Hl & Hr & Hy & Hx & Hlen & Hlt). unfold win_addch.
  rewrite Hl, Hr, Hy, Hx, Nat2Z.id. cbn [alter list_alter Z.to_nat].
  change (0 + 1 <? 1) with false.
  destruct (decide (S x < length row)%nat) as [Hs|Hs].
  - replace (Z.of_nat x + 1 <? w_cols win) with true
      by (symmetry; apply Z.ltb_lt; lia).
    unfold one_row. cbn. split; [done|]. split; [|done].
    split_and!; try done; rewrite ?length_insert; lia.
  - replace (Z.of_nat x + 1 <? w_cols win) with false
      by (symmetry; apply Z.ltb_ge; lia).
    unfold one_row. cbn. split; [done|]. split; [|done].
    split_and!; try done; rewrite ?length_insert; lia.
Qed.

Lemma insert_after_replicate (n : nat) (c : ascii) (row : list ascii) :
  (n < length row)%nat ->
  <[n := c]> (replicate n c ++ drop n row) = replicate (S n) c ++ drop (S n) row.
Proof.
  intros Hn. destruct (lookup_lt_is_Some_2 row n Hn) as [d Hd].
  rewrite insert_app_r_alt by (rewrite length_replicate; lia).
  rewrite length_replicate, Nat.sub_diag, (drop_S _ _ _ Hd).
  rewrite replicate_S_end, <- (assoc_L app). f_equal.
Qed.

(** [n] dashes from column 0, for [n] below the width. *)
Lemma dashes_one_row (n : nat) win row :
  one_row win row 0 -> (n < length row)%nat ->
  one_row (Nat.iter n (fun v => (win_addch "-" v).1) win)
          (replicate n "-"%char ++ drop n row) n /\
  w_cols (Nat.iter n (fun v => (win_addch "-" v).1) win) = w_cols win.
Proof.
  intros Hw Hn. induction n as [|n IH].
  - cbn. by rewrite drop_0.
  - destruct IH as [IH Hc]; [lia|]. rewrite Nat.iter_succ.
    destruct (win_addch_one_row "-" _ _ _ IH) as [Hc' Hstep].
    rewrite length_app, length_replicate, length_drop in Hstep.
    destruct (decide _) as [_|Hno] in Hstep; [|lia].
    destruct Hstep as [Hstep _]. split; [|congruence].
    rewrite <- insert_after_replicate by lia. exact Hstep.
Qed.

Lemma length_list_ascii_of_string (s : string) :
  length (list_ascii_of_string s) = String.length s.
Proof. induction s as [|c s IH]; cbn; [done|]. by rewrite IH. Qed.

Lemma overwrite_step (row chars : list ascii) (x : nat) (c : ascii) :
  (x < length row)%nat ->
  take (S x) (<[x := c]> row) ++ chars ++ drop (S x + length chars) (<[x := c]> row)
  = take x row ++ (c :: chars) ++ drop (x + S (length chars)) row.
Proof.
  intros Hx.
  rewrite (take_S_r _ _ c) by (by apply list_lookup_insert_eq).
  rewrite take_insert_ge by lia. rewrite drop_insert_lt by lia.
  replace (S x + length chars)%nat with (x + S (length chars))%nat by lia.
  by rewrite <- (assoc_L app).
Qed.

(** [waddstr] from column [x]: the text overwrites the row from [x] and
    is cut at the end of the row. *)
Lemma win_addstr_one_row text win row x :
  one_row win row x ->
  w_lines (win_addstr text win) = 1 /\
  w_cols (win_addstr text win) = w_cols win /\
  w_rows (win_addstr text win) =
    [take (length row)
       (take x row ++ list_ascii_of_string text
          ++ drop (x + length (list_ascii_of_string text)) row)].
Proof.
  revert win row x. induction text as [|c text IH]; intros win row x Hw.
  - cbn. destruct Hw as (Hl & Hr & _ & _ & _ & Hlt).
    split; [done|]. split; [done|]. rewrite Hr. f_equal.
    rewrite Nat.add_0_r, take_drop. by rewrite firstn_all.
  - cbn [win_addstr]. destruct (win_addch c win) as [win1 ok] eqn:Hch.
    pose proof (win_addch_one_row c win row x Hw) as [Hc Hstep].
    rewrite Hch in Hc, Hstep. cbn [fst snd] in Hc, Hstep.
    pose proof Hw as (_ & _ & _ & _ & Hlen & Hlt).
    cbn [list_ascii_of_string length].
    destruct (decide _) as [Hs|Hs] in Hstep; destruct Hstep as [Hw1 ->].
    + destruct (IH win1 _ _ Hw1) as (Hl' & Hc' & Hr').
      split; [done|]. split; [congruence|]. rewrite Hr'.
      by rewrite length_insert, overwrite_step.
    + destruct Hw1 as (Hl' & Hr' & _).
      split; [done|]. split; [done|]. rewrite Hr'. f_equal.
      rewrite insert_take_drop by done.
      assert (length row = S x) as Hx by lia.
      rewrite (drop_ge row (S x)) by lia.
      rewrite take_app_ge by (rewrite length_take; lia).
      rewrite length_take, Nat.min_l by lia.
      replace (length row - x)%nat with 1%nat by lia. done.
Qed.

(** The whole redraw of the row: dashes, the closing bar, and the text
    from the left. *)
Lemma redraw_row text win row :
  single_row win row ->
  let n := Z.to_nat (w_cols win - 1) in
  let win1 := Nat.iter n (fun v => (win_addch "-" v).1) (win_move 0 0 win) in
  let win2 := win_move 0 0 (win_addch "|" win1).1 in
  let win3 := win_addstr text win2 in
  w_lines win3 = 1 /\ w_cols win3 = w_cols win /\
  w_rows win3 = [drawn_row (Z.to_nat (w_cols win)) text] /\
  length (drawn_row (Z.to_nat (w_cols win)) text) = Z.to_nat (w_cols win).
Proof.
  intros Hw n win1 win2 win3.
  pose proof Hw as (_ & _ & Hlt & Hlen).
  destruct (win_move_origin win row Hw) as [Hw0 Hc0].
  assert (Hn : S n = length row) by (subst n; lia).
  destruct (dashes_one_row n _ row Hw0) as [Hw1 Hc1]; [lia|].
  fold win1 in Hw1, Hc1.
  destruct (win_addch_one_row "|" win1 _ n Hw1) as [Hc2 Hbar].
  rewrite length_app, length_replicate, length_drop in Hbar.
  destruct (decide _) as [Hno|_] in Hbar; [lia|]. destruct Hbar as [Hw2 _].
  assert (Hbg : <[n := "|"%char]> (replicate n "-"%char ++ drop n row)
                = replicate n "-"%char ++ ["|"%char]).
  { rewrite insert_app_r_alt by (rewrite length_replicate; lia).
    rewrite length_replicate, Nat.sub_diag.
    destruct (lookup_lt_is_Some_2 row n) as [d Hd]; [lia|].
    rewrite (drop_S _ _ _ Hd), (drop_ge row (S n)) by lia. done. }
  rewrite Hbg in Hw2.
  destruct (win_move_origin _ _ (one_row_single _ _ _ Hw2)) as [Hw3 Hc3].
  fold win2 in Hw3, Hc3.
  destruct (win_addstr_one_row text win2 _ 0 Hw3) as (Hl4 & Hc4 & Hr4).
  fold win3 in Hl4, Hc4, Hr4.
  assert (Hwidth : Z.to_nat (w_cols win) = S n) by lia.
  split; [done|]. split; [congruence|].
  unfold drawn_row. rewrite Hwidth.
  replace (S n - 1)%nat with n by lia. split.
  - rewrite Hr4. rewrite length_app, length_replicate. cbn [length take app].
    replace (n + 1)%nat with (S n) by lia. done.
  - rewrite length_take, length_app, length_drop, length_app, length_replicate.
    cbn [length]. lia.
Qed.

End StatusWindow.

(** ** The two critical sections of [bytenuts_set_status] *)
Section RedrawPhase.
Import Session Runtime Bytenuts StatusSpec.
Context `{status_enum}.

Lemma set_screen_win_twice id v v' s :
  set_screen_win id v (set_screen_win id v' s) = set_screen_win id v s.
Proof. by destruct id. Qed.

Lemma screen_win_set id v s : screen_win id (set_screen_win id v s) = v.
Proof. by destruct id. Qed.

(** [n] times [waddch] on the status window. *)
Lemma for_waddch (n : nat) (c : ascii) (body : M unit) (w : world) (ws : window) :
  (forall w0, body w0 = (field status_win ≫= fun win => waddch win c) w0) ->
  status_win (bn w) = Some STATUS_WIN ->
  win_status (scr w) = Some ws ->
  for_ n body w =
  Some (tt, mk_world (bn w) (heap w)
              (set_screen_win STATUS_WIN
                 (Some (Nat.iter n (fun v => (win_addch c v).1) ws)) (scr w))
              (syn w) (open_fds w)
              (trace w ++ replicate n (EvCurses (Waddch STATUS_WIN c)))).
Proof.
  intros Hbody. revert w ws. induction n as [|n IH]; intros w ws Hsw Hws.
  - cbn. rewrite app_nil_r. f_equal. f_equal. destruct w as [b h s y f t].
    cbn in *. f_equal. destruct s; cbn in *. by subst.
  - cbn [for_].
    erewrite bind_Some.
    2:{ rewrite Hbody. munfold. rewrite Hsw. cbn [screen_win]. rewrite Hws.
        reflexivity. }
    rewrite (IH _ (win_addch c ws).1); [|done|done].
    wsimpl. rewrite set_screen_win_twice, Nat.iter_succ_r.
    cbn [replicate]. by rewrite <- (assoc_L app).
Qed.

Lemma string_of_ptr_live (w : world) (p : option loc) :
  (forall l, p = Some l -> is_Some (heap w !! l)) ->
  string_of_ptr p w = Some (slot_text w p, w).
Proof.
  intros Hlive. destruct p as [l|]; [|done].
  destruct (Hlive l eq_refl) as [s Hs]. unfold string_of_ptr. munfold.
  cbn. by rewrite Hs.
Qed.


Lemma string_of_ptr_same_heap (w0 w : world) (p : option loc) :
  heap w0 = heap w ->
  (forall l, p = Some l -> is_Some (heap w !! l)) ->
  string_of_ptr p w0 = Some (slot_text w p, w0).
Proof.
  intros Hheap Hlive. rewrite string_of_ptr_live.
  - unfold slot_text. by rewrite Hheap.
  - by rewrite Hheap.
Qed.

Lemma slot_elem_1 b : bytenuts_status b ∈ status_slots b.
Proof. unfold status_slots. apply list_elem_of_here. Qed.
Lemma slot_elem_2 b : ingest_status b ∈ status_slots b.
Proof. unfold status_slots. do 1 apply list_elem_of_further. apply list_elem_of_here. Qed.
Lemma slot_elem_3 b : cheerios_status b ∈ status_slots b.
Proof. unfold status_slots. do 2 apply list_elem_of_further. apply list_elem_of_here. Qed.
Lemma slot_elem_4 b : cmdpg_status b ∈ status_slots b.
Proof. unfold status_slots. do 3 apply list_elem_of_further. apply list_elem_of_here. Qed.

Lemma printed_app a b : printed (a ++ b) = printed a ++ printed b.
Proof. apply omap_app. Qed.

Lemma printed_waddch n win c : printed (replicate n (EvCurses (Waddch win c))) = [].
Proof. induction n as [|n IH]; [done|]. exact IH. Qed.

Lemma status_redraw_phase_run (w : world) (ws wi : window) (row : list ascii) :
  held (syn w) = [] ->
  status_win (bn w) = Some STATUS_WIN -> in_win (bn w) = Some IN_WIN ->
  win_status (scr w) = Some ws -> win_in (scr w) = Some wi ->
  single_row ws row ->
  (forall l, Some l ∈ status_slots (bn w) -> is_Some (heap w !! l)) ->
  exists w' ws' evs,
    status_redraw_phase w = Some (tt, w') /\
    bn w' = bn w /\ heap w' = heap w /\ held (syn w') = [] /\
    win_status (scr w') = Some ws' /\
    single_row ws' (drawn_row (Z.to_nat (w_cols ws)) (status_line w)) /\
    w_cols ws' = w_cols ws /\
    is_Some (win_in (scr w')) /\
    trace w' = trace w ++ evs /\
    printed evs = [status_line w].
Proof.
  intros Hh Hsw Hiw Hws Hwi Hrow Hlive.
  unfold status_redraw_phase.
  eexists _, _, _. split.
  - (* lock *)
    erewrite bind_Some by (munfold; rewrite Hh, not_held_nil; reflexivity).
    (* getyx *)
    erewrite bind_Some by (munfold; ssimpl; rewrite Hiw; ssimpl; rewrite Hwi; reflexivity).
    cbv beta iota.
    (* curs_set 0 *)
    erewrite bind_Some by (munfold; reflexivity).
    (* wmove *)
    erewrite bind_Some by (munfold; ssimpl; rewrite Hsw; ssimpl; rewrite Hws; reflexivity).
    (* getmaxx *)
    erewrite bind_Some by (munfold; ssimpl; rewrite Hsw; ssimpl; reflexivity).
    (* dashes *)
    erewrite bind_Some.
    2:{ eapply for_waddch; [done| ssimpl; exact Hsw | ssimpl; reflexivity]. }
    (* bar *)
    erewrite bind_Some by (munfold; ssimpl; rewrite Hsw; ssimpl; reflexivity).
    (* wmove *)
    erewrite bind_Some by (munfold; ssimpl; rewrite Hsw; ssimpl; reflexivity).
    (* load *)
    erewrite bind_Some by (munfold; reflexivity).
    (* the four texts *)
    erewrite bind_Some
      by (erewrite bind_Some by (munfold; reflexivity); ssimpl;
          apply (string_of_ptr_same_heap _ w); [reflexivity|];
          intros l Hl; apply Hlive;
          rewrite <- Hl; apply slot_elem_1).
    erewrite bind_Some
      by (erewrite bind_Some by (munfold; reflexivity); ssimpl;
          apply (string_of_ptr_same_heap _ w); [reflexivity|];
          intros l Hl; apply Hlive;
          rewrite <- Hl; apply slot_elem_2).
    erewrite bind_Some
      by (erewrite bind_Some by (munfold; reflexivity); ssimpl;
          apply (string_of_ptr_same_heap _ w); [reflexivity|];
          intros l Hl; apply Hlive;
          rewrite <- Hl; apply slot_elem_3).
    erewrite bind_Some
      by (erewrite bind_Some by (munfold; reflexivity); ssimpl;
          apply (string_of_ptr_same_heap _ w); [reflexivity|];
          intros l Hl; apply Hlive;
          rewrite <- Hl; apply slot_elem_4).
    (* wprintw *)
    erewrite bind_Some by (munfold; ssimpl; rewrite Hsw; ssimpl; reflexivity).
    (* the input cursor *)
    erewrite bind_Some
      by (munfold; ssimpl; rewrite Hiw; ssimpl; rewrite Hwi; reflexivity).
    erewrite bind_Some by (munfold; reflexivity).
    erewrite bind_Some by (munfold; ssimpl; rewrite Hsw; ssimpl; reflexivity).
    erewrite bind_Some by (munfold; reflexivity).
    munfold. ssimpl. rewrite held_head. reflexivity.
  - ssimpl.
    destruct (win_move_origin ws row Hrow) as [_ Hc0].
    pose proof (redraw_row (status_line w) ws row Hrow) as (Hl & Hc & Hr & Hlen).
    cbv zeta in Hl, Hc, Hr. rewrite Hc0. unfold status_line in *.
    split; [done|]. split; [done|].
    split; [by rewrite Hh, filter_ne_cons by apply not_elem_of_nil|].
    split; [reflexivity|].
    split.
    { split; [exact Hl|]. split; [exact Hr|]. destruct Hrow as (_ & _ & ? & _).
      split; [by rewrite Hc|]. by rewrite Hc. }
    split; [exact Hc|]. split; [by eexists|].
    split; [by rewrite <- !(assoc_L app)|].
    rewrite !printed_app, printed_waddch. reflexivity.
Qed.


End RedrawPhase.

Section StorePhase.
Import Session Runtime Bytenuts StatusSpec.

Lemma NoDup_omap_lookup_inj (slots : list (option loc)) (j k : nat) (q : loc) :
  NoDup (omap id slots) ->
  slots !! j = Some (Some q) -> slots !! k = Some (Some q) -> j = k.
Proof.
  revert j k. induction slots as [|s slots IH]; intros j k Hnd Hj Hk; [done|].
  assert (Hin : forall i, slots !! i = Some (Some q) -> q ∈ omap id slots).
  { intros i Hi. apply list_elem_of_omap. exists (Some q). split; [|done].
    by eapply list_elem_of_lookup_2. }
  destruct s as [l|]; cbn [omap id] in Hnd.
  - change (omap id (Some l :: slots)) with (l :: omap id slots) in Hnd.
    apply NoDup_cons in Hnd as [Hn Hnd].
    destruct j as [|j], k as [|k]; cbn in Hj, Hk; simplify_eq; try done.
    + by destruct (Hn (Hin k Hk)).
    + by destruct (Hn (Hin j Hj)).
    + f_equal. by apply IH.
  - change (omap id (None :: slots)) with (omap id slots) in Hnd.
    destruct j as [|j], k as [|k]; cbn in Hj, Hk; simplify_eq.
    f_equal. by apply IH.
Qed.

(** Replacing one of several distinct live blocks by a fresh one. *)
Lemma slots_replace (slots : list (option loc)) (h : gmap loc string)
      (k : nat) (old : option loc) (p : loc) (text : string) :
  slots !! k = Some old ->
  NoDup (omap id slots) ->
  (forall l, Some l ∈ slots -> is_Some (h !! l)) ->
  h !! p = None ->
  let h' := match old with
            | Some l => delete l (<[p := text]> h)
            | None => <[p := text]> h
            end in
  NoDup (omap id (<[k := Some p]> slots)) /\
  (forall l, Some l ∈ <[k := Some p]> slots -> is_Some (h' !! l)) /\
  h' !! p = Some text /\
  (forall j q, j <> k -> slots !! j = Some (Some q) -> h' !! q = h !! q) /\
  (forall l, old = Some l -> <[p := text]> h !! l = Some (default "" (h !! l))).
Proof.
  intros Hk Hnd Hlive Hp h'. pose proof Hnd as Hnd0.
  assert (Hlen : (k < length slots)%nat) by (by eapply lookup_lt_Some).
  pose proof (take_drop_middle slots k old Hk) as Hsplit.
  set (pre := take k slots) in *. set (post := drop (S k) slots) in *.
  assert (Hins : <[k := Some p]> slots = pre ++ Some p :: post).
  { subst pre post. by apply insert_take_drop. }
  assert (Hne : forall l, Some l ∈ slots -> l <> p).
  { intros l Hl ->. destruct (Hlive p Hl) as [? ?]. congruence. }
  assert (Hin : forall l, Some l ∈ slots <->
                 Some l ∈ pre \/ old = Some l \/ Some l ∈ post).
  { intros l. rewrite <- Hsplit, elem_of_app, elem_of_cons. naive_solver. }
  rewrite <- Hsplit in Hnd. rewrite omap_app in Hnd. cbn [omap] in Hnd.
  apply NoDup_app in Hnd as (Hnd1 & Hdisj & Hnd2).
  assert (Hmem : forall (l : loc) (xs : list (option loc)),
            l ∈ omap id xs <-> Some l ∈ xs).
  { intros l xs. rewrite list_elem_of_omap. naive_solver. }
  assert (Hpost : NoDup (omap id post) /\
                  forall l, old = Some l -> l ∉ omap id post).
  { destruct old as [lo|]; cbn in Hnd2.
    - apply NoDup_cons in Hnd2 as [? ?]. split; [done|]. by intros l [= <-].
    - split; [done|]. by intros l [=]. }
  destruct Hpost as [Hnd3 Hold_post].
  assert (Hold_pre : forall l, old = Some l -> l ∉ omap id pre).
  { intros l -> Hl. apply (Hdisj l Hl). cbn. apply list_elem_of_here. }
  assert (Hpre_post : forall l, l ∈ omap id pre -> l ∉ omap id post).
  { intros l Hl Hl'. apply (Hdisj l Hl). destruct old; cbn; [|done].
    by apply list_elem_of_further. }
  assert (Hother : forall l, Some l ∈ pre \/ Some l ∈ post ->
                   is_Some (h !! l) /\ l <> p /\ old <> Some l).
  { intros l Hl. assert (Some l ∈ slots) as Hs by (apply Hin; tauto).
    split; [by apply Hlive|]. split; [by apply Hne|]. intros Ho.
    destruct Hl as [Hl|Hl]; apply Hmem in Hl.
    - by apply (Hold_pre l Ho).
    - by apply (Hold_post l Ho). }
  assert (Hget : forall l, l <> p -> old <> Some l -> h' !! l = h !! l).
  { intros l H1 H2. subst h'. destruct old as [lo|].
    - rewrite lookup_delete_ne by congruence. by rewrite lookup_insert_ne.
    - by rewrite lookup_insert_ne. }
  split_and!.
  - rewrite Hins, omap_app. cbn [omap id]. apply NoDup_app. split_and!.
    + done.
    + intros l Hl [->|Hl']%elem_of_cons.
      * apply Hmem in Hl. destruct (Hother p) as (_ & ? & _); [by left|done].
      * by apply (Hpre_post l).
    + apply NoDup_cons. split; [|done]. intros Hl%Hmem.
      destruct (Hother p) as (_ & ? & _); [by right|done].
  - intros l. rewrite Hins, elem_of_app, elem_of_cons.
    intros [Hl|[[= ->]|Hl]].
    + destruct (Hother l) as (? & ? & ?); [by left|]. by rewrite Hget.
    + subst h'. destruct old as [lo|].
      * rewrite lookup_delete_ne, lookup_insert_eq; [done|].
        intros ->. destruct (Hlive p) as [? ?]; [|congruence].
        apply Hin. tauto.
      * by rewrite lookup_insert_eq.
    + destruct (Hother l) as (? & ? & ?); [by right|]. by rewrite Hget.
  - subst h'. destruct old as [lo|].
    + rewrite lookup_delete_ne, lookup_insert_eq; [done|].
      intros ->. destruct (Hlive p) as [? ?]; [|congruence]. apply Hin. tauto.
    + by rewrite lookup_insert_eq.
  - intros j q Hj Hq.
    assert (Some q ∈ slots) as Hqs by (by eapply list_elem_of_lookup_2).
    apply Hget; [by apply Hne|]. intros ->.
    apply Hj. by apply (NoDup_omap_lookup_inj slots j k q Hnd0).
  - intros l ->. destruct (Hlive l) as [s Hs]; [apply Hin; tauto|].
    rewrite lookup_insert_ne, Hs; [done|].
    intros ->. congruence.
Qed.

End StorePhase.

Section StorePhaseRun.
Import Session Runtime Bytenuts StatusSpec.
Context `{status_enum}.

Lemma status_enum_neq :
  STATUS_BYTENUTS <> STATUS_INGEST /\ STATUS_BYTENUTS <> STATUS_CHEERIOS /\
  STATUS_BYTENUTS <> STATUS_CMDPAGE /\ STATUS_INGEST <> STATUS_CHEERIOS /\
  STATUS_INGEST <> STATUS_CMDPAGE /\ STATUS_CHEERIOS <> STATUS_CMDPAGE.
Proof.
  pose proof status_enum_distinct as Hd.
  apply NoDup_cons in Hd as [H1 Hd]. apply NoDup_cons in Hd as [H2 Hd].
  apply NoDup_cons in Hd as [H3 _].
  repeat rewrite not_elem_of_cons in H1. repeat rewrite not_elem_of_cons in H2.
  repeat rewrite not_elem_of_cons in H3.
  destruct H1 as (? & ? & ? & _), H2 as (? & ? & _), H3 as (? & _).
  by split_and!.
Qed.

Lemma owner_slot_lookup user b :
  status_slots b !! owner_index user = Some (owner_slot user b).
Proof.
  unfold owner_index, owner_slot, status_slots.
  repeat (destruct (_ =? _); [reflexivity|]). reflexivity.
Qed.

Lemma known_owner_cases user :
  user ∈ known_owners ->
  user = STATUS_BYTENUTS \/ user = STATUS_INGEST \/
  user = STATUS_CHEERIOS \/ user = STATUS_CMDPAGE.
Proof.
  unfold known_owners. rewrite !elem_of_cons, elem_of_nil. tauto.
Qed.

Lemma owner_index_inj u u' :
  u ∈ known_owners -> u' ∈ known_owners ->
  owner_index u = owner_index u' -> u = u'.
Proof.
  destruct status_enum_neq as (N1 & N2 & N3 & N4 & N5 & N6).
  intros Hu Hu'. apply known_owner_cases in Hu, Hu'. unfold owner_index.
  destruct Hu as [-> | [-> | [-> | ->]]], Hu' as [-> | [-> | [-> | ->]]];
    rewrite ?Z.eqb_refl;
    repeat match goal with
    | |- context [?a =? ?b] =>
      first [ rewrite (proj2 (Z.eqb_neq a b)) by (done || by apply not_eq_sym)
            | rewrite Z.eqb_refl ]
    end; done.
Qed.

End StorePhaseRun.

Section StorePhaseKnown.
Import Session Runtime Bytenuts StatusSpec.
Context `{status_enum}.

Lemma status_store_phase_known (user : Z) (text : string) (w : world) :
  user ∈ known_owners -> held (syn w) = [] -> slots_ok w ->
  exists w' evs,
    status_store_phase user text w = Some (true, w') /\
    status_slots (bn w') =
      <[owner_index user := Some (fresh (dom (heap w)))]> (status_slots (bn w)) /\
    status_win (bn w') = status_win (bn w) /\
    in_win (bn w') = in_win (bn w) /\
    heap w' = match owner_slot user (bn w) with
              | Some l => delete l (<[fresh (dom (heap w)) := text]> (heap w))
              | None => <[fresh (dom (heap w)) := text]> (heap w)
              end /\
    scr w' = scr w /\ held (syn w') = [] /\
    trace w' = trace w ++ evs /\ printed evs = [].
Proof.
  intros Hu Hh [Hnd Hlive].
  destruct status_enum_neq as (N1 & N2 & N3 & N4 & N5 & N6).
  pose proof (owner_slot_lookup user (bn w)) as Hk.
  assert (Hp : heap w !! fresh (dom (heap w)) = None)
    by (apply not_elem_of_dom, is_fresh).
  destruct (slots_replace _ _ _ _ _ text Hk Hnd Hlive Hp)
    as (_ & _ & _ & _ & Hold).
  clear Hk. revert Hold.
  apply known_owner_cases in Hu.
  unfold status_store_phase, owner_index, owner_slot.
  destruct Hu as [-> | [-> | [-> | ->]]];
    rewrite ?Z.eqb_refl;
    repeat match goal with
    | |- context [?a =? ?b] =>
      first [ rewrite (proj2 (Z.eqb_neq a b)) by (done || by apply not_eq_sym)
            | rewrite Z.eqb_refl ]
    end; intros Hold.
  all: match goal with
       | |- context [field ?get] => destruct (get (bn w)) as [l|] eqn:E
       end.
  all: eexists; eexists; split;
    [ munfold; wsimpl; rewrite Hh, not_held_nil; wsimpl; rewrite E; wsimpl;
      rewrite ?(Hold _ eq_refl); wsimpl; rewrite ?held_head; reflexivity
    | wsimpl ].
  all: rewrite ?filter_ne_cons by (rewrite Hh; apply not_elem_of_nil).
  all: rewrite Hh.
  all: split; [by destruct w as [[] ? ? ? ? ?]|].
  all: do 6 (split; [try done|]).
  all: try (rewrite <- !(assoc_L app); f_equal; fail).
  all: reflexivity.
Qed.

Lemma owner_slot_after (user u : Z) (p : loc) (b b' : bytenuts_t) :
  status_slots b' = <[owner_index user := Some p]> (status_slots b) ->
  owner_slot u b' =
    (if decide (owner_index u = owner_index user) then Some p
     else owner_slot u b).
Proof.
  intros Hs. pose proof (owner_slot_lookup u b') as Hu. rewrite Hs in Hu.
  pose proof (owner_slot_lookup user b) as Hk.
  pose proof (owner_slot_lookup u b) as Hu0.
  destruct (decide (owner_index u = owner_index user)) as [e|n].
  - rewrite e, list_lookup_insert_eq in Hu by (by eapply lookup_lt_Some).
    congruence.
  - rewrite list_lookup_insert_ne in Hu by done. congruence.
Qed.

(** What the first critical section does for one of the four owners: the
    owner's text becomes the new one, the texts of the three others stay,
    and nothing is drawn. *)
Lemma status_store_phase_known_texts (user : Z) (text : string) (w : world) :
  user ∈ known_owners -> held (syn w) = [] -> slots_ok w ->
  exists w' evs,
    status_store_phase user text w = Some (true, w') /\
    slots_ok w' /\ held (syn w') = [] /\ scr w' = scr w /\
    status_win (bn w') = status_win (bn w) /\
    in_win (bn w') = in_win (bn w) /\
    (forall u, u ∈ known_owners ->
       slot_text w' (owner_slot u (bn w')) =
         (if decide (u = user) then text
          else slot_text w (owner_slot u (bn w)))) /\
    trace w' = trace w ++ evs /\ printed evs = [].
Proof.
  intros Hu Hh Hok.
  destruct (status_store_phase_known user text w Hu Hh Hok)
    as (w' & evs & Hrun & Hslots & Hsw & Hiw & Hheap & Hscr & Hh' & Htr & Hpr).
  destruct Hok as [Hnd Hlive].
  pose proof (owner_slot_lookup user (bn w)) as Hk.
  assert (Hp : heap w !! fresh (dom (heap w)) = None)
    by (apply not_elem_of_dom, is_fresh).
  destruct (slots_replace _ _ _ _ _ text Hk Hnd Hlive Hp)
    as (Hnd' & Hlive' & Hnew & Hkeep & _).
  cbv zeta in *. rewrite <- Hheap in *. rewrite <- Hslots in *.
  exists w', evs. split_and!; try done.
  intros u Hu'. rewrite (owner_slot_after user u _ _ _ Hslots).
  destruct (decide (u = user)) as [->|Hne].
  - rewrite decide_True by done. unfold slot_text. by rewrite Hnew.
  - rewrite decide_False by (intros e; by apply Hne, owner_index_inj).
    destruct (owner_slot u (bn w)) as [q|] eqn:Eq; [|done].
    unfold slot_text. f_equal. apply (Hkeep (owner_index u)).
    + intros e. by apply Hne, owner_index_inj.
    + by rewrite owner_slot_lookup, Eq.
Qed.


End StorePhaseKnown.

Section Phases.
Import Session Runtime Bytenuts StatusSpec.
Context `{status_enum}.

Lemma is_known_tests (user : Z) :
  is_known user =
    (user =? STATUS_BYTENUTS) || (user =? STATUS_INGEST) ||
    (user =? STATUS_CHEERIOS) || (user =? STATUS_CMDPAGE).
Proof.
  unfold is_known, known_owners.
  destruct (user =? STATUS_BYTENUTS) eqn:E1;
    [apply Z.eqb_eq in E1; apply bool_decide_true; set_solver|].
  destruct (user =? STATUS_INGEST) eqn:E2;
    [apply Z.eqb_eq in E2; apply bool_decide_true; set_solver|].
  destruct (user =? STATUS_CHEERIOS) eqn:E3;
    [apply Z.eqb_eq in E3; apply bool_decide_true; set_solver|].
  destruct (user =? STATUS_CMDPAGE) eqn:E4;
    [apply Z.eqb_eq in E4; apply bool_decide_true; set_solver|].
  apply Z.eqb_neq in E1, E2, E3, E4. apply bool_decide_false. set_solver.
Qed.

Ltac bind_cases :=
  cbv [mbind M_bind mret M_ret];
  repeat match goal with
         | |- context [match ?m ?w with _ => _ end] =>
           destruct (m w) as [[? ?]|]; cbv beta iota; [|reflexivity]
         | p : (Z * Z)%type |- _ => destruct p; cbv beta iota
         end;
  try reflexivity.

(** [bytenuts_set_status] is its two critical sections one after the
    other, the second one only for one of the four owners. *)
Lemma bytenuts_set_status_phases (user : Z) (text : string) (w : world) :
  bytenuts_set_status user text w =
  (run_steps (steps_of_call (user, text)) ;; mret 0) w.
Proof.
  unfold steps_of_call. cbn [fst snd]. rewrite is_known_tests.
  destruct (user =? STATUS_BYTENUTS) eqn:E1; [|
  destruct (user =? STATUS_INGEST) eqn:E2; [|
  destruct (user =? STATUS_CHEERIOS) eqn:E3; [|
  destruct (user =? STATUS_CMDPAGE) eqn:E4]]].
  all: cbn [orb run_steps run_step].
  all: unfold bytenuts_set_status, status_store_phase, status_redraw_phase.
  all: rewrite ?E1, ?E2, ?E3, ?E4.
  all: bind_cases.
Qed.
End Phases.

(** ** Interleaved status updates *)
Section Interleave.
Import Session Runtime Bytenuts StatusSpec.
Context `{status_enum}.






End Interleave.

(** ** The status line after interleaved updates *)
Section StatusLine.
Import Session Runtime Bytenuts StatusSpec.
Context `{status_enum}.

Lemma slot_text_same_heap (w w' : world) (p : option loc) :
  heap w' = heap w -> slot_text w' p = slot_text w p.
Proof. unfold slot_text. by intros ->. Qed.

Lemma status_line_same (w w' : world) :
  bn w' = bn w -> heap w' = heap w -> status_line w' = status_line w.
Proof.
  intros Hb Hh. unfold status_line. rewrite Hb.
  by rewrite !(slot_text_same_heap w w' _ Hh).
Qed.

(** The composed line in terms of the four owners. *)
Lemma status_line_owners (w : world) :
  status_line w =
  compose_status (slot_text w (owner_slot STATUS_BYTENUTS (bn w)))
                 (slot_text w (owner_slot STATUS_INGEST (bn w)))
                 (slot_text w (owner_slot STATUS_CHEERIOS (bn w)))
                 (slot_text w (owner_slot STATUS_CMDPAGE (bn w))).
Proof.
  destruct status_enum_neq as (N1 & N2 & N3 & N4 & N5 & N6).
  unfold status_line, owner_slot. rewrite !Z.eqb_refl.
  repeat match goal with
  | |- context [?a =? ?b] =>
    rewrite (proj2 (Z.eqb_neq a b)) by (done || by apply not_eq_sym)
  end.
  reflexivity.
Qed.


Lemma status_ready_redraw (w : world) :
  status_ready w ->
  exists w' evs,
    status_redraw_phase w = Some (tt, w') /\ status_ready w' /\
    bn w' = bn w /\ heap w' = heap w /\
    status_width w' = status_width w /\
    status_row w' = drawn_row (status_width w) (status_line w) /\
    trace w' = trace w ++ evs /\ printed evs = [status_line w].
Proof.
  intros (Hh & [Hnd Hlive] & Hsw & Hiw & [wi Hwi] & ws & row & Hws & Hrow).
  destruct (status_redraw_phase_run w ws wi row Hh Hsw Hiw Hws Hwi Hrow Hlive)
    as (w' & ws' & evs & Hrun & Hb & Hp & Hh' & Hws' & Hrow' & Hc & Hin & Ht & Hl).
  exists w', evs. split; [done|]. split.
  { split; [done|]. split.
    - split; rewrite Hb; [done|]. intros l Hl'. rewrite Hp. by apply Hlive.
    - unfold status_window_ok. rewrite Hb.
      split; [done|]. split; [done|]. split; [done|]. eauto. }
  split; [done|]. split; [done|].
  unfold status_width, status_row. rewrite Hws, Hws', Hc.
  split; [done|]. split; [|done].
  destruct Hrow' as (_ & -> & _). reflexivity.
Qed.



End StatusLine.

Section StatusClaim.
Import Session Runtime Bytenuts StatusSpec.
Context `{status_enum}.


End StatusClaim.

Section SampleStatus.
Import Session Runtime Bytenuts StatusSpec Samples.

Lemma sample_world_ready : status_ready sample_world.
Proof.
  split; [vm_compute; reflexivity|]. split.
  - split.
    + apply (bool_decide_unpack _). vm_compute. reflexivity.
    + intros l Hl. unfold status_slots in Hl.
      repeat (apply elem_of_cons in Hl as [Hl|Hl];
              [vm_compute in Hl; try discriminate Hl; injection Hl as ->;
               vm_compute; by eexists|]).
      by apply elem_of_nil in Hl.
  - split; [vm_compute; reflexivity|]. split; [vm_compute; reflexivity|].
    split; [vm_compute; by eexists|].
    destruct (win_status (scr sample_world)) as [ws|] eqn:E;
      [|vm_compute in E; discriminate E].
    exists ws, (default [] (head (w_rows ws))). split; [reflexivity|].
    revert E. vm_compute. intros [= <-]. vm_compute. split_and!; reflexivity.
Qed.


End SampleStatus.

(** ** More on the speed tables *)
Section SpeedTables.
Import Termios CString Speed SpeedSpec.

Lemma unlisted_rate_B0 s : s ∉ standard_rates -> string_to_speed s = B0.
Proof.
  intros Hs. unfold string_to_speed.
  repeat match goal with
  | |- context [strcmp_eq ?a s] =>
    rewrite (strcmp_eq_false a s)
      by (intros <-; apply Hs, list_elem_of_In; unfold standard_rates;
          simpl; tauto)
  end.
  reflexivity.
Qed.

Lemma unlisted_speed_empty sp : sp ∉ standard_speeds -> speed_to_string sp = "".
Proof.
  intros Hs. unfold speed_to_string.
  repeat match goal with
  | |- context [Z.eqb sp ?c] =>
    rewrite (proj2 (Z.eqb_neq sp c))
      by (intros ->; apply Hs, list_elem_of_In; unfold standard_speeds;
          simpl; tauto)
  end.
  reflexivity.
Qed.

(** No rate name selects the constant of 115,200 baud: whatever string is
    given, [string_to_speed] returns something else. *)
Theorem X1_no_rate_name_selects_B115200 (s : string) :
  string_to_speed s <> B115200.
Proof. apply string_to_speed_never_B115200. Qed.

(** Round trip through the two tables: for every listed rate name other
    than 115200, printing the constant that the name is mapped to gives
    the letter B followed by the name. *)
Theorem X2_rate_name_round_trip (s : string) :
  s ∈ standard_rates -> s <> "115200" ->
  speed_to_string (string_to_speed s) = "B" +:+ s.
Proof.
  unfold standard_rates. intros H Hne.
  repeat (apply elem_of_cons in H as [->|H]; [try reflexivity; by destruct Hne|]).
  by apply elem_of_nil in H.
Qed.

Lemma X2_rate_name_round_trip_witness :
  speed_to_string (string_to_speed "9600") = "B9600".
Proof.
  apply (X2_rate_name_round_trip "9600"); [|discriminate].
  unfold standard_rates. do 12 apply list_elem_of_further. apply list_elem_of_here.
Defined.

(** [string_to_speed] tells the rate names apart, but for one pair: two
    strings mapped to the same constant other than [B0] are the same
    string, or are the names 115200 and 1152000. *)
Theorem X3_rate_names_distinct_but_one_pair (s s' : string) :
  string_to_speed s = string_to_speed s' -> string_to_speed s <> B0 ->
  s = s' \/ (s ∈ confused_rates /\ s' ∈ confused_rates).
Proof.
  intros Heq Hne.
  assert (Hs : s ∈ standard_rates).
  { destruct (decide (s ∈ standard_rates)) as [?|Hn]; [done|].
    by destruct Hne; apply unlisted_rate_B0. }
  assert (Hs' : s' ∈ standard_rates).
  { destruct (decide (s' ∈ standard_rates)) as [?|Hn]; [done|].
    destruct Hne. rewrite Heq. by apply unlisted_rate_B0. }
  assert (Hall : Forall (fun a => Forall (fun b =>
            string_to_speed a = string_to_speed b ->
            a = b \/ (a ∈ confused_rates /\ b ∈ confused_rates))
            standard_rates) standard_rates)
    by (apply (bool_decide_unpack _); vm_compute; reflexivity).
  rewrite Forall_forall in Hall. specialize (Hall s Hs).
  rewrite Forall_forall in Hall. exact (Hall s' Hs' Heq).
Qed.

Lemma X3_rate_names_distinct_but_one_pair_witness :
  "115200" = "1152000" \/
  ("115200" ∈ confused_rates /\ "1152000" ∈ confused_rates).
Proof.
  apply (X3_rate_names_distinct_but_one_pair "115200" "1152000");
    [reflexivity|discriminate].
Defined.

(** [speed_to_string] tells the constants apart, but for one pair: two
    constants printed with the same non-empty name are equal, or are
    [B115200] and [B1152000]. *)
Theorem X4_speed_names_distinct_but_one_pair (sp sp' : speed_t) :
  speed_to_string sp = speed_to_string sp' -> speed_to_string sp <> "" ->
  sp = sp' \/ (sp ∈ confused_speeds /\ sp' ∈ confused_speeds).
Proof.
  intros Heq Hne.
  assert (Hs : sp ∈ standard_speeds).
  { destruct (decide (sp ∈ standard_speeds)) as [?|Hn]; [done|].
    by destruct Hne; apply unlisted_speed_empty. }
  assert (Hs' : sp' ∈ standard_speeds).
  { destruct (decide (sp' ∈ standard_speeds)) as [?|Hn]; [done|].
    destruct Hne. rewrite Heq. by apply unlisted_speed_empty. }
  assert (Hall : Forall (fun a => Forall (fun b =>
            speed_to_string a = speed_to_string b ->
            a = b \/ (a ∈ confused_speeds /\ b ∈ confused_speeds))
            standard_speeds) standard_speeds)
    by (apply (bool_decide_unpack _); vm_compute; reflexivity).
  rewrite Forall_forall in Hall. specialize (Hall sp Hs).
  rewrite Forall_forall in Hall. exact (Hall sp' Hs' Heq).
Qed.

Lemma X4_speed_names_distinct_but_one_pair_witness :
  B115200 = B1152000 \/
  (B115200 ∈ confused_speeds /\ B1152000 ∈ confused_speeds).
Proof.
  apply (X4_speed_names_distinct_but_one_pair B115200 B1152000);
    [reflexivity|discriminate].
Defined.

End SpeedTables.

(** ** More on the command line *)
Section CommandLine.
Import Termios CString Speed Session Config ConfigSpec.

Lemma parse_args_loop_app opts more b b1 :
  parse_args_loop opts b = (0, b1) ->
  parse_args_loop (opts ++ more) b = parse_args_loop more b1.
Proof.
  remember (length opts) as n eqn:Hn.
  revert opts Hn b. induction (lt_wf n) as [n _ IH].
  intros opts -> b.
  destruct opts as [|a rest]; cbn [parse_args_loop app].
  { by intros [= <-]. }
  destruct (strcmp_eq a "-h"); [discriminate|].
  destruct (strcmp_eq a "-b").
  { destruct rest as [|v rest']; [discriminate|].
    cbn [app]. apply (IH (length rest') ltac:(simpl; lia) rest' eq_refl). }
  destruct (strcmp_eq a "-l").
  { destruct rest as [|v rest']; [discriminate|].
    cbn [app]. apply (IH (length rest') ltac:(simpl; lia) rest' eq_refl). }
  destruct (strcmp_eq a "-c").
  { destruct rest as [|v rest']; [discriminate|].
    cbn [app]. apply (IH (length rest') ltac:(simpl; lia) rest' eq_refl). }
  destruct (_ && _); [apply (IH (length rest) ltac:(simpl; lia) rest eq_refl)|].
  destruct (_ && _); [apply (IH (length rest) ltac:(simpl; lia) rest eq_refl)|].
  destruct (_ && _); [apply (IH (length rest) ltac:(simpl; lia) rest eq_refl)|].
  destruct (_ && _); [apply (IH (length rest) ltac:(simpl; lia) rest eq_refl)|].
  discriminate.
Qed.

Lemma parse_args_loop_code args b :
  (parse_args_loop args b).1 = 0 \/ (parse_args_loop args b).1 = -1.
Proof.
  remember (length args) as n eqn:Hn.
  revert args Hn b. induction (lt_wf n) as [n _ IH].
  intros args -> b.
  destruct args as [|a rest]; cbn [parse_args_loop]; [by left|].
  destruct (strcmp_eq a "-h"); [by right|].
  destruct (strcmp_eq a "-b").
  { destruct rest as [|v rest']; [by right|].
    apply (IH (length rest') ltac:(simpl; lia) rest' eq_refl). }
  destruct (strcmp_eq a "-l").
  { destruct rest as [|v rest']; [by right|].
    apply (IH (length rest') ltac:(simpl; lia) rest' eq_refl). }
  destruct (strcmp_eq a "-c").
  { destruct rest as [|v rest']; [by right|].
    apply (IH (length rest') ltac:(simpl; lia) rest' eq_refl). }
  destruct (_ && _); [apply (IH (length rest) ltac:(simpl; lia) rest eq_refl)|].
  destruct (_ && _); [apply (IH (length rest) ltac:(simpl; lia) rest eq_refl)|].
  destruct (_ && _); [apply (IH (length rest) ltac:(simpl; lia) rest eq_refl)|].
  destruct (_ && _); [apply (IH (length rest) ltac:(simpl; lia) rest eq_refl)|].
  by right.
Qed.

(** The options of a command line [prog :: opts ++ [path]]. *)
Lemma options_of_argv (prog : string) (opts : list string) (path : string) :
  removelast (tl (prog :: opts ++ [path])) = opts.
Proof. cbn [tl]. by rewrite removelast_last. Qed.

(** [parse_args] on a command line with at least one option, in terms of
    the loop. *)
Lemma parse_args_options dflt home prog opts path b :
  opts <> [] ->
  parse_args dflt home (prog :: opts ++ [path]) b =
  match parse_args_loop opts
          (upd_config (set_config_path (Some (home +:+ "/.config/bytenuts/config")))
                      (set_config dflt b)) with
  | (0, b1) => (0, upd_config (set_serial_path (Some path)) b1)
  | (_, b1) => (-1, b1)
  end.
Proof.
  intros Hne. unfold parse_args. rewrite options_of_argv.
  assert (Hlen : length (prog :: opts ++ [path]) = S (S (length opts))).
  { cbn. rewrite length_app. cbn. lia. }
  rewrite Hlen. destruct opts as [|o opts]; [done|].
  cbn [length Nat.ltb Nat.leb Nat.eqb andb].
  replace (nth _ (prog :: (o :: opts) ++ [path]) "") with path; [done|].
  change (prog :: (o :: opts) ++ [path]) with ((prog :: o :: opts) ++ [path]).
  rewrite app_nth2 by (cbn; lia).
  replace (_ - _)%nat with 0%nat by (cbn; lia). done.
Qed.

(** X5.  The options are processed from left to right, each on the
    session that the ones before it left: when the options [opts] are
    accepted, processing [opts ++ more] is processing [more] from the
    session that [opts] gave. *)
Theorem X5_options_compose (opts more : list string) (b b1 : bytenuts_t) :
  parse_args_loop opts b = (0, b1) ->
  parse_args_loop (opts ++ more) b = parse_args_loop more b1.
Proof. apply parse_args_loop_app. Qed.

Lemma X5_options_compose_witness :
  (parse_args_loop (["--echo=1"; "-b"; "9600"] ++ ["--echo=0"]) bytenuts_zero)
  = parse_args_loop ["--echo=0"]
      (parse_args_loop ["--echo=1"; "-b"; "9600"] bytenuts_zero).2.
Proof.
  apply (X5_options_compose ["--echo=1"; "-b"; "9600"] ["--echo=0"]).
  vm_compute. reflexivity.
Defined.

(** X6.  The last argument is never read as an option: whenever
    [parse_args] succeeds, the serial path is the last argument, whatever
    it looks like. *)
Theorem X6_last_argument_is_the_serial_path dflt home argv b b' :
  parse_args dflt home argv b = (0, b') ->
  serial_path (config b') = last argv /\ (2 <= length argv)%nat.
Proof.
  unfold parse_args. destruct (_ <? _)%nat eqn:Hlen; [discriminate|].
  apply Nat.ltb_ge in Hlen.
  destruct (_ && _); [discriminate|].
  destruct (parse_args_loop _ _) as [r b1]. destruct r; [|discriminate..].
  intros [= <-]. split; [|done]. cbn.
  destruct argv as [|a argv] using rev_ind; [cbn in Hlen; lia|].
  rewrite last_snoc, length_app. cbn [length].
  rewrite app_nth2 by lia. by replace (_ - _)%nat with 0%nat by lia.
Qed.

Lemma X6_last_argument_is_the_serial_path_witness :
  serial_path (config (parse_args (mk_config 1 0 0 "b"%char B115200 None None None)
                         "/home/user" ["bytenuts"; "--echo=1"; "-h"]
                         bytenuts_zero).2)
  = Some "-h".
Proof.
  apply (X6_last_argument_is_the_serial_path
           (mk_config 1 0 0 "b"%char B115200 None None None) "/home/user"
           ["bytenuts"; "--echo=1"; "-h"] bytenuts_zero).
  vm_compute. reflexivity.
Defined.

(** X7.  An option that takes a value cannot come last among the options:
    the final argument is always kept for the serial path, so a command
    line that is accepted stops being accepted when [-b], [-l] or [-c] is
    put right before its last argument. *)
Theorem X7_value_option_needs_a_following_path dflt home prog opts o path b :
  (parse_args dflt home (prog :: opts ++ [path]) b).1 = 0 ->
  o ∈ ["-b"; "-l"; "-c"] ->
  (parse_args dflt home (prog :: (opts ++ [o]) ++ [path]) b).1 = -1.
Proof.
  intros Hok Ho.
  rewrite parse_args_options by (by destruct opts).
  assert (Hloop : exists b1, parse_args_loop opts
            (upd_config (set_config_path (Some (home +:+ "/.config/bytenuts/config")))
                        (set_config dflt b)) = (0, b1)).
  { destruct opts as [|o1 opts].
    - eexists. reflexivity.
    - rewrite parse_args_options in Hok by done.
      destruct (parse_args_loop _ _) as [r b1]. destruct r; [|done..]. by eexists. }
  destruct Hloop as [b1 Hloop]. rewrite (parse_args_loop_app _ _ _ _ Hloop).
  repeat (apply elem_of_cons in Ho as [->|Ho]; [reflexivity|]).
  by apply elem_of_nil in Ho.
Qed.

Lemma X7_value_option_needs_a_following_path_witness :
  (parse_args (mk_config 1 0 0 "b"%char B115200 None None None) "/home/user"
     ("bytenuts" :: (["--echo=1"] ++ ["-b"]) ++ ["9600"]) bytenuts_zero).1 = -1.
Proof.
  apply (X7_value_option_needs_a_following_path
           (mk_config 1 0 0 "b"%char B115200 None None None) "/home/user"
           "bytenuts" ["--echo=1"] "-b" "9600" bytenuts_zero).
  - vm_compute. reflexivity.
  - apply list_elem_of_here.
Defined.

(** X8.  A [-b] option put last decides the rate and nothing else: the
    result is the session that the command line gives without it, with
    the rate replaced by what [string_to_speed] makes of the value.  No
    value is refused: a name that is not listed gives [B0] and the return
    code is still 0. *)
Theorem X8_baud_option_is_never_refused dflt home prog opts r path b b1 :
  parse_args dflt home (prog :: opts ++ [path]) b = (0, b1) ->
  parse_args dflt home (prog :: (opts ++ ["-b"; r]) ++ [path]) b
  = (0, upd_config (set_baud (string_to_speed r)) b1) /\
  (r ∉ standard_rates ->
   baud (config (upd_config (set_baud (string_to_speed r)) b1)) = B0).
Proof.
  intros Hok. split; [|intros Hr; cbn; by apply unlisted_rate_B0].
  rewrite parse_args_options by (by destruct opts).
  assert (Hloop : exists b2, parse_args_loop opts
            (upd_config (set_config_path (Some (home +:+ "/.config/bytenuts/config")))
                        (set_config dflt b)) = (0, b2) /\
            b1 = upd_config (set_serial_path (Some path)) b2).
  { destruct opts as [|o1 opts].
    - eexists. split; [reflexivity|].
      revert Hok. unfold parse_args. cbn.
      destruct (String.eqb path "-h"); [discriminate|]. by intros [= <-].
    - rewrite parse_args_options in Hok by done.
      destruct (parse_args_loop _ _) as [rc b2]. destruct rc; [|done..].
      injection Hok as Hb1. by eexists. }
  destruct Hloop as (b2 & Hloop & ->). rewrite (parse_args_loop_app _ _ _ _ Hloop).
  reflexivity.
Qed.

Lemma X8_baud_option_is_never_refused_witness :
  parse_args (mk_config 1 0 0 "b"%char B115200 None None None) "/home/user"
    ("bytenuts" :: (["-b"; "9600"] ++ ["-b"; "14400"]) ++ ["/dev/ttyUSB0"])
    bytenuts_zero
  = (0, upd_config (set_baud (string_to_speed "14400"))
          (parse_args (mk_config 1 0 0 "b"%char B115200 None None None)
             "/home/user" ["bytenuts"; "-b"; "9600"; "/dev/ttyUSB0"]
             bytenuts_zero).2).
Proof.
  apply (X8_baud_option_is_never_refused
           (mk_config 1 0 0 "b"%char B115200 None None None) "/home/user"
           "bytenuts" ["-b"; "9600"] "14400" "/dev/ttyUSB0" bytenuts_zero).
  vm_compute. reflexivity.
Defined.

Lemma not_dash_rejected a rest b :
  char_at a 0 <> "-"%char -> parse_args_loop (a :: rest) b = (-1, b).
Proof.
  intros Hc. cbn [parse_args_loop].
  assert (Hd : forall s n, strcmp_eq a (String "-" s) = false /\
                           memcmp_eq a (String "-" s) (S n) = false).
  { intros s n. destruct a as [|c a]; [split; reflexivity|].
    assert (Ascii.eqb c "-" = false) as Hcd.
    { apply Ascii.eqb_neq. intros ->. by apply Hc. }
    split.
    - unfold strcmp_eq. cbn [String.eqb]. by rewrite Hcd.
    - unfold memcmp_eq. cbn [substring String.eqb]. by rewrite Hcd. }
  rewrite !(proj1 (Hd _ 0%nat)), !(proj2 (Hd _ _)), !andb_false_r. reflexivity.
Qed.

(** X9.  Every argument in option position must begin with a dash: a
    command line whose first argument does not, and is not the only one,
    is refused. *)
Theorem X9_stray_argument_is_refused dflt home prog a more b :
  more <> [] -> char_at a 0 <> "-"%char ->
  (parse_args dflt home (prog :: a :: more) b).1 = -1.
Proof.
  intros Hmore Hc.
  destruct more as [|p more] using rev_ind; [done|]. clear IHmore Hmore.
  change (prog :: a :: more ++ [p]) with (prog :: (a :: more) ++ [p]).
  rewrite parse_args_options by done.
  by rewrite not_dash_rejected.
Qed.

Lemma X9_stray_argument_is_refused_witness :
  (parse_args (mk_config 1 0 0 "b"%char B115200 None None None) "/home/user"
     ["bytenuts"; "9600"; "/dev/ttyUSB0"] bytenuts_zero).1 = -1.
Proof.
  apply (X9_stray_argument_is_refused
           (mk_config 1 0 0 "b"%char B115200 None None None) "/home/user"
           "bytenuts" "9600" ["/dev/ttyUSB0"] bytenuts_zero); discriminate.
Defined.

Lemma parse_args_loop_untouched args b r b' :
  parse_args_loop args b = (r, b') ->
  ("-c" ∉ args -> config_path (config b') = config_path (config b)) /\
  ("-l" ∉ args -> log_path (config b') = log_path (config b)) /\
  ("-b" ∉ args -> baud (config b') = baud (config b)).
Proof.
  remember (length args) as n eqn:Hn.
  revert args Hn b. induction (lt_wf n) as [n _ IH].
  intros args -> b.
  assert (Hrec : forall rest b1 (skipped : list string),
    args = skipped ++ rest -> skipped <> [] ->
    ("-c" ∉ args -> config_path (config b1) = config_path (config b)) ->
    ("-l" ∉ args -> log_path (config b1) = log_path (config b)) ->
    ("-b" ∉ args -> baud (config b1) = baud (config b)) ->
    parse_args_loop rest b1 = (r, b') ->
    ("-c" ∉ args -> config_path (config b') = config_path (config b)) /\
    ("-l" ∉ args -> log_path (config b') = log_path (config b)) /\
    ("-b" ∉ args -> baud (config b') = baud (config b))).
  { intros rest b1 skipped -> Hsk Hc1 Hl1 Hb1 Hrun.
    assert (Hlt : (length rest < length (skipped ++ rest))%nat).
    { rewrite length_app. destruct skipped; [done|]. cbn. lia. }
    destruct (IH _ Hlt rest eq_refl b1 Hrun) as (Hc & Hl & Hb).
    split_and!; intros Ho.
    - rewrite Hc by (intros ?; apply Ho, elem_of_app; by right). by apply Hc1.
    - rewrite Hl by (intros ?; apply Ho, elem_of_app; by right). by apply Hl1.
    - rewrite Hb by (intros ?; apply Ho, elem_of_app; by right). by apply Hb1. }
  destruct args as [|a rest]; cbn [parse_args_loop].
  { by intros [= <- <-]. }
  destruct (strcmp_eq_spec a "-h") as [->|_]; [by intros [= <- <-]|].
  destruct (strcmp_eq_spec a "-b") as [->|_].
  { destruct rest as [|v rest']; [by intros [= <- <-]|].
    apply (Hrec rest' _ ["-b"; v] eq_refl); [done|done|done|].
    intros Hb. destruct Hb. apply list_elem_of_here. }
  destruct (strcmp_eq_spec a "-l") as [->|_].
  { destruct rest as [|v rest']; [by intros [= <- <-]|].
    apply (Hrec rest' _ ["-l"; v] eq_refl); [done|done| |done].
    intros Hl. destruct Hl. apply list_elem_of_here. }
  destruct (strcmp_eq_spec a "-c") as [->|_].
  { destruct rest as [|v rest']; [by intros [= <- <-]|].
    apply (Hrec rest' _ ["-c"; v] eq_refl); [done| |done|done].
    intros Hc. destruct Hc. apply list_elem_of_here. }
  destruct (_ && _).
  { apply (Hrec rest _ [a] eq_refl); [done|intros _..];
      by destruct (is_char _ "1"); [|destruct (is_char _ "0")]. }
  destruct (_ && _).
  { apply (Hrec rest _ [a] eq_refl); [done|intros _..];
      by destruct (is_char _ "1"); [|destruct (is_char _ "0")]. }
  destruct (_ && _).
  { apply (Hrec rest _ [a] eq_refl); [done|intros _..];
      by destruct (is_char _ "1"); [|destruct (is_char _ "0")]. }
  destruct (_ && _).
  { by apply (Hrec rest _ [a] eq_refl). }
  by intros [= <- <-].
Qed.

Lemma elem_of_removelast {A} (x : A) (l : list A) : x ∈ removelast l -> x ∈ l.
Proof.
  induction l as [|y l IH]; [done|]. cbn [removelast].
  destruct l as [|z l]; [by intros ?%elem_of_nil|].
  intros [->|Hx]%elem_of_cons; [apply list_elem_of_here|].
  apply list_elem_of_further. by apply IH.
Qed.

(** X10.  A field whose option does not occur on the command line has its
    default after a successful [parse_args]: without [-c] the
    configuration path is [$HOME/.config/bytenuts/config], without [-l]
    the log path and without [-b] the rate are those of
    [CONFIG_DEFAULT]. *)
Theorem X10_absent_option_leaves_the_default dflt home argv b b' :
  parse_args dflt home argv b = (0, b') ->
  ("-c" ∉ argv ->
   config_path (config b') = Some (home +:+ "/.config/bytenuts/config")) /\
  ("-l" ∉ argv -> log_path (config b') = log_path dflt) /\
  ("-b" ∉ argv -> baud (config b') = baud dflt).
Proof.
  unfold parse_args. destruct (_ <? _)%nat eqn:Hlen; [discriminate|].
  destruct (_ && _); [discriminate|].
  destruct (parse_args_loop _ _) as [r b1] eqn:Hloop.
  destruct r; [|discriminate..]. intros [= <-].
  apply parse_args_loop_untouched in Hloop as (Hc & Hl & Hb).
  assert (Hin : forall o, o ∉ argv -> o ∉ removelast (tl argv)).
  { intros o Ho Hin. apply Ho. destruct argv as [|prog rest]; [done|].
    apply list_elem_of_further. cbn [tl] in Hin.
    by apply elem_of_removelast. }
  split_and!; intros Ho; cbn.
  - by rewrite Hc by (by apply Hin).
  - by rewrite Hl by (by apply Hin).
  - by rewrite Hb by (by apply Hin).
Qed.

Lemma X10_absent_option_leaves_the_default_witness :
  config_path (config (parse_args (mk_config 1 0 0 "b"%char B115200 None None None)
                         "/home/user" ["bytenuts"; "-b"; "9600"; "/dev/ttyUSB0"]
                         bytenuts_zero).2)
  = Some "/home/user/.config/bytenuts/config".
Proof.
  apply (X10_absent_option_leaves_the_default
           (mk_config 1 0 0 "b"%char B115200 None None None) "/home/user"
           ["bytenuts"; "-b"; "9600"; "/dev/ttyUSB0"] bytenuts_zero).
  - vm_compute. reflexivity.
  - intros H. repeat (apply elem_of_cons in H as [H|H]; [discriminate H|]).
    by apply elem_of_nil in H.
Defined.

End CommandLine.

(** ** More on the configuration file *)
Section ConfigFile.
Import Termios CString Speed Session Config ConfigSpec ConfigFileSpec.

Lemma with_file_settings_refl b :
  b = with_file_settings (colors (config b)) (echo (config b))
        (no_crlf (config b)) (escape (config b)) b.
Proof. by destruct b as [[] ? ? ? ? ? ? ? ? ?]. Qed.

Lemma load_configs_line_settings line c e n x b :
  exists c' e' n' x',
    load_configs_line line (with_file_settings c e n x b)
    = with_file_settings c' e' n' x' b.
Proof.
  unfold load_configs_line.
  repeat match goal with
  | |- context [if ?t then _ else _] => destruct t
  end; by eexists _, _, _, _.
Qed.

Lemma load_configs_loop_settings fuel line stream c e n x b :
  exists c' e' n' x',
    load_configs_loop fuel line stream (with_file_settings c e n x b)
    = with_file_settings c' e' n' x' b.
Proof.
  revert line stream c e n x.
  induction fuel as [|fuel IH]; intros line stream c e n x.
  { by eexists _, _, _, _. }
  cbn [load_configs_loop].
  destruct (fgets line 128 stream) as [[l r]|]; [|by eexists _, _, _, _].
  destruct (load_configs_line_settings l c e n x b) as (c1 & e1 & n1 & x1 & ->).
  apply IH.
Qed.

Lemma load_configs_settings fs line0 b :
  exists c e n x, (load_configs fs line0 b).2 = with_file_settings c e n x b.
Proof.
  unfold load_configs.
  destruct (config_path (config b) ≫= fs) as [text|]; cbn [snd].
  - pose proof (load_configs_loop_settings (String.length text) line0 text
                  (colors (config b)) (echo (config b)) (no_crlf (config b))
                  (escape (config b)) b) as Hloop.
    by rewrite <- with_file_settings_refl in Hloop.
  - eexists _, _, _, _. apply with_file_settings_refl.
Qed.

(** X11.  [load_configs] never fails, whatever the file holds, and
    changes nothing of the session but the four fields [colors], [echo],
    [no_crlf] and [escape]: the rate, the paths, the override flags and
    the rest of the session are as before. *)
Theorem X11_config_file_sets_four_fields_only fs line0 b :
  (load_configs fs line0 b).1 = 0 /\
  exists c e n x, (load_configs fs line0 b).2 = with_file_settings c e n x b.
Proof. split; [apply load_configs_returns_0|apply load_configs_settings]. Qed.


Lemma load_configs_line_fresh chunk g g' b :
  load_configs_line (chunk ++ NUL :: g) b
  = load_configs_line (chunk ++ NUL :: g') b.
Proof.
  unfold load_configs_line.
  rewrite !(line_memcmp_fresh "colors=" 7 chunk _ eq_refl (key_prefix_no_NUL KEY_COLORS)).
  rewrite !(line_memcmp_fresh "echo=" 5 chunk _ eq_refl (key_prefix_no_NUL KEY_ECHO)).
  rewrite !(line_memcmp_fresh "no_crlf=" 8 chunk _ eq_refl (key_prefix_no_NUL KEY_NO_CRLF)).
  rewrite !(line_memcmp_fresh "escape=" 7 chunk _ eq_refl (key_prefix_no_NUL KEY_ESCAPE)).
  destruct (decide (list_ascii_of_string "colors=" `prefix_of` chunk)) as [H0|H0];
  destruct (decide (list_ascii_of_string "echo=" `prefix_of` chunk)) as [H1|H1];
  destruct (decide (list_ascii_of_string "no_crlf=" `prefix_of` chunk)) as [H2|H2];
  destruct (decide (list_ascii_of_string "escape=" `prefix_of` chunk)) as [H3|H3];
  rewrite ?(line_at_fresh (list_ascii_of_string "colors=") chunk _ 7 eq_refl H0),
          ?(line_at_fresh (list_ascii_of_string "echo=") chunk _ 5 eq_refl H1),
          ?(line_at_fresh (list_ascii_of_string "no_crlf=") chunk _ 8 eq_refl H2),
          ?(line_at_fresh (list_ascii_of_string "escape=") chunk _ 7 eq_refl H3);
  rewrite ?(bool_decide_true _ H0), ?(bool_decide_false _ H0),
          ?(bool_decide_true _ H1), ?(bool_decide_false _ H1),
          ?(bool_decide_true _ H2), ?(bool_decide_false _ H2),
          ?(bool_decide_true _ H3), ?(bool_decide_false _ H3);
  rewrite ?andb_false_r; reflexivity.
Qed.

Lemma load_configs_loop_fresh fuel line line' stream b :
  load_configs_loop fuel line stream b = load_configs_loop fuel line' stream b.
Proof.
  revert line line' stream b.
  induction fuel as [|fuel IH]; intros line line' stream b; [done|].
  cbn [load_configs_loop]. destruct stream as [|c s]; [done|].
  destruct (fgets_Some line c s) as (chunk & rest & Et & -> & _).
  destruct (fgets_Some line' c s) as (chunk' & rest' & Et' & -> & _).
  rewrite Et in Et'. injection Et' as <- <-.
  rewrite (load_configs_line_fresh chunk _ (drop (S (length chunk)) line')).
  apply IH.
Qed.

(** X12.  The result of [load_configs] does not depend on what the array
    [line] held before the first [fgets]: the bytes that [memcmp] and the
    value test read beyond a short line never decide anything. *)
Theorem X12_stale_line_buffer_is_harmless fs line0 line0' b :
  load_configs fs line0 b = load_configs fs line0' b.
Proof.
  unfold load_configs.
  destruct (config_path (config b) ≫= fs) as [text|]; [|done].
  f_equal. apply load_configs_loop_fresh.
Qed.

End ConfigFile.

(** ** The configuration file as [fgets] cuts it *)
Section ConfigLines.
Import Termios CString Speed Session Config ConfigSpec ConfigFileSpec.

Lemma append_cons c s t : String c s +:+ t = String c (s +:+ t).
Proof. reflexivity. Qed.

Lemma append_nil t : EmptyString +:+ t = t.
Proof. reflexivity. Qed.

Lemma length_append s t :
  String.length (s +:+ t) = (String.length s + String.length t)%nat.
Proof.
  induction s as [|c s IH]; [done|]. rewrite append_cons. cbn. by rewrite IH.
Qed.

Lemma list_ascii_of_string_app s t :
  list_ascii_of_string (s +:+ t)
  = list_ascii_of_string s ++ list_ascii_of_string t.
Proof.
  induction s as [|c s IH]; [done|]. rewrite append_cons. cbn. by rewrite IH.
Qed.

Lemma fgets_pieces_empty fuel : fgets_pieces fuel EmptyString = [].
Proof. by destruct fuel. Qed.

Lemma fgets_pieces_step fuel c s :
  fgets_pieces (S fuel) (String c s) =
  (let '(chunk, rest) := fgets_take 127 (String c s) in
   chunk :: fgets_pieces fuel rest).
Proof. reflexivity. Qed.

Lemma fgets_pieces_fuel f1 f2 s :
  (String.length s <= f1)%nat -> (String.length s <= f2)%nat ->
  fgets_pieces f1 s = fgets_pieces f2 s.
Proof.
  revert f2 s. induction f1 as [|f1 IH]; intros f2 s H1 H2.
  { destruct s; [|cbn in H1; lia]. by rewrite (fgets_pieces_empty f2). }
  destruct s as [|c s]; [by rewrite (fgets_pieces_empty f2)|].
  destruct f2 as [|f2]; [cbn in H2; lia|].
  cbn [fgets_pieces].
  destruct (fgets_take 127 (String c s)) as [chunk rest] eqn:Et.
  pose proof (fgets_take_progress _ _ _ _ _ Et) as Hlt.
  f_equal. apply IH; cbn in *; lia.
Qed.

Lemma whole_lines_tail c s :
  whole_lines (String c s) = true -> is_char c LF = false ->
  whole_lines s = true /\ s <> EmptyString.
Proof.
  cbn [whole_lines]. destruct s as [|d s]; [congruence|]. by intros -> _.
Qed.

Lemma whole_lines_after_newline c s :
  whole_lines (String c s) = true -> whole_lines s = true.
Proof. cbn [whole_lines]. by destruct s. Qed.

(** One [fgets] inside a text of whole lines does not reach beyond it. *)
Lemma fgets_take_whole n pre tail chunk r :
  whole_lines pre = true -> (n = 0%nat \/ pre <> EmptyString) ->
  fgets_take n pre = (chunk, r) ->
  fgets_take n (pre +:+ tail) = (chunk, r +:+ tail) /\ whole_lines r = true.
Proof.
  revert pre chunk r. induction n as [|n IH]; intros pre chunk r Hw Hne.
  { cbn. by intros [= <- <-]. }
  destruct pre as [|c p]; [by destruct Hne|].
  rewrite append_cons. cbn [fgets_take].
  destruct (is_char c LF) eqn:Ec.
  - intros [= <- <-]. split; [done|]. by eapply whole_lines_after_newline.
  - destruct (whole_lines_tail _ _ Hw Ec) as [Hwp Hp].
    destruct (fgets_take n p) as [ch r'] eqn:Et. intros [= <- <-].
    destruct (IH p ch r' Hwp (or_intror Hp) Et) as [-> Hr]. done.
Qed.

Lemma fgets_pieces_whole f f2 pre tail :
  whole_lines pre = true ->
  (String.length pre <= f)%nat -> (String.length tail <= f2)%nat ->
  fgets_pieces (f + f2) (pre +:+ tail)
  = fgets_pieces f pre ++ fgets_pieces f2 tail.
Proof.
  revert pre. induction f as [|f IH]; intros pre Hw Hf Hf2.
  { destruct pre; [|cbn in Hf; lia]. done. }
  destruct pre as [|c p].
  { rewrite append_nil, fgets_pieces_empty. apply fgets_pieces_fuel; lia. }
  rewrite append_cons. cbn [Nat.add fgets_pieces]. rewrite <- append_cons.
  destruct (fgets_take 127 (String c p)) as [chunk r] eqn:Et.
  assert (Hne : 127%nat = 0%nat \/ String c p <> EmptyString) by (by right).
  destruct (fgets_take_whole 127 (String c p) tail chunk r Hw Hne Et)
    as [-> Hr].
  pose proof (fgets_take_progress _ _ _ _ _ Et) as Hlt.
  cbn [app]. f_equal. apply IH; [done| cbn in *; lia |done].
Qed.

(** What follows a text of whole lines is cut as if it were a file of
    its own. *)
Lemma file_lines_app pre tail :
  whole_lines pre = true ->
  file_lines (pre +:+ tail) = file_lines pre ++ file_lines tail.
Proof.
  intros Hw. unfold file_lines. rewrite length_append.
  by apply fgets_pieces_whole.
Qed.

Lemma fgets_take_line n s rest :
  LF ∉ list_ascii_of_string s -> (String.length s < n)%nat ->
  fgets_take n (s +:+ String LF rest) = (list_ascii_of_string s ++ [LF], rest).
Proof.
  revert n. induction s as [|c s IH]; intros n Hlf Hn.
  { destruct n; [lia|]. reflexivity. }
  destruct n as [|n]; [cbn in Hn; lia|].
  apply not_elem_of_cons in Hlf as [Hc Hlf].
  rewrite append_cons. cbn [fgets_take].
  replace (is_char c LF) with false
    by (symmetry; apply Ascii.eqb_neq; congruence).
  rewrite IH by (cbn in *; done || lia). done.
Qed.

Lemma fgets_take_full n s tail :
  LF ∉ list_ascii_of_string s -> String.length s = n ->
  fgets_take n (s +:+ tail) = (list_ascii_of_string s, tail).
Proof.
  revert n. induction s as [|c s IH]; intros n Hlf Hn.
  { by subst n. }
  destruct n as [|n]; [done|].
  apply not_elem_of_cons in Hlf as [Hc Hlf].
  rewrite append_cons. cbn [fgets_take].
  replace (is_char c LF) with false
    by (symmetry; apply Ascii.eqb_neq; congruence).
  rewrite IH by (cbn in *; done || lia). done.
Qed.

(** A short line with its newline is one piece. *)
Lemma file_lines_short s :
  short_line s -> file_lines (ln s) = [list_ascii_of_string (ln s)].
Proof.
  intros [Hlen Hlf]. unfold file_lines, ln, str1.
  rewrite length_append. cbn [String.length].
  replace (String.length s + 1)%nat with (S (String.length s)) by lia.
  cbn [fgets_pieces].
  rewrite fgets_take_line by (done || lia).
  rewrite fgets_pieces_empty, list_ascii_of_string_app.
  by destruct (s +:+ String LF EmptyString) eqn:E;
    [destruct s; discriminate E|].
Qed.

(** A piece of 127 characters without newline is cut off, and the rest
    of the physical line is the next piece. *)
Lemma file_lines_long filler tail :
  String.length filler = 127%nat -> LF ∉ list_ascii_of_string filler ->
  file_lines (filler +:+ tail) = list_ascii_of_string filler :: file_lines tail.
Proof.
  intros Hlen Hlf. unfold file_lines. rewrite length_append, Hlen.
  change (127 + String.length tail)%nat with (S (126 + String.length tail)).
  pose proof (fgets_take_full 127 filler tail Hlf Hlen) as Et.
  destruct filler as [|c f']; [discriminate Hlen|].
  change (String c f' +:+ tail) with (String c (f' +:+ tail)) in *.
  rewrite fgets_pieces_step, Et.
  f_equal. apply fgets_pieces_fuel; lia.
Qed.

Lemma last_setting_snoc k lines l :
  last_setting k (lines ++ [l]) =
  match line_setting k l with
  | Some v => Some v
  | None => last_setting k lines
  end.
Proof.
  induction lines as [|l0 lines IH]; cbn [app last_setting].
  - by destruct (line_setting k l).
  - rewrite IH. by destruct (line_setting k l).
Qed.

(** What a line that starts with the prefix of a key says: only the
    character right after the prefix counts. *)
Lemma line_setting_at k c rest :
  line_setting k (list_ascii_of_string (key_prefix k) ++ c :: rest) =
  match k with
  | KEY_ESCAPE => Some (Z.of_nat (nat_of_ascii c))
  | _ => if is_char c "0" then Some 0
         else if is_char c "1" then Some 1 else None
  end.
Proof.
  unfold line_setting.
  rewrite bool_decide_true by (by eexists).
  rewrite nth_middle. by destruct k.
Qed.

Lemma lines_of_config fs b text :
  config_path (config b) ≫= fs = Some text ->
  config_file_lines fs b = file_lines text.
Proof. unfold config_file_lines. by intros ->. Qed.

(** X13.  A physical line longer than 127 characters is read in pieces,
    and a piece is parsed like a line: a setting that begins right after
    the first 127 characters of a line is taken, although it is not at
    the start of a line of the file. *)
Theorem X13_setting_inside_a_long_line_is_taken
    fs line0 b (pre filler setting : string) (k : config_key) (v : Z) :
  config_path (config b) ≫= fs = Some (pre +:+ filler +:+ ln setting) ->
  whole_lines pre = true ->
  String.length filler = 127%nat -> LF ∉ list_ascii_of_string filler ->
  short_line setting ->
  line_setting k (list_ascii_of_string (ln setting)) = Some v ->
  overridden (key_index k) b = false ->
  field_of k (load_configs fs line0 b).2 = v.
Proof.
  intros Hfs Hpre Hlen Hlf Hshort Hset Hk.
  rewrite load_configs_field, Hk, (lines_of_config _ _ _ Hfs).
  rewrite file_lines_app, file_lines_long, file_lines_short by done.
  replace (file_lines pre ++
           [list_ascii_of_string filler; list_ascii_of_string (ln setting)])
    with ((file_lines pre ++ [list_ascii_of_string filler]) ++
          [list_ascii_of_string (ln setting)])
    by (by rewrite <- (assoc_L app)).
  by rewrite last_setting_snoc, Hset.
Qed.

End ConfigLines.

Section ConfigEdges.
Import Termios CString Speed Session Config ConfigSpec ConfigFileSpec Samples.

Lemma X13_setting_inside_a_long_line_is_taken_witness :
  field_of KEY_ECHO
    (load_configs
       (sample_fs (string_of_list_ascii (replicate 127 "#"%char) +:+ ln "echo=1"))
       [] (sample_session ["bytenuts"; "/dev/ttyUSB0"])).2 = 1.
Proof.
  apply (X13_setting_inside_a_long_line_is_taken
           (sample_fs (string_of_list_ascii (replicate 127 "#"%char) +:+ ln "echo=1"))
           [] (sample_session ["bytenuts"; "/dev/ttyUSB0"])
           "" (string_of_list_ascii (replicate 127 "#"%char)) "echo=1" KEY_ECHO 1).
  - vm_compute. reflexivity.
  - reflexivity.
  - vm_compute. reflexivity.
  - apply (bool_decide_unpack _). vm_compute. reflexivity.
  - split; [vm_compute; lia|]. apply (bool_decide_unpack _). vm_compute. reflexivity.
  - vm_compute. reflexivity.
  - vm_compute. reflexivity.
Defined.

(** X14.  Of a line for [colors], [echo] or [no_crlf] only the character
    right after the [=] is read.  When such a line is the last of the
    file, the field is 0 or 1 if that character is [0] or [1], whatever
    follows it on the line; with any other character there the line is
    skipped, and the field is what the lines before it make it. *)
Theorem X14_only_the_character_after_the_equals_sign
    fs line0 b (pre junk : string) (k : config_key) (c : ascii) :
  config_path (config b) ≫= fs
    = Some (pre +:+ ln (key_prefix k +:+ String c junk)) ->
  whole_lines pre = true ->
  short_line (key_prefix k +:+ String c junk) ->
  k <> KEY_ESCAPE ->
  overridden (key_index k) b = false ->
  field_of k (load_configs fs line0 b).2 =
    (if is_char c "0" then 0
     else if is_char c "1" then 1
     else default (field_of k b) (last_setting k (file_lines pre))).
Proof.
  intros Hfs Hpre Hshort Hk Hov.
  rewrite load_configs_field, Hov, (lines_of_config _ _ _ Hfs).
  rewrite file_lines_app, file_lines_short by done.
  rewrite last_setting_snoc. unfold ln.
  rewrite !list_ascii_of_string_app. cbn [list_ascii_of_string app].
  rewrite <- (assoc_L app). cbn [app].
  rewrite line_setting_at.
  destruct k; [| | |done];
    by destruct (is_char c "0"); [|destruct (is_char c "1")].
Qed.

Lemma X14_only_the_character_after_the_equals_sign_witness :
  field_of KEY_ECHO
    (load_configs (sample_fs (ln "echo=0" +:+ ln "echo=10")) []
       (sample_session ["bytenuts"; "/dev/ttyUSB0"])).2 = 1.
Proof.
  apply (X14_only_the_character_after_the_equals_sign
           (sample_fs (ln "echo=0" +:+ ln "echo=10")) []
           (sample_session ["bytenuts"; "/dev/ttyUSB0"])
           (ln "echo=0") "0" KEY_ECHO "1"%char).
  - vm_compute. reflexivity.
  - reflexivity.
  - split; [vm_compute; lia|]. apply (bool_decide_unpack _). vm_compute. reflexivity.
  - discriminate.
  - vm_compute. reflexivity.
Defined.

Lemma escape_of_field (b : bytenuts_t) (c : ascii) :
  field_of KEY_ESCAPE b = Z.of_nat (nat_of_ascii c) -> escape (config b) = c.
Proof.
  unfold field_of. cbn [config_field]. intros Hc%Nat2Z.inj.
  by rewrite <- (ascii_nat_embedding (escape (config b))), Hc, ascii_nat_embedding.
Qed.

(** X15.  A line [escape=] with nothing after the [=] still sets the
    escape character: to the newline that ends the line, or, when it is
    the last line and the file ends right after the [=], to NUL. *)
Theorem X15_empty_escape_value fs line0 b (pre : string) :
  whole_lines pre = true ->
  overridden (key_index KEY_ESCAPE) b = false ->
  (config_path (config b) ≫= fs = Some (pre +:+ ln "escape=") ->
   escape (config (load_configs fs line0 b).2) = LF) /\
  (config_path (config b) ≫= fs = Some (pre +:+ "escape=") ->
   escape (config (load_configs fs line0 b).2) = NUL).
Proof.
  intros Hpre Hov. split; intros Hfs; apply escape_of_field;
    rewrite load_configs_field, Hov, (lines_of_config _ _ _ Hfs);
    rewrite file_lines_app by done.
  - rewrite file_lines_short
      by (split; [vm_compute; lia|apply (bool_decide_unpack _); vm_compute; reflexivity]).
    by rewrite last_setting_snoc.
  - change (file_lines "escape=") with [list_ascii_of_string "escape="].
    by rewrite last_setting_snoc.
Qed.

Lemma X15_empty_escape_value_witness :
  escape (config (load_configs (sample_fs (ln "echo=1" +:+ ln "escape=")) []
                    (sample_session ["bytenuts"; "/dev/ttyUSB0"])).2) = LF.
Proof.
  apply (X15_empty_escape_value (sample_fs (ln "echo=1" +:+ ln "escape=")) []
           (sample_session ["bytenuts"; "/dev/ttyUSB0"]) (ln "echo=1")).
  - reflexivity.
  - vm_compute. reflexivity.
  - vm_compute. reflexivity.
Defined.

End ConfigEdges.

(** ** The report of [bytenuts_print_stats] *)
Section StatsReport.
Import Termios CString Speed SpeedSpec Session Config Runtime Locking Stats.

Lemma insert_line_fits text w :
  (String.length text < 128)%nat ->
  insert_line text w = Some (tt, logged (EvCheeriosInsert (c_string text)) w).
Proof.
  intros Hlen. unfold insert_line.
  by rewrite (proj2 (Nat.ltb_lt _ _) Hlen).
Qed.

Lemma insert_line_overflow text w :
  (128 <= String.length text)%nat -> insert_line text w = None.
Proof.
  intros Hlen. unfold insert_line.
  by rewrite (proj2 (Nat.ltb_ge _ _) Hlen).
Qed.

Lemma c_string_id s : NUL ∉ list_ascii_of_string s -> c_string s = s.
Proof.
  induction s as [|c s IH]; [done|]. cbn [list_ascii_of_string c_string].
  intros [Hc Hs]%not_elem_of_cons.
  replace (is_char c NUL) with false
    by (symmetry; apply Ascii.eqb_neq; congruence).
  by rewrite IH.
Qed.

Lemma enabled_length v : (String.length (enabled v) <= 8)%nat.
Proof. unfold enabled. destruct (v =? 0); cbn; lia. Qed.


Lemma speed_to_string_length sp : (String.length (speed_to_string sp) <= 8)%nat.
Proof.
  unfold speed_to_string.
  repeat match goal with
  | |- context [Z.eqb sp ?c] => destruct (Z.eqb sp c); [cbn; lia|]
  end.
  cbn; lia.
Qed.

Lemma speed_to_string_no_NUL sp : NUL ∉ list_ascii_of_string (speed_to_string sp).
Proof.
  unfold speed_to_string.
  repeat match goal with
  | |- context [Z.eqb sp ?c] =>
    destruct (Z.eqb sp c); [apply (bool_decide_unpack _); reflexivity|]
  end.
  apply not_elem_of_nil.
Qed.

Lemma logged_mk e b h s y f t :
  logged e (mk_world b h s y f t) = mk_world b h s y f (t ++ [e]).
Proof. reflexivity. Qed.

(** The world after the eight lines. *)
Lemma print_stats_run w :
  paths_fit (config (bn w)) ->
  bytenuts_print_stats w =
  Some (0, mk_world (bn w) (heap w) (scr w) (syn w) (open_fds w)
             (trace w ++
              map (fun t => EvCheeriosInsert (c_string t))
                [ "colors: " +:+ enabled (colors (config (bn w))) +:+ crlf;
                  "echo: " +:+ enabled (echo (config (bn w))) +:+ crlf;
                  "no_crlf: " +:+ enabled (no_crlf (config (bn w))) +:+ crlf;
                  "escape: " +:+ String (escape (config (bn w))) crlf;
                  "baud: " +:+ speed_to_string (baud (config (bn w))) +:+ crlf;
                  "config_path: " +:+ percent_s (config_path (config (bn w))) +:+ crlf;
                  "log_path: " +:+ percent_s (log_path (config (bn w))) +:+ crlf;
                  "serial_path: " +:+ percent_s (serial_path (config (bn w))) +:+ crlf ])).
Proof.
  intros (Hc & Hl & Hs). unfold bytenuts_print_stats.
  pose proof (enabled_length (colors (config (bn w)))) as L1.
  pose proof (enabled_length (echo (config (bn w)))) as L2.
  pose proof (enabled_length (no_crlf (config (bn w)))) as L3.
  pose proof (speed_to_string_length (baud (config (bn w)))) as L5.
  do 8 (erewrite bind_Some;
        [|erewrite bind_Some by (unfold field; munfold; reflexivity);
          wsimpl; apply insert_line_fits;
          rewrite ?length_append; unfold crlf; cbn [String.length]; lia]).
  munfold. destruct w as [b h s y f t]. rewrite !logged_mk.
  cbn [bn heap scr syn open_fds trace map]. by rewrite <- !(assoc_L app).
Qed.


Lemma M_bind_None {A B} (m : M A) (f : A -> M B) w :
  m w = None -> (m ≫= f) w = None.
Proof. unfold mbind, M_bind. by intros ->. Qed.

Lemma print_stats_overflow w :
  ~ paths_fit (config (bn w)) -> bytenuts_print_stats w = None.
Proof.
  intros Hno. unfold bytenuts_print_stats.
  pose proof (enabled_length (colors (config (bn w)))) as L1.
  pose proof (enabled_length (echo (config (bn w)))) as L2.
  pose proof (enabled_length (no_crlf (config (bn w)))) as L3.
  pose proof (speed_to_string_length (baud (config (bn w)))) as L5.
  do 5 (erewrite bind_Some;
        [|erewrite bind_Some by (unfold field; munfold; reflexivity);
          wsimpl; apply insert_line_fits;
          rewrite ?length_append; unfold crlf; cbn [String.length]; lia]).
  destruct (decide (String.length (percent_s (config_path (config (bn w)))) <= 112)%nat)
    as [Hc|Hc].
  2:{ apply M_bind_None. erewrite bind_Some by (unfold field; munfold; reflexivity).
      wsimpl. apply insert_line_overflow.
      rewrite !length_append; unfold crlf; cbn [String.length]; lia. }
  erewrite bind_Some;
    [|erewrite bind_Some by (unfold field; munfold; reflexivity);
      wsimpl; apply insert_line_fits;
      rewrite ?length_append; unfold crlf; cbn [String.length]; lia].
  destruct (decide (String.length (percent_s (log_path (config (bn w)))) <= 115)%nat)
    as [Hl|Hl].
  2:{ apply M_bind_None. erewrite bind_Some by (unfold field; munfold; reflexivity).
      wsimpl. apply insert_line_overflow.
      rewrite !length_append; unfold crlf; cbn [String.length]; lia. }
  erewrite bind_Some;
    [|erewrite bind_Some by (unfold field; munfold; reflexivity);
      wsimpl; apply insert_line_fits;
      rewrite ?length_append; unfold crlf; cbn [String.length]; lia].
  destruct (decide (String.length (percent_s (serial_path (config (bn w)))) <= 112)%nat)
    as [Hs|Hs]; [by destruct Hno|].
  apply M_bind_None. erewrite bind_Some by (unfold field; munfold; reflexivity).
  wsimpl. apply insert_line_overflow.
  rewrite !length_append; unfold crlf; cbn [String.length]; lia.
Qed.

(** X16.  [bytenuts_print_stats] formats each line with [sprintf] into an
    array of 128 characters.  It stays within the array exactly when the
    configuration path and the serial path have at most 112 characters
    and the log path at most 115; with a longer path a [sprintf] writes
    beyond [st_line]. *)
Theorem X16_stats_lines_fit_short_paths_only (w : world) :
  is_Some (bytenuts_print_stats w) <-> paths_fit (config (bn w)).
Proof.
  split.
  - intros [r Hr]. destruct (decide (paths_fit (config (bn w)))) as [?|Hno]; [done|].
    by rewrite print_stats_overflow in Hr.
  - intros Hfit. rewrite print_stats_run by done. by eexists.
Qed.

End StatsReport.

Section StatsTexts.
Import Termios CString Speed SpeedSpec Session Config Runtime Locking Stats.
Import Samples StatsSamples.

Lemma X16_stats_lines_fit_short_paths_only_witness :
  bytenuts_print_stats (parsed_world ["bytenuts"; long_path 113]) = None /\
  is_Some (bytenuts_print_stats (parsed_world ["bytenuts"; long_path 112])).
Proof.
  split.
  - destruct (bytenuts_print_stats (parsed_world ["bytenuts"; long_path 113]))
      as [r|] eqn:E; [|reflexivity].
    assert (Hsome : is_Some (bytenuts_print_stats
                               (parsed_world ["bytenuts"; long_path 113])))
      by (rewrite E; by eexists).
    apply X16_stats_lines_fit_short_paths_only in Hsome as (_ & _ & Hs).
    exfalso. vm_compute in Hs. lia.
  - apply X16_stats_lines_fit_short_paths_only. vm_compute. lia.
Defined.

Lemma no_NUL_app s t :
  NUL ∉ list_ascii_of_string s -> NUL ∉ list_ascii_of_string t ->
  NUL ∉ list_ascii_of_string (s +:+ t).
Proof. intros Hs Ht. rewrite list_ascii_of_string_app, elem_of_app. tauto. Qed.

Lemma inserted_texts (ts : list string) :
  inserted (map (fun t => EvCheeriosInsert (c_string t)) ts) = map c_string ts.
Proof. induction ts as [|t ts IH]; [done|]. cbn. by rewrite <- IH. Qed.





(** X18.  The rate that the report shows for a session whose rate was
    given as [-b r]: the letter B and the name for a listed name, except
    that 115200 is shown as B1152000, and nothing at all for a name that
    is not listed. *)
Theorem X18_stats_show_the_rate_of_the_table (w : world) (r : string) :
  paths_fit (config (bn w)) ->
  baud (config (bn w)) = string_to_speed r ->
  exists w',
    bytenuts_print_stats w = Some (0, w') /\
    inserted (footprint w w') !! 4%nat =
      Some ("baud: " +:+
            (if decide (r = "115200") then "B1152000"
             else if decide (r ∈ standard_rates) then "B" +:+ r
             else "") +:+ crlf).
Proof.
  intros Hfit Hr. eexists. split; [by apply print_stats_run|].
  unfold footprint. cbn [trace].
  rewrite drop_app_length, inserted_texts. cbn [map lookup list_lookup].
  assert (Hcrlf : NUL ∉ list_ascii_of_string crlf)
    by (apply (bool_decide_unpack _); reflexivity).
  rewrite c_string_id
    by (repeat apply no_NUL_app; try done; try apply speed_to_string_no_NUL;
        apply (bool_decide_unpack _); reflexivity).
  rewrite Hr. do 3 f_equal.
  destruct (decide (r = "115200")) as [->|Hne]; [reflexivity|].
  destruct (decide (r ∈ standard_rates)) as [Hin|Hout].
  - revert Hin. unfold standard_rates. intros Hin.
    repeat (apply elem_of_cons in Hin as [->|Hin];
            [try reflexivity; by destruct Hne|]).
    by apply elem_of_nil in Hin.
  - by rewrite unlisted_rate_B0.
Qed.

Lemma X18_stats_show_the_rate_of_the_table_witness :
  exists w',
    bytenuts_print_stats
      (parsed_world ["bytenuts"; "-b"; "115200"; "/dev/ttyUSB0"]) = Some (0, w') /\
    inserted (footprint
                (parsed_world ["bytenuts"; "-b"; "115200"; "/dev/ttyUSB0"]) w')
    !! 4%nat = Some ("baud: B1152000" +:+ crlf).
Proof.
  destruct (X18_stats_show_the_rate_of_the_table
              (parsed_world ["bytenuts"; "-b"; "115200"; "/dev/ttyUSB0"]) "115200")
    as (w' & Hrun & Hins).
  - vm_compute. lia.
  - reflexivity.
  - exists w'. split; [exact Hrun|]. rewrite Hins. reflexivity.
Defined.

End StatsTexts.

(** ** The layout of the three windows *)
Section Resize.
Import Session Runtime Bytenuts Lifecycle Layout.

Lemma win_resize_geometry n c win :
  0 < n -> 0 < c ->
  geometry (win_resize n c win) = (n, c, w_begy win, w_begx win).
Proof.
  intros Hn Hc. unfold win_resize.
  rewrite (proj2 (Z.ltb_lt 0 n) Hn), (proj2 (Z.ltb_lt 0 c) Hc). reflexivity.
Qed.

Lemma win_mvwin_geometry lines cols y x win :
  0 <= y -> 0 <= x -> y + w_lines win <= lines -> x + w_cols win <= cols ->
  geometry (win_mvwin lines cols y x win) = (w_lines win, w_cols win, y, x).
Proof.
  intros Hy Hx Hl Hc. unfold win_mvwin.
  rewrite (proj2 (Z.leb_le 0 y) Hy), (proj2 (Z.leb_le 0 x) Hx),
    (proj2 (Z.leb_le _ _) Hl), (proj2 (Z.leb_le _ _) Hc). reflexivity.
Qed.

Lemma geometry_win_move y x win : geometry (win_move y x win) = geometry win.
Proof. unfold win_move. by destruct (_ && _). Qed.

Lemma geometry_win_addch c win : geometry (win_addch c win).1 = geometry win.
Proof. unfold win_addch. by repeat destruct (_ <? _). Qed.

Lemma geometry_win_addstr s win : geometry (win_addstr s win) = geometry win.
Proof.
  revert win. induction s as [|c s IH]; intros win; [done|].
  cbn [win_addstr].
  pose proof (geometry_win_addch c win) as Hc.
  destruct (win_addch c win) as [win' ok]. cbn [fst] in Hc.
  destruct ok; [by rewrite IH|done].
Qed.

Lemma geometry_iter_addch n c win :
  geometry (Nat.iter n (fun v => (win_addch c v).1) win) = geometry win.
Proof.
  induction n as [|n IH]; [done|].
  rewrite Nat.iter_succ. by rewrite geometry_win_addch.
Qed.

(** A window resized to [n] by [c] and then moved to line [y], column 0,
    of a terminal that has room for it there. *)
Lemma resized_and_moved lines cols n c y win :
  0 < n -> 0 < c -> 0 <= y -> y + n <= lines -> c <= cols ->
  geometry (win_mvwin lines cols y 0 (win_resize n c win)) = (n, c, y, 0).
Proof.
  intros Hn Hc Hy Hl Hcc.
  pose proof (win_resize_geometry n c win Hn Hc) as Hg.
  injection Hg as Hg1 Hg2 _ _.
  rewrite win_mvwin_geometry by lia. by rewrite Hg1, Hg2.
Qed.

Lemma update_screen_size_run w ws wo wi :
  held (syn w) = [] ->
  status_win (bn w) = Some STATUS_WIN -> out_win (bn w) = Some OUT_WIN ->
  in_win (bn w) = Some IN_WIN ->
  win_status (scr w) = Some ws -> win_out (scr w) = Some wo ->
  win_in (scr w) = Some wi ->
  exists w',
    bytenuts_update_screen_size w = Some (0, w') /\
    bn w' = bn w /\ heap w' = heap w /\ held (syn w') = [] /\
    open_fds w' = open_fds w /\
    LINES (scr w') = LINES (scr w) /\ COLS (scr w') = COLS (scr w) /\
    win_status (scr w') =
      Some (win_mvwin (LINES (scr w)) (COLS (scr w)) (LINES (scr w) - 2) 0
              (win_resize 1 (COLS (scr w)) ws)) /\
    win_out (scr w') =
      Some (win_mvwin (LINES (scr w)) (COLS (scr w)) 0 0
              (win_resize (LINES (scr w) - 2) (COLS (scr w)) wo)) /\
    win_in (scr w') =
      Some (win_mvwin (LINES (scr w)) (COLS (scr w)) (LINES (scr w) - 1) 0
              (win_resize 1 (COLS (scr w)) wi)) /\
    last (trace w') = Some (EvCheeriosInsert "").
Proof.
  intros Hh Hsw How Hiw Hws Hwo Hwi.
  unfold bytenuts_update_screen_size.
  eexists. split.
  - erewrite bind_Some by (munfold; rewrite Hh, not_held_nil; reflexivity).
    erewrite bind_Some by (munfold; reflexivity). cbv zeta. ssimpl.
    erewrite bind_Some by (munfold; ssimpl; rewrite Hsw; ssimpl; rewrite Hws; reflexivity).
    erewrite bind_Some by (munfold; ssimpl; rewrite Hsw; ssimpl; reflexivity).
    erewrite bind_Some by (munfold; ssimpl; rewrite Hsw; ssimpl; reflexivity).
    erewrite bind_Some by (munfold; ssimpl; rewrite How; ssimpl; rewrite Hwo; reflexivity).
    erewrite bind_Some by (munfold; ssimpl; rewrite How; ssimpl; reflexivity).
    erewrite bind_Some by (munfold; ssimpl; rewrite How; ssimpl; reflexivity).
    erewrite bind_Some by (munfold; ssimpl; rewrite Hiw; ssimpl; rewrite Hwi; reflexivity).
    erewrite bind_Some by (munfold; ssimpl; rewrite Hiw; ssimpl; reflexivity).
    erewrite bind_Some by (munfold; ssimpl; rewrite Hiw; ssimpl; reflexivity).
    erewrite bind_Some by (munfold; ssimpl; rewrite held_head; reflexivity).
    munfold. reflexivity.
  - ssimpl. rewrite Hh, filter_ne_cons by apply not_elem_of_nil.
    split_and!; try done. by rewrite last_snoc.
Qed.

(** X23.  After [bytenuts_update_screen_size], on a terminal of at least
    three lines and one column, the three windows cover the terminal
    again: the output region on the first [LINES - 2] lines, the status
    line below it and the input line last, each [COLS] wide.  The session
    and the heap are untouched, [term_lock] is released, and the call
    ends by handing the empty text to [cheerios_insert]. *)
Theorem X23_resize_restores_the_layout (w : world) :
  held (syn w) = [] -> windows_ok w ->
  3 <= LINES (scr w) -> 1 <= COLS (scr w) ->
  exists w',
    bytenuts_update_screen_size w = Some (0, w') /\
    tiled (scr w') /\
    LINES (scr w') = LINES (scr w) /\ COLS (scr w') = COLS (scr w) /\
    bn w' = bn w /\ heap w' = heap w /\ held (syn w') = [] /\
    last (trace w') = Some (EvCheeriosInsert "").
Proof.
  intros Hh (Hsw & Hiw & How & [ws Hws] & [wi Hwi] & [wo Hwo]) Hl Hc.
  destruct (update_screen_size_run w ws wo wi Hh Hsw How Hiw Hws Hwo Hwi)
    as (w' & Hrun & Hb & Hp & Hh' & _ & HL & HC & Hs & Ho & Hi & Hlast).
  exists w'. split; [done|]. split; [|by split_and!].
  eexists _, _, _. rewrite HL, HC.
  split; [exact Hs|]. split; [exact Ho|]. split; [exact Hi|].
  split_and!; apply resized_and_moved; lia.
Qed.

End Resize.

Section ResizeSamples.
Import Session Runtime Bytenuts Lifecycle Layout Samples LayoutSamples.

Lemma X23_resize_restores_the_layout_witness :
  exists w',
    bytenuts_update_screen_size resized_world = Some (0, w') /\
    tiled (scr w') /\ LINES (scr w') = 30 /\ COLS (scr w') = 100.
Proof.
  destruct (X23_resize_restores_the_layout resized_world)
    as (w' & Hrun & Ht & HL & HC & _).
  - reflexivity.
  - vm_compute. split_and!; try discriminate; eexists; reflexivity.
  - vm_compute. discriminate.
  - vm_compute. discriminate.
  - exists w'. by split_and!.
Defined.

End ResizeSamples.

(** ** More on [bytenuts_set_status] *)
Section StatusUpdate.
Import Session Runtime Bytenuts StatusSpec Layout.
Context `{status_enum}.

Lemma win_move_to_cursor (wi : window) :
  win_move (w_cury wi) (w_curx wi) wi = wi.
Proof. unfold win_move. destruct (_ && _); [|done]. by destruct wi. Qed.

(** What the redraw leaves alone. *)
Lemma status_redraw_phase_frame (w : world) (ws wi : window) (row : list ascii) :
  held (syn w) = [] ->
  status_win (bn w) = Some STATUS_WIN -> in_win (bn w) = Some IN_WIN ->
  win_status (scr w) = Some ws -> win_in (scr w) = Some wi ->
  single_row ws row ->
  (forall l, Some l ∈ status_slots (bn w) -> is_Some (heap w !! l)) ->
  exists w',
    status_redraw_phase w = Some (tt, w') /\
    win_in (scr w') = Some wi /\ win_out (scr w') = win_out (scr w) /\
    cursor_visibility (scr w') = 1 /\
    LINES (scr w') = LINES (scr w) /\ COLS (scr w') = COLS (scr w) /\
    open_fds w' = open_fds w /\
    cond_waiting (syn w') = cond_waiting (syn w) /\
    cond_woken (syn w') = cond_woken (syn w) /\
    ingest_running (syn w') = ingest_running (syn w) /\
    cheerios_running (syn w') = cheerios_running (syn w) /\
    exists ws', win_status (scr w') = Some ws' /\ geometry ws' = geometry ws.
Proof.
  intros Hh Hsw Hiw Hws Hwi Hrow Hlive.
  unfold status_redraw_phase.
  eexists. split.
  - erewrite bind_Some by (munfold; rewrite Hh, not_held_nil; reflexivity).
    erewrite bind_Some by (munfold; ssimpl; rewrite Hiw; ssimpl; rewrite Hwi; reflexivity).
    cbv beta iota.
    erewrite bind_Some by (munfold; reflexivity).
    erewrite bind_Some by (munfold; ssimpl; rewrite Hsw; ssimpl; rewrite Hws; reflexivity).
    erewrite bind_Some by (munfold; ssimpl; rewrite Hsw; ssimpl; reflexivity).
    erewrite bind_Some.
    2:{ eapply for_waddch; [done| ssimpl; exact Hsw | ssimpl; reflexivity]. }
    erewrite bind_Some by (munfold; ssimpl; rewrite Hsw; ssimpl; reflexivity).
    erewrite bind_Some by (munfold; ssimpl; rewrite Hsw; ssimpl; reflexivity).
    erewrite bind_Some by (munfold; reflexivity).
    erewrite bind_Some
      by (erewrite bind_Some by (munfold; reflexivity); ssimpl;
          apply (string_of_ptr_same_heap _ w); [reflexivity|];
          intros l Hl; apply Hlive;
          rewrite <- Hl; apply slot_elem_1).
    erewrite bind_Some
      by (erewrite bind_Some by (munfold; reflexivity); ssimpl;
          apply (string_of_ptr_same_heap _ w); [reflexivity|];
          intros l Hl; apply Hlive;
          rewrite <- Hl; apply slot_elem_2).
    erewrite bind_Some
      by (erewrite bind_Some by (munfold; reflexivity); ssimpl;
          apply (string_of_ptr_same_heap _ w); [reflexivity|];
          intros l Hl; apply Hlive;
          rewrite <- Hl; apply slot_elem_3).
    erewrite bind_Some
      by (erewrite bind_Some by (munfold; reflexivity); ssimpl;
          apply (string_of_ptr_same_heap _ w); [reflexivity|];
          intros l Hl; apply Hlive;
          rewrite <- Hl; apply slot_elem_4).
    erewrite bind_Some by (munfold; ssimpl; rewrite Hsw; ssimpl; reflexivity).
    erewrite bind_Some
      by (munfold; ssimpl; rewrite Hiw; ssimpl; rewrite Hwi; reflexivity).
    erewrite bind_Some by (munfold; reflexivity).
    erewrite bind_Some by (munfold; ssimpl; rewrite Hsw; ssimpl; reflexivity).
    erewrite bind_Some by (munfold; reflexivity).
    munfold. ssimpl. rewrite held_head. reflexivity.
  - ssimpl. rewrite win_move_to_cursor. split_and!; try done.
    eexists. split; [reflexivity|].
    by rewrite geometry_win_addstr, geometry_win_move, geometry_win_addch,
      geometry_iter_addch, geometry_win_move.
Qed.

(** A call for one of the four owners, from a ready session, in one
    piece. *)
Lemma bytenuts_set_status_known (user : Z) (text : string) (w : world) :
  user ∈ known_owners -> status_ready w ->
  exists w1 w',
    status_store_phase user text w = Some (true, w1) /\
    status_redraw_phase w1 = Some (tt, w') /\
    bytenuts_set_status user text w = Some (0, w') /\
    status_ready w1 /\ status_ready w'.
Proof.
  intros Hu Hready. pose proof Hready as (Hh & Hok & Hsw & Hiw & Hwi & Hws).
  destruct (status_store_phase_known_texts user text w Hu Hh Hok)
    as (w1 & evs & Hrun1 & Hok1 & Hh1 & Hscr & Hsw1 & Hiw1 & _).
  assert (Hready1 : status_ready w1).
  { split; [done|]. split; [done|]. unfold status_window_ok.
    by rewrite Hsw1, Hiw1, Hscr. }
  destruct (status_ready_redraw w1 Hready1) as (w' & evs' & Hrun & Hready' & _).
  exists w1, w'. split_and!; try done.
  rewrite bytenuts_set_status_phases. unfold steps_of_call, is_known.
  cbn [fst snd]. rewrite bool_decide_true by done.
  erewrite bind_Some; [reflexivity|]. cbn [run_steps run_step].
  erewrite bind_Some by (erewrite bind_Some by exact Hrun1; reflexivity).
  erewrite bind_Some by exact Hrun. reflexivity.
Qed.

(** What the first critical section leaves alone. *)
Lemma status_store_phase_frame user text w r w1 :
  status_store_phase user text w = Some (r, w1) ->
  scr w1 = scr w /\ open_fds w1 = open_fds w /\
  cond_waiting (syn w1) = cond_waiting (syn w) /\
  cond_woken (syn w1) = cond_woken (syn w) /\
  ingest_running (syn w1) = ingest_running (syn w) /\
  cheerios_running (syn w1) = cheerios_running (syn w) /\
  status_win (bn w1) = status_win (bn w) /\
  out_win (bn w1) = out_win (bn w) /\ in_win (bn w1) = in_win (bn w) /\
  serial_fd (bn w1) = serial_fd (bn w) /\ config (bn w1) = config (bn w).
Proof.
  intros Hrun. unfold status_store_phase in Hrun.
  munfold_in Hrun. wsimpl_in Hrun.
  repeat case_match; simplify_eq; wsimpl; done.
Qed.

(** A call for one of the four owners from a ready session: what it
    changes and what it leaves alone. *)
Lemma bytenuts_set_status_effect (user : Z) (text : string) (w : world) :
  user ∈ known_owners -> status_ready w ->
  exists w',
    bytenuts_set_status user text w = Some (0, w') /\
    status_ready w' /\
    (forall u, u ∈ known_owners ->
       slot_text w' (owner_slot u (bn w')) =
         (if decide (u = user) then text
          else slot_text w (owner_slot u (bn w)))) /\
    status_row w' = drawn_row (status_width w) (status_line w') /\
    win_in (scr w') = win_in (scr w) /\ win_out (scr w') = win_out (scr w) /\
    (exists ws ws', win_status (scr w) = Some ws /\
                    win_status (scr w') = Some ws' /\
                    geometry ws' = geometry ws) /\
    LINES (scr w') = LINES (scr w) /\ COLS (scr w') = COLS (scr w) /\
    open_fds w' = open_fds w /\
    cond_waiting (syn w') = cond_waiting (syn w) /\
    cond_woken (syn w') = cond_woken (syn w) /\
    ingest_running (syn w') = ingest_running (syn w) /\
    cheerios_running (syn w') = cheerios_running (syn w) /\
    out_win (bn w') = out_win (bn w) /\
    serial_fd (bn w') = serial_fd (bn w) /\ config (bn w') = config (bn w).
Proof.
  intros Hu Hready.
  destruct (bytenuts_set_status_known user text w Hu Hready)
    as (w1 & w' & Hrun1 & Hrun2 & Hrun & Hready1 & Hready').
  pose proof Hready as (Hh & Hok & _).
  destruct (status_store_phase_known_texts user text w Hu Hh Hok)
    as (w1' & evs & Hrun1' & _ & _ & _ & _ & _ & Htxt & _).
  rewrite Hrun1 in Hrun1'. injection Hrun1' as <-.
  destruct (status_store_phase_frame _ _ _ _ _ Hrun1)
    as (Hscr & Hfds & Hcw & Hck & Hir & Hcr & _ & How & _ & Hfd & Hcfg).
  destruct (status_ready_redraw w1 Hready1)
    as (w'' & evs' & Hrun2' & _ & Hb & Hp & Hwd & Hrow & _).
  rewrite Hrun2 in Hrun2'. injection Hrun2' as <-.
  pose proof Hready1 as (Hh1 & [_ Hlive1] & Hsw & Hiw & [wi Hwi] & ws & row & Hws & Hrw).
  destruct (status_redraw_phase_frame w1 ws wi row Hh1 Hsw Hiw Hws Hwi Hrw Hlive1)
    as (w'' & Hrun2' & Hin & Hout & _ & HL & HC & Hfds' & Hcw' & Hck' & Hir' & Hcr'
        & ws' & Hws' & Hgeo).
  rewrite Hrun2 in Hrun2'. injection Hrun2' as <-.
  exists w'. split; [done|]. split; [done|]. split.
  { intros u Hu'. rewrite Hb, (slot_text_same_heap w1 w' _ Hp). by apply Htxt. }
  split.
  { rewrite Hrow. unfold status_width. rewrite Hscr.
    by rewrite (status_line_same w1 w' Hb Hp). }
  rewrite <- Hscr. split; [congruence|]. split; [done|]. split; [by eauto|].
  rewrite Hb. split_and!; congruence.
Qed.

(** X19.  An update for one of the four owners allocates one block for
    the new text and frees exactly the block of the text it replaces: the
    heap afterwards is the old one with the new text added and the
    owner's previous text removed, the owner's pointer is the new block,
    every status pointer points to a live block, and the number of blocks
    grows only when the owner had no text before. *)
Theorem X19_status_update_frees_what_it_replaces
    (user : Z) (text : string) (w : world) :
  user ∈ known_owners -> status_ready w ->
  exists w',
    bytenuts_set_status user text w = Some (0, w') /\
    slots_ok w' /\
    owner_slot user (bn w') = Some (fresh (dom (heap w))) /\
    heap w' = match owner_slot user (bn w) with
              | Some l => delete l (<[fresh (dom (heap w)) := text]> (heap w))
              | None => <[fresh (dom (heap w)) := text]> (heap w)
              end /\
    size (heap w') =
      (size (heap w) + match owner_slot user (bn w) with
                        | Some _ => 0
                        | None => 1
                        end)%nat.
Proof.
  intros Hu Hready.
  destruct (bytenuts_set_status_known user text w Hu Hready)
    as (w1 & w' & Hrun1 & Hrun2 & Hrun & Hready1 & Hready').
  pose proof Hready as (Hh & Hok & _).
  destruct (status_store_phase_known user text w Hu Hh Hok)
    as (w1' & evs & Hrun1' & Hslots & _ & _ & Hheap & _).
  rewrite Hrun1 in Hrun1'. injection Hrun1' as <-.
  destruct (status_ready_redraw w1 Hready1)
    as (w'' & evs' & Hrun2' & _ & Hb & Hp & _).
  rewrite Hrun2 in Hrun2'. injection Hrun2' as <-.
  exists w'. split; [done|]. split; [apply Hready'|].
  assert (Hfresh : heap w !! fresh (dom (heap w)) = None)
    by (apply not_elem_of_dom, is_fresh).
  split_and!.
  - rewrite Hb, (owner_slot_after user user _ _ _ Hslots).
    by rewrite decide_True.
  - by rewrite Hp.
  - rewrite Hp, Hheap. destruct Hok as [_ Hlive].
    destruct (owner_slot user (bn w)) as [l|] eqn:Hold.
    + assert (Hl : is_Some (heap w !! l)).
      { apply Hlive. rewrite <- Hold.
        eapply list_elem_of_lookup_2, owner_slot_lookup. }
      destruct Hl as [s Hs].
      rewrite map_size_delete_Some
        by (rewrite lookup_insert_ne by congruence; by eexists).
      rewrite map_size_insert_None by done. lia.
    + rewrite map_size_insert_None by done. lia.
Qed.

(** X20.  The redraw of an update puts the input cursor back: after an
    update for one of the four owners the input window, with its cursor
    position, and the output window are as before the call, the cursor is
    visible, no mutex is held and the open descriptors are the same. *)
Theorem X20_status_update_restores_the_input_cursor
    (user : Z) (text : string) (w : world) :
  user ∈ known_owners -> status_ready w ->
  exists w',
    bytenuts_set_status user text w = Some (0, w') /\
    win_in (scr w') = win_in (scr w) /\
    win_out (scr w') = win_out (scr w) /\
    cursor_visibility (scr w') = 1 /\
    held (syn w') = [].
Proof.
  intros Hu Hready.
  destruct (bytenuts_set_status_known user text w Hu Hready)
    as (w1 & w' & Hrun1 & Hrun2 & Hrun & Hready1 & Hready').
  pose proof Hready as (Hh & Hok & _).
  destruct (status_store_phase_known user text w Hu Hh Hok)
    as (w1' & evs & Hrun1' & _ & _ & _ & _ & Hscr & _).
  rewrite Hrun1 in Hrun1'. injection Hrun1' as <-.
  pose proof Hready1 as (Hh1 & [_ Hlive1] & Hsw & Hiw & [wi Hwi] & ws & row & Hws & Hrow).
  destruct (status_redraw_phase_frame w1 ws wi row Hh1 Hsw Hiw Hws Hwi Hrow Hlive1)
    as (w'' & Hrun2' & Hin & Hout & Hcur & _).
  rewrite Hrun2 in Hrun2'. injection Hrun2' as <-.
  exists w'. split; [done|]. rewrite <- Hscr.
  split_and!; [congruence|done|done|apply Hready'].
Qed.

End StatusUpdate.

Section StatusUpdateSamples.
Import Session Runtime Bytenuts StatusSpec Samples.

Lemma X19_status_update_frees_what_it_replaces_witness :
  exists w',
    bytenuts_set_status (H := sample_enum) 1 "rx 12" sample_world = Some (0, w') /\
    size (heap w') = size (heap sample_world).
Proof.
  destruct (X19_status_update_frees_what_it_replaces (H := sample_enum)
              1 "rx 12" sample_world) as (w' & Hrun & _ & _ & _ & Hsize).
  - apply list_elem_of_further, list_elem_of_here.
  - apply sample_world_ready.
  - exists w'. split; [exact Hrun|]. rewrite Hsize. vm_compute. reflexivity.
Defined.

Lemma X20_status_update_restores_the_input_cursor_witness :
  exists w',
    bytenuts_set_status (H := sample_enum) 1 "rx 12" sample_world = Some (0, w') /\
    win_in (scr w') = win_in (scr sample_world) /\
    cursor_visibility (scr w') = 1.
Proof.
  destruct (X20_status_update_restores_the_input_cursor (H := sample_enum)
              1 "rx 12" sample_world) as (w' & Hrun & Hin & _ & Hcur & _).
  - apply list_elem_of_further, list_elem_of_here.
  - apply sample_world_ready.
  - exists w'. split; [exact Hrun|]. split; [exact Hin|exact Hcur].
Defined.

End StatusUpdateSamples.

(** ** After the shutdown, and stop requests that nobody waits for *)
Section Teardown.
Import Session Runtime Bytenuts Lifecycle StatusSpec.
Context `{status_enum}.

Lemma the_window_deleted (wp : option win_id) (w : world) :
  (forall id, wp = Some id -> screen_win id (scr w) = None) ->
  the_window wp w = None.
Proof.
  intros Hgone. destruct wp as [id|]; [|done].
  unfold the_window. munfold. by rewrite (Hgone id eq_refl).
Qed.

Lemma status_store_phase_screen user text w r w1 :
  status_store_phase user text w = Some (r, w1) ->
  scr w1 = scr w /\ in_win (bn w1) = in_win (bn w).
Proof.
  intros Hrun. unfold status_store_phase in Hrun.
  munfold_in Hrun. wsimpl_in Hrun.
  repeat case_match; simplify_eq; wsimpl; done.
Qed.

Lemma status_redraw_phase_no_input_window w :
  (forall id, in_win (bn w) = Some id -> screen_win id (scr w) = None) ->
  status_redraw_phase w = None.
Proof.
  intros Hgone. unfold status_redraw_phase.
  destruct (pthread_mutex_lock TERM_LOCK w) as [[[] w1]|] eqn:Hlock;
    [|by apply M_bind_None].
  erewrite bind_Some by exact Hlock. apply M_bind_None.
  assert (Hw1 : bn w1 = bn w /\ scr w1 = scr w).
  { revert Hlock. unfold pthread_mutex_lock. munfold.
    destruct (bool_decide _); [done|]. by intros [= <-]. }
  destruct Hw1 as [Hb Hs].
  erewrite bind_Some by (unfold field; munfold; reflexivity).
  unfold getyx. apply M_bind_None, the_window_deleted.
  rewrite Hb, Hs. exact Hgone.
Qed.

(** X21.  [bytenuts_kill] deletes the three windows and leaves their
    pointers in the session struct.  Whatever is called after it returns
    is a use of a deleted window: a second [bytenuts_kill], a resize, and
    a status update for one of the four owners are all undefined. *)
Theorem X21_nothing_can_follow_the_shutdown (w w' : world) :
  bytenuts_kill w = Some (tt, w') ->
  status_win (bn w') = status_win (bn w) /\
  in_win (bn w') = in_win (bn w) /\ out_win (bn w') = out_win (bn w) /\
  bytenuts_kill w' = None /\
  bytenuts_update_screen_size w' = None /\
  forall user text, user ∈ known_owners ->
    bytenuts_set_status user text w' = None.
Proof.
  intros Hkill.
  destruct (bytenuts_kill_trace w w' Hkill)
    as (a & b & c & Ha & Hb & Hc & _ & Hbn & _ & _ & _ & _ & Hscr & _).
  assert (Hgone : forall id, id ∈ [a; b; c] -> screen_win id (scr w') = None).
  { intros id Hid. rewrite Hscr.
    repeat (apply elem_of_cons in Hid as [->|Hid];
            [by destruct a, b, c|]).
    by apply elem_of_nil in Hid. }
  rewrite Hbn. split_and!; try done.
  - unfold bytenuts_kill.
    do 2 (erewrite bind_Some by (munfold; reflexivity)).
    apply M_bind_None.
    erewrite bind_Some by (unfold field; munfold; reflexivity).
    unfold delwin. apply M_bind_None, the_window_deleted. wsimpl.
    rewrite Hbn, Ha. intros id [= <-]. apply Hgone, list_elem_of_here.
  - unfold bytenuts_update_screen_size.
    destruct (pthread_mutex_lock TERM_LOCK w') as [[[] w1]|] eqn:Hlock;
      [|by apply M_bind_None].
    erewrite bind_Some by exact Hlock.
    assert (Hw1 : bn w1 = bn w' /\ scr w1 = scr w').
    { revert Hlock. unfold pthread_mutex_lock. munfold.
      destruct (bool_decide _); [done|]. by intros [= <-]. }
    destruct Hw1 as [Hb1 Hs1].
    erewrite bind_Some by (munfold; reflexivity). cbv zeta.
    apply M_bind_None.
    erewrite bind_Some by (unfold field; munfold; reflexivity).
    unfold wresize, on_window. apply M_bind_None, the_window_deleted.
    rewrite Hb1, Hs1, Hbn, Ha. intros id [= <-]. apply Hgone, list_elem_of_here.
  - intros user text Hu. rewrite bytenuts_set_status_phases.
    unfold steps_of_call, is_known. cbn [fst snd].
    rewrite bool_decide_true by done. apply M_bind_None.
    cbn [run_steps run_step].
    destruct (status_store_phase user text w') as [[r w1]|] eqn:Hstore;
      [|by apply M_bind_None, M_bind_None].
    erewrite bind_Some by (erewrite bind_Some by exact Hstore; reflexivity).
    apply M_bind_None, status_redraw_phase_no_input_window.
    destruct (status_store_phase_screen _ _ _ _ _ Hstore) as [-> ->].
    rewrite Hbn, Hb. intros id [= <-]. apply Hgone.
    apply list_elem_of_further, list_elem_of_here.
Qed.

Lemma with_syn_mk g b h s y f t :
  with_syn g (mk_world b h s y f t) = mk_world b h s (g y) f t.
Proof. reflexivity. Qed.

(** X22.  A stop request that finds nobody waiting leaves no mark: after
    any number of calls of [bytenuts_stop] made while the main thread is
    not waiting, the session, the heap, the screen and the whole
    synchronisation state are as before, and each call returned 0. *)
Theorem X22_stop_requests_before_the_wait_are_lost (n : nat) (w : world) :
  held (syn w) = [] -> cond_waiting (syn w) = false ->
  exists w',
    for_ n (bytenuts_stop ≫= fun r => if r =? 0 then mret tt else undefined) w
    = Some (tt, w') /\
    bn w' = bn w /\ heap w' = heap w /\ scr w' = scr w /\ syn w' = syn w /\
    open_fds w' = open_fds w /\
    trace w' = trace w ++
      concat (replicate n [EvLock LOCK; EvCondSignal; EvUnlock LOCK]).
Proof.
  revert w. induction n as [|n IH]; intros w Hh Hcw.
  { exists w. split; [done|].
    split_and!; try done. by rewrite app_nil_r. }
  assert (Hstop : bytenuts_stop w =
    Some (0, mk_world (bn w) (heap w) (scr w) (syn w) (open_fds w)
               (trace w ++ [EvLock LOCK; EvCondSignal; EvUnlock LOCK]))).
  { unfold bytenuts_stop. munfold. wsimpl. rewrite Hh, not_held_nil.
    wsimpl. rewrite Hcw. wsimpl. rewrite held_head.
    destruct w as [b h s [hl cw ck ir cr] f t]. cbn in Hh, Hcw. subst hl cw.
    repeat (rewrite logged_mk || rewrite with_syn_mk).
    cbn [cond_waiting held set_held]. rewrite filter_ne_cons by apply not_elem_of_nil.
    by rewrite <- !(assoc_L app). }
  destruct (IH (mk_world (bn w) (heap w) (scr w) (syn w) (open_fds w)
                  (trace w ++ [EvLock LOCK; EvCondSignal; EvUnlock LOCK])))
    as (w' & Hrun & Hb & Hp & Hs & Hy & Hf & Ht); [done|done|].
  exists w'. split.
  - cbn [for_]. erewrite bind_Some; [exact Hrun|].
    erewrite bind_Some by exact Hstop. reflexivity.
  - split_and!; try done.
    rewrite Ht. cbn [replicate concat trace]. by rewrite <- !(assoc_L app).
Qed.

End Teardown.

Section TeardownSamples.
Import Session Runtime Bytenuts Lifecycle StatusSpec Samples.

Lemma X21_nothing_can_follow_the_shutdown_witness :
  exists w',
    bytenuts_kill sample_world = Some (tt, w') /\
    bytenuts_kill w' = None /\
    bytenuts_update_screen_size w' = None.
Proof.
  destruct (bytenuts_kill sample_world) as [[[] w']|] eqn:E;
    [|exfalso; vm_compute in E; discriminate E].
  exists w'. split; [reflexivity|].
  destruct (X21_nothing_can_follow_the_shutdown (H := sample_enum)
              sample_world w' E) as (_ & _ & _ & Hkill & Hsize & _).
  split; [exact Hkill|exact Hsize].
Defined.

Lemma X22_stop_requests_before_the_wait_are_lost_witness :
  exists w',
    for_ 3 (bytenuts_stop ≫= fun r => if r =? 0 then mret tt else undefined)
      sample_world = Some (tt, w') /\
    syn w' = syn sample_world.
Proof.
  destruct (X22_stop_requests_before_the_wait_are_lost 3 sample_world)
    as (w' & Hrun & _ & _ & _ & Hsyn & _).
  - vm_compute. reflexivity.
  - vm_compute. reflexivity.
  - exists w'. split; [exact Hrun|exact Hsyn].
Defined.

End TeardownSamples.

(** ** Start-up *)
Section WorldNormalForm.
Import Session Runtime.

Lemma with_bn_mk g b h s y f t :
  with_bn g (mk_world b h s y f t) = mk_world (g b) h s y f t.
Proof. reflexivity. Qed.
Lemma with_heap_mk g b h s y f t :
  with_heap g (mk_world b h s y f t) = mk_world b (g h) s y f t.
Proof. reflexivity. Qed.
Lemma with_scr_mk g b h s y f t :
  with_scr g (mk_world b h s y f t) = mk_world b h (g s) y f t.
Proof. reflexivity. Qed.
Lemma with_fds_mk g b h s y f t :
  with_fds g (mk_world b h s y f t) = mk_world b h s y (g f) t.
Proof. reflexivity. Qed.

End WorldNormalForm.

Ltac wnorm :=
  repeat (rewrite logged_mk || rewrite with_syn_mk || rewrite with_bn_mk ||
          rewrite with_heap_mk || rewrite with_scr_mk || rewrite with_fds_mk);
  cbn beta.

Ltac bsimpl :=
  cbn [Runtime.bn Runtime.heap Runtime.scr Runtime.syn Runtime.open_fds
       Runtime.trace Runtime.held
       Runtime.screen_win Runtime.set_screen_win Runtime.set_cursor_visibility
       Runtime.win_status Runtime.win_out Runtime.win_in
       Runtime.cursor_visibility Runtime.LINES Runtime.COLS
       Session.status_win Session.out_win Session.in_win Session.serial_fd
       Session.config Session.config_overrides
       Session.bytenuts_status Session.ingest_status Session.cheerios_status
       Session.cmdpg_status
       Session.set_serial_fd Session.set_status_win Session.set_out_win
       Session.set_in_win Session.set_bytenuts_status
       Session.set_ingest_status Session.set_cheerios_status
       Session.set_cmdpg_status fst snd].

Ltac run_step :=
  erewrite bind_Some by (munfold; bsimpl; reflexivity); wnorm; bsimpl.

Section StartUp.
Import Session Runtime Bytenuts Lifecycle StatusSpec Layout.
Context `{status_enum}.

Lemma new_window_single_row cols y x :
  1 <= cols ->
  single_row (win_move 0 0 (new_window 1 cols y x))
             (replicate (Z.to_nat cols) blank).
Proof.
  intros Hc. unfold win_move, new_window. cbn [w_lines w_cols].
  replace (0 <? cols) with true by (symmetry; apply Z.ltb_lt; lia).
  cbn. unfold single_row. cbn. rewrite length_replicate. split_and!; try done. lia.
Qed.

Lemma new_window_geometry n c y x :
  geometry (win_move 0 0 (new_window n c y x)) = (n, c, y, x).
Proof. by rewrite geometry_win_move. Qed.

(** The body of [bytenuts_run] after the port is open, on the process
    before [main]. *)
Lemma bytenuts_run_start_ready
    (b : bytenuts_t) (fd lines cols : Z) (path : string) :
  serial_path (config b) = Some path ->
  bytenuts_status b = None -> cmdpg_status b = None ->
  0 <= fd -> 3 <= lines -> 1 <= cols ->
  exists w',
    bytenuts_run_start b fd lines cols world0 = Some (0, w') /\
    started w' /\ status_ready w' /\ tiled (scr w') /\
    LINES (scr w') = lines /\ COLS (scr w') = cols /\
    status_line w' = compose_status path "" "" "(null)" /\
    status_row w' = drawn_row (Z.to_nat cols) (status_line w') /\
    ingest_running (syn w') = true /\ cheerios_running (syn w') = true /\
    serial_fd (bn w') = fd /\ open_fds w' = [fd; 0; 1; 2] /\
    config (bn w') = config b.
Proof.
  intros Hpath Hbs Hcs Hfd Hlines Hcols.
  destruct status_enum_neq as (N1 & N2 & N3 & N4 & N5 & N6).
  unfold bytenuts_run_start, world0.
  run_step.
  rewrite (proj2 (Z.ltb_ge fd 0) Hfd).
  run_step. run_step. rewrite Hpath.
  destruct (bool_decide (Some path = Some "/dev/ptmx")).
  all: do 5 run_step.
  all: do 11 run_step.
  all: do 2 run_step.
  all: cbn [default].
  all: match goal with
       | |- context [(bytenuts_set_status ?u ?t ≫= _) ?W] =>
         assert (Hready : status_ready W);
           [|destruct (bytenuts_set_status_effect u t W) as
               (w2 & Hrun & Hready2 & Htxt & Hrow & Hin & Hout & Hst & HL & HC
                & Hfds & Hcw & Hck & Hir & Hcr & How & Hsfd & Hcfg);
             [apply list_elem_of_here|exact Hready|]]
       end.
  1,3: split; [reflexivity|]; split;
    [|split; [reflexivity|]; split; [reflexivity|]; split; [by eexists|];
      eexists _, _; split; [reflexivity|]; by apply new_window_single_row].
  1,2: unfold slots_ok, status_slots; bsimpl; rewrite Hbs, Hcs; cbn [omap id];
    assert (Hp1 : fresh (dom (<[fresh (dom (∅ : gmap loc string)) := ""]>
                               (∅ : gmap loc string)))
                  <> fresh (dom (∅ : gmap loc string)))
      by (intros Heq; apply (is_fresh (dom (<[fresh (dom (∅ : gmap loc string)) := ""]>
                                             (∅ : gmap loc string))));
          rewrite Heq at 1; set_solver);
    (split;
     [apply NoDup_cons; split;
      [by intros ?%list_elem_of_singleton|apply NoDup_singleton]
     |intros l Hl;
      repeat (apply elem_of_cons in Hl as [Hl|Hl]; [try discriminate Hl|]);
      [injection Hl as ->; rewrite lookup_insert_ne by done;
       rewrite lookup_insert_eq; by eexists
      |injection Hl as ->; rewrite lookup_insert_eq; by eexists
      |by apply elem_of_nil in Hl]]).
  all: erewrite bind_Some by exact Hrun.
  all: do 5 run_step.
  all: try run_step.
  all: eexists; (split; [munfold; reflexivity|]).
  all: destruct Hst as (ws & ws' & Hws & Hws' & Hgeo).
  all: revert Hin Hout Hws HL HC Hfds Hcw Hck Hir Hcr How Hsfd Hcfg Hrow;
    bsimpl; unfold status_width; bsimpl;
    intros Hin Hout [= <-] HL HC Hfds Hcw Hck Hir Hcr How Hsfd Hcfg Hrow.
  all: pose proof Hready2 as (Hh2 & Hok2 & Hsw2 & Hiw2 & Hwi2 & Hws2).
  all: rewrite new_window_geometry in Hgeo.
  all: assert (Hline : status_line w2 = compose_status path "" "" "(null)");
    [rewrite status_line_owners, !Htxt
       by (unfold known_owners; rewrite !elem_of_cons; tauto);
     rewrite decide_True by done;
     rewrite !decide_False by (done || by apply not_eq_sym);
     unfold owner_slot;
     rewrite !Z.eqb_refl,
       (proj2 (Z.eqb_neq STATUS_INGEST STATUS_BYTENUTS)),
       (proj2 (Z.eqb_neq STATUS_CHEERIOS STATUS_BYTENUTS)),
       (proj2 (Z.eqb_neq STATUS_CHEERIOS STATUS_INGEST)),
       (proj2 (Z.eqb_neq STATUS_CMDPAGE STATUS_BYTENUTS)),
       (proj2 (Z.eqb_neq STATUS_CMDPAGE STATUS_INGEST)),
       (proj2 (Z.eqb_neq STATUS_CMDPAGE STATUS_CHEERIOS))
       by (done || by apply not_eq_sym);
     bsimpl; rewrite Hcs; unfold slot_text; bsimpl;
     rewrite lookup_insert_eq, lookup_insert_ne, lookup_insert_eq
       by (by apply not_eq_sym); reflexivity|].
  all: clear Hready Hrun Htxt.
  all: cbn [cond_waiting cond_woken ingest_running cheerios_running w_cols
            win_move new_window] in Hcw, Hck, Hir, Hcr.
  all: match goal with
       | |- started ?W /\ _ =>
         set (Wf := W);
         assert (Hb : bn Wf = bn w2) by reflexivity;
         assert (Hp : heap Wf = heap w2) by reflexivity;
         assert (Hs : scr Wf = scr w2) by reflexivity;
         assert (Hh : held (syn Wf) = held (syn w2)) by reflexivity;
         assert (Hcw' : cond_waiting (syn Wf) = cond_waiting (syn w2)) by reflexivity;
         assert (Hck' : cond_woken (syn Wf) = cond_woken (syn w2)) by reflexivity;
         assert (Hir' : ingest_running (syn Wf) = true) by reflexivity;
         assert (Hcr' : cheerios_running (syn Wf) = true) by reflexivity;
         assert (Hf : open_fds Wf = open_fds w2) by reflexivity;
         clearbody Wf
       end.
  all: assert (Hwidth : status_width w2 = Z.to_nat cols)
         by (unfold status_width; rewrite Hws'; by injection Hgeo as _ -> _ _).
  all: split_and!.
  - unfold started, windows_ok. rewrite Hb, Hs, Hh, Hcw', Hck'.
    split_and!; try done; by eexists.
  - destruct Hready2 as (? & [? ?] & ?).
    unfold status_ready, slots_ok, status_window_ok. by rewrite Hb, Hp, Hs, Hh.
  - rewrite Hs. unfold tiled. rewrite HL, HC. eexists _, _, _.
    split_and!; try done; by rewrite new_window_geometry.
  - by rewrite Hs.
  - by rewrite Hs.
  - by rewrite (status_line_same w2 Wf Hb Hp).
  - rewrite (status_line_same w2 Wf Hb Hp). unfold status_row. rewrite Hs.
    fold (status_row w2). rewrite Hrow. f_equal.
    pose proof (new_window_geometry 1 cols (lines - 2) 0) as Hg.
    by injection Hg as _ -> _ _.
  - done.
  - done.
  - by rewrite Hb.
  - by rewrite Hf.
  - by rewrite Hb.
  - unfold started, windows_ok. rewrite Hb, Hs, Hh, Hcw', Hck'.
    split_and!; try done; by eexists.
  - destruct Hready2 as (? & [? ?] & ?).
    unfold status_ready, slots_ok, status_window_ok. by rewrite Hb, Hp, Hs, Hh.
  - rewrite Hs. unfold tiled. rewrite HL, HC. eexists _, _, _.
    split_and!; try done; by rewrite new_window_geometry.
  - by rewrite Hs.
  - by rewrite Hs.
  - by rewrite (status_line_same w2 Wf Hb Hp).
  - rewrite (status_line_same w2 Wf Hb Hp). unfold status_row. rewrite Hs.
    fold (status_row w2). rewrite Hrow. f_equal.
    pose proof (new_window_geometry 1 cols (lines - 2) 0) as Hg.
    by injection Hg as _ -> _ _.
  - done.
  - done.
  - by rewrite Hb.
  - by rewrite Hf.
  - by rewrite Hb.
Qed.

(** X24.  From the cleared session with a parsed command line, an open
    serial port and a terminal of at least three lines and one column,
    the body of [bytenuts_run] up to the wait returns 0 and leaves a
    session in which a stop request, a status update and the shutdown are
    defined: no mutex held, nobody waiting, the three windows covering
    the terminal, both engines running, the descriptor recorded and open.
    The status line reads the serial path, two empty texts and [(null)]
    for the command page, whose pointer is still NULL. *)
Theorem X24_start_up_leaves_a_ready_session
    (b : bytenuts_t) (fd lines cols : Z) (path : string) :
  serial_path (config b) = Some path ->
  bytenuts_status b = None -> cmdpg_status b = None ->
  0 <= fd -> 3 <= lines -> 1 <= cols ->
  exists w',
    bytenuts_run_start b fd lines cols world0 = Some (0, w') /\
    started w' /\ status_ready w' /\ tiled (scr w') /\
    LINES (scr w') = lines /\ COLS (scr w') = cols /\
    status_line w' = compose_status path "" "" "(null)" /\
    status_row w' = drawn_row (Z.to_nat cols) (status_line w') /\
    ingest_running (syn w') = true /\ cheerios_running (syn w') = true /\
    serial_fd (bn w') = fd /\ open_fds w' = [fd; 0; 1; 2] /\
    config (bn w') = config b.
Proof. apply bytenuts_run_start_ready. Qed.

End StartUp.

Section BootRun.
Import Termios CString Speed Session Config ConfigSpec ConfigFileSpec Runtime Bytenuts.
Import Lifecycle StatusSpec Layout Boot.
Context `{status_enum}.

Lemma parse_args_loop_config_only args b r b' :
  parse_args_loop args b = (r, b') ->
  exists c o, b' = set_config c (set_config_overrides o b).
Proof.
  remember (length args) as n eqn:Hn.
  revert args Hn b. induction (lt_wf n) as [n _ IH].
  intros args -> b.
  assert (Hrec : forall rest f g,
    (length rest < length args)%nat ->
    parse_args_loop rest (set_config_overrides (g (config_overrides b))
                            (set_config (f (config b)) b)) = (r, b') ->
    exists c o, b' = set_config c (set_config_overrides o b)).
  { intros rest f g Hlt Hrun.
    destruct (IH _ Hlt rest eq_refl _ Hrun) as (c & o & ->). by exists c, o. }
  assert (Hhere : forall b0, b0 = b -> (r, b') = (r, b') ->
            exists c o, b = set_config c (set_config_overrides o b)).
  { intros _ _ _. exists (config b), (config_overrides b). by destruct b. }
  destruct args as [|a rest]; cbn [parse_args_loop].
  { intros [= <- <-]. by apply (Hhere b). }
  destruct (strcmp_eq a "-h"); [intros [= <- <-]; by apply (Hhere b)|].
  destruct (strcmp_eq a "-b").
  { destruct rest as [|v rest']; [intros [= <- <-]; by apply (Hhere b)|].
    apply (Hrec rest' (set_baud _) id). cbn. lia. }
  destruct (strcmp_eq a "-l").
  { destruct rest as [|v rest']; [intros [= <- <-]; by apply (Hhere b)|].
    apply (Hrec rest' (set_log_path _) id). cbn. lia. }
  destruct (strcmp_eq a "-c").
  { destruct rest as [|v rest']; [intros [= <- <-]; by apply (Hhere b)|].
    apply (Hrec rest' (set_config_path _) id). cbn. lia. }
  destruct (_ && _).
  { destruct (is_char _ "1"); [|destruct (is_char _ "0")].
    - apply (Hrec rest (set_colors 1) (fun o => <[0%nat := 1]> o)). cbn. lia.
    - apply (Hrec rest (set_colors 0) (fun o => <[0%nat := 1]> o)). cbn. lia.
    - intros Hrun. apply (Hrec rest id (fun o => <[0%nat := 1]> o)); [cbn; lia|].
      by destruct b as [[] ? ? ? ? ? ? ? ? ?]. }
  destruct (_ && _).
  { destruct (is_char _ "1"); [|destruct (is_char _ "0")].
    - apply (Hrec rest (set_echo 1) (fun o => <[1%nat := 1]> o)). cbn. lia.
    - apply (Hrec rest (set_echo 0) (fun o => <[1%nat := 1]> o)). cbn. lia.
    - intros Hrun. apply (Hrec rest id (fun o => <[1%nat := 1]> o)); [cbn; lia|].
      by destruct b as [[] ? ? ? ? ? ? ? ? ?]. }
  destruct (_ && _).
  { destruct (is_char _ "1"); [|destruct (is_char _ "0")].
    - apply (Hrec rest (set_no_crlf 1) (fun o => <[2%nat := 1]> o)). cbn. lia.
    - apply (Hrec rest (set_no_crlf 0) (fun o => <[2%nat := 1]> o)). cbn. lia.
    - intros Hrun. apply (Hrec rest id (fun o => <[2%nat := 1]> o)); [cbn; lia|].
      by destruct b as [[] ? ? ? ? ? ? ? ? ?]. }
  destruct (_ && _).
  { apply (Hrec rest (set_escape _) (fun o => <[3%nat := 1]> o)). cbn. lia. }
  intros [= <- <-]. by apply (Hhere b).
Qed.

(** [parse_args] writes the configuration and the override flags, and
    nothing else of the session. *)
Lemma parse_args_config_only dflt home argv b r b' :
  parse_args dflt home argv b = (r, b') ->
  exists c o, b' = set_config c (set_config_overrides o b).
Proof.
  unfold parse_args.
  assert (Hhere : exists c o, b = set_config c (set_config_overrides o b)).
  { exists (config b), (config_overrides b). by destruct b. }
  destruct (_ <? _)%nat; [by intros [= <- <-]|].
  destruct (_ && _); [by intros [= <- <-]|].
  destruct (parse_args_loop _ _) as [rc b1] eqn:Hloop.
  apply parse_args_loop_config_only in Hloop as (c & o & ->).
  destruct rc; intros [= <- <-]; by eexists _, _.
Qed.


Lemma parse_args_serial_path dflt home argv b b' :
  parse_args dflt home argv b = (0, b') ->
  serial_path (config b') = last argv /\ is_Some (last argv).
Proof.
  unfold parse_args. destruct (_ <? _)%nat eqn:Hlen; [discriminate|].
  apply Nat.ltb_ge in Hlen.
  destruct (_ && _); [discriminate|].
  destruct (parse_args_loop _ _) as [r b1]. destruct r; [|discriminate..].
  intros [= <-]. cbn.
  destruct argv as [|a argv] using rev_ind; [cbn in Hlen; lia|].
  rewrite last_snoc, length_app. cbn [length].
  rewrite app_nth2 by lia. replace (_ - _)%nat with 0%nat by lia. by eauto.
Qed.

(** X25.  Start-up as a whole.  For every command line that
    [parse_args] accepts and every content of the configuration file,
    when the serial port opens and the terminal has at least three lines
    and one column, [bytenuts_run] reaches its wait with return code 0 so
    far: the configuration is the parsed one with the file applied, the
    session is ready for stop requests and status updates, the windows
    cover the terminal, both engines run, and the status line shows the
    last argument as the serial path. *)
Theorem X25_accepted_command_line_reaches_the_wait
    dflt home fs line0 argv serial_open lines cols b1 path :
  parse_args dflt home argv bytenuts_zero = (0, b1) ->
  last argv = Some path ->
  0 <= serial_open (Some path) (baud (config (load_configs fs line0 b1).2)) ->
  3 <= lines -> 1 <= cols ->
  exists w',
    bytenuts_run_until_wait dflt home fs line0 argv serial_open lines cols world0
    = Some (0, w') /\
    config (bn w') = config (load_configs fs line0 b1).2 /\
    started w' /\ status_ready w' /\ tiled (scr w') /\
    status_line w' = compose_status path "" "" "(null)" /\
    ingest_running (syn w') = true /\ cheerios_running (syn w') = true.
Proof.
  intros Hparse Hlast Hfd Hlines Hcols.
  unfold bytenuts_run_until_wait. rewrite Hparse. cbn [Z.eqb negb].
  pose proof (load_configs_returns_0 fs line0 b1) as Hret.
  destruct (load_configs fs line0 b1) as [rc b2] eqn:Hload. cbn [fst snd] in *.
  subst rc. cbn [Z.eqb negb].
  assert (Hb2 : b2 = (load_configs fs line0 b1).2) by (by rewrite Hload).
  destruct (load_configs_settings fs line0 b1) as (c & e & n & x & Hset).
  rewrite <- Hb2 in Hset.
  destruct (parse_args_config_only _ _ _ _ _ _ Hparse) as (c1 & o1 & Hb1).
  destruct (parse_args_serial_path _ _ _ _ _ Hparse) as [Hsp _].
  assert (Hpath : serial_path (config b2) = Some path).
  { rewrite Hset. cbn. by rewrite Hsp. }
  rewrite Hpath.
  destruct (bytenuts_run_start_ready b2 (serial_open (Some path) (baud (config b2))) lines cols path Hpath)
    as (w' & Hrun & Hst & Hrd & Htl & _ & _ & Hline & _ & Hir & Hcr & _ & _ & Hcfg);
    [by rewrite Hset, Hb1|by rewrite Hset, Hb1|done|done|done|].
  exists w'. by split_and!.
Qed.


End BootRun.

Section BootSamples.
Import Termios Session Config Runtime Bytenuts Lifecycle StatusSpec Layout Boot Samples.

Lemma X24_start_up_leaves_a_ready_session_witness :
  exists w',
    bytenuts_run_start (H := sample_enum)
      (sample_session ["bytenuts"; "/dev/ttyUSB0"]) 3 24 80 world0 = Some (0, w') /\
    started w' /\ status_ready w' /\ tiled (scr w') /\
    status_line w' = "|--/dev/ttyUSB0--|----|----|--(null)--|".
Proof.
  destruct (X24_start_up_leaves_a_ready_session (H := sample_enum)
              (sample_session ["bytenuts"; "/dev/ttyUSB0"]) 3 24 80 "/dev/ttyUSB0")
    as (w' & Hrun & Hst & Hrd & Htl & _ & _ & Hline & _);
    [reflexivity|reflexivity|reflexivity|lia|lia|lia|].
  exists w'. by split_and!.
Defined.

Lemma X25_accepted_command_line_reaches_the_wait_witness :
  exists w',
    bytenuts_run_until_wait (H := sample_enum) sample_default sample_home
      (sample_fs "echo=1") [] ["bytenuts"; "-b"; "9600"; "/dev/ttyUSB0"]
      (fun _ _ => 3) 24 80 world0 = Some (0, w') /\
    echo (config (bn w')) = 1 /\ baud (config (bn w')) = B9600 /\
    status_line w' = "|--/dev/ttyUSB0--|----|----|--(null)--|".
Proof.
  destruct (X25_accepted_command_line_reaches_the_wait (H := sample_enum)
              sample_default sample_home (sample_fs "echo=1") []
              ["bytenuts"; "-b"; "9600"; "/dev/ttyUSB0"] (fun _ _ => 3) 24 80
              (sample_session ["bytenuts"; "-b"; "9600"; "/dev/ttyUSB0"])
              "/dev/ttyUSB0")
    as (w' & Hrun & Hcfg & _ & _ & _ & Hline & _);
    [reflexivity|reflexivity|cbv beta; lia|lia|lia|].
  exists w'. split; [exact Hrun|]. rewrite Hcfg. by split_and!.
Defined.


End BootSamples.
